(** * Commute tracker: a shallow embedding of [main.py]

    The development follows the layout of the script: Python values and
    exceptions, IEEE binary64 arithmetic as CPython performs it, the JSON
    documents the script reads, the spreadsheet it writes to, and then the
    functions [get_routes], [log_route_to_sheet], [get_last_run_time],
    [update_last_run_time], [run_commute_tracker] and [main]. *)

From Stdlib Require Import ZArith Lia Bool List String Ascii.
From stdpp Require Import base option list strings gmap.

Local Open Scope Z_scope.

(** ** Binary64 floating point

    Python's [float] is the IEEE 754 binary64 format and CPython rounds
    every operation used by the script to nearest, ties to even.  Every
    finite double is an integer multiple of the smallest subnormal
    [2^-1074]; [FFin k] stands for the real number [k * 2^-1074].  The two
    zeros are identified (nothing below depends on the sign of a zero). *)

Module Float64.

Inductive float : Type :=
| FNan
| FInf (neg : bool)
| FFin (k : Z).

(** [1.0] counted in units of [2^-1074], and the first power of two that
    is too large for a double ([2^1024]) in the same units. *)
Definition one : Z := 2 ^ 1074.
Definition huge : Z := 2 ^ 2098.

(** Nearest integer to [a / d] for [0 < d], ties to the even neighbour. *)
Definition rne (a d : Z) : Z :=
  let q := a / d in
  let r := a mod d in
  if 2 * r <? d then q
  else if d <? 2 * r then q + 1
  else if Z.even q then q else q + 1.

(** Spacing of the doubles around [a / d] (in units): 53 significant
    bits, never finer than one unit (the subnormal range). *)
Definition ulp (a d : Z) : Z := 2 ^ Z.max 0 (Z.log2 (Z.abs a / d) - 52).

(** The finite grid point nearest to [a / d] units, before the range
    check. *)
Definition rnd (a d : Z) : Z := rne a (d * ulp a d) * ulp a d.

(** Correct rounding of the rational [a / d] units ([0 < d]) to a double. *)
Definition rn64 (a d : Z) : float :=
  let k := rnd a d in
  if huge <=? Z.abs k then FInf (k <? 0) else FFin k.

(** The double denoted by the decimal literal [n / 10^p]. *)
Definition of_decimal (n : Z) (p : Z) : float := rn64 (n * one) (10 ^ p).

(** [float(z)] for a Python int; [None] stands for [OverflowError]. *)
Definition of_int (z : Z) : option float :=
  match rn64 (z * one) 1 with
  | FFin k => Some (FFin k)
  | _ => None
  end.

(** IEEE division of two doubles; [None] stands for Python's
    [ZeroDivisionError]. *)
Definition div (x y : float) : option float :=
  match y with
  | FFin 0 => None
  | FNan => Some FNan
  | FInf ny =>
      match x with
      | FFin _ => Some (FFin 0)
      | _ => Some FNan
      end
  | FFin b =>
      match x with
      | FNan => Some FNan
      | FInf nx => Some (FInf (xorb nx (b <? 0)))
      | FFin a => Some (rn64 (Z.sgn b * a * one) (Z.abs b))
      end
  end.

(** Python's [<] and [<=] on floats: false whenever a NaN is involved. *)
Definition ltb (x y : float) : bool :=
  match x, y with
  | FNan, _ | _, FNan => false
  | FInf nx, FInf ny => nx && negb ny
  | FInf nx, FFin _ => nx
  | FFin _, FInf ny => negb ny
  | FFin a, FFin b => a <? b
  end.

Definition leb (x y : float) : bool :=
  match x, y with
  | FNan, _ | _, FNan => false
  | FInf nx, FInf ny => nx || negb ny
  | FInf nx, FFin _ => nx
  | FFin _, FInf ny => negb ny
  | FFin a, FFin b => a <=? b
  end.

(** [round(x, 1)]: the exact value of [x] is rounded to one decimal
    (ties to even) and the decimal [n / 10] is converted back to the
    nearest double; NaN and the infinities round to themselves.  [None]
    stands for [OverflowError]. *)
Definition round1 (x : float) : option float :=
  match x with
  | FFin k =>
      match rn64 (rne (10 * k) one * one) 10 with
      | FFin r => Some (FFin r)
      | _ => None
      end
  | _ => Some x
  end.

End Float64.

Import Float64.

(** ** Python values

    Exceptions raised by the script and the libraries it calls, and the
    values that come out of [json.load] and [response.json()].  A Python
    [str] is kept as the string of its UTF-8 bytes. *)

Inductive exn : Type :=
| KeyError (key : string)
| IndexError
| TypeError
| AttributeError
| ValueError
| OverflowError
| ZeroDivisionError
| RequestException
| JSONDecodeError
| OSError
| APIError
| WorksheetNotFound.

Inductive result (A : Type) : Type :=
| Ok (a : A)
| Raise (e : exn).

Arguments Ok {A} a.
Arguments Raise {A} e.

#[global] Instance result_ret : MRet result := fun A a => Ok a.
#[global] Instance result_bind : MBind result := fun A B f r =>
  match r with
  | Ok a => f a
  | Raise e => Raise e
  end.

Definition or_raise {A : Type} (e : exn) (o : option A) : result A :=
  match o with
  | Some a => Ok a
  | None => Raise e
  end.

Set Warnings "-register-all".

Inductive json : Type :=
| JNull
| JBool (b : bool)
| JInt (z : Z)
| JFloat (x : float)
| JStr (s : string)
| JArr (l : list json)
| JObj (kv : list (string * json)).

(** [d.get(k)] on the items of a dict. *)
Fixpoint assoc (k : string) (kv : list (string * json)) : option json :=
  match kv with
  | [] => None
  | (k', v) :: kv' => if String.eqb k k' then Some v else assoc k kv'
  end.

(** [d[k]] *)
Definition getitem (d : json) (k : string) : result json :=
  match d with
  | JObj kv => or_raise (KeyError k) (assoc k kv)
  | _ => Raise TypeError
  end.

(** [d.get(k, dflt)] *)
Definition get_default (d : json) (k : string) (dflt : json) : result json :=
  match d with
  | JObj kv => Ok (default dflt (assoc k kv))
  | _ => Raise AttributeError
  end.

(** [l[0]] *)
Definition first_item (l : json) : result json :=
  match l with
  | JArr (x :: _) => Ok x
  | JArr [] => Raise IndexError
  | JStr (String c _) => Ok (JStr (String c EmptyString))
  | JStr EmptyString => Raise IndexError
  | JObj _ => Raise (KeyError "0")
  | _ => Raise TypeError
  end.

(** Truth value of a Python object, as tested by [if x] and [x and y]. *)
Definition truthy (v : json) : bool :=
  match v with
  | JNull => false
  | JBool b => b
  | JInt z => negb (z =? 0)
  | JFloat (FFin 0) => false
  | JFloat _ => true
  | JStr s => negb (String.eqb s EmptyString)
  | JArr l => negb (Nat.eqb (List.length l) 0)
  | JObj kv => negb (Nat.eqb (List.length kv) 0)
  end.

Fixpoint chars (s : string) : list json :=
  match s with
  | EmptyString => []
  | String c s' => JStr (String c EmptyString) :: chars s'
  end.

(** The items visited by [for x in v]. *)
Definition iter (v : json) : result (list json) :=
  match v with
  | JArr l => Ok l
  | JObj kv => Ok (map (fun p => JStr (fst p)) kv)
  | JStr s => Ok (chars s)
  | _ => Raise TypeError
  end.

(** *** Strings *)

Fixpoint is_prefix (p s : string) : bool :=
  match p, s with
  | EmptyString, _ => true
  | String a p', String b s' => Ascii.eqb a b && is_prefix p' s'
  | String _ _, EmptyString => false
  end.

Fixpoint contains (p s : string) : bool :=
  is_prefix p s ||
  match s with
  | EmptyString => false
  | String _ s' => contains p s'
  end.

(** [s.replace(old, new)] for a non-empty [old]: occurrences are replaced
    from left to right and do not overlap.  [skip] counts the characters of
    a matched occurrence that are still to be dropped. *)
Fixpoint replace_from (old new : string) (skip : nat) (s : string) : string :=
  match s with
  | EmptyString => EmptyString
  | String c s' =>
      match skip with
      | S k => replace_from old new k s'
      | O =>
          if is_prefix old s
          then new +:+ replace_from old new (Nat.pred (String.length old)) s'
          else String c (replace_from old new O s')
      end
  end.

Definition replace (old new s : string) : string := replace_from old new O s.

(** [sep.join(parts)] *)
Fixpoint join (sep : string) (parts : list string) : string :=
  match parts with
  | [] => EmptyString
  | [p] => p
  | p :: rest => p +:+ sep +:+ join sep rest
  end.

(** [not s.strip()]: only white space (ASCII white space is modelled). *)
Definition is_space (c : ascii) : bool :=
  let n := nat_of_ascii c in
  (Nat.leb 9 n && Nat.leb n 13) || (Nat.leb 28 n && Nat.leb n 32).

Fixpoint blank (s : string) : bool :=
  match s with
  | EmptyString => true
  | String c s' => is_space c && blank s'
  end.

(** [x in v] for a string [x]. *)
Definition str_in (x : string) (v : json) : result bool :=
  match v with
  | JArr l => Ok (existsb (fun e => match e with JStr s => String.eqb s x | _ => false end) l)
  | JObj kv => Ok (existsb (fun p => String.eqb (fst p) x) kv)
  | JStr s => Ok (contains x s)
  | _ => Raise TypeError
  end.

(** *** Numbers *)

(** An operand of Python's arithmetic: an int (bools included) or a
    float. *)
Inductive number : Type :=
| NInt (z : Z)
| NFloat (x : float).

Definition as_number (v : json) : result number :=
  match v with
  | JBool b => Ok (NInt (if b then 1 else 0))
  | JInt z => Ok (NInt z)
  | JFloat x => Ok (NFloat x)
  | _ => Raise TypeError
  end.

Definition to_float (n : number) : result float :=
  match n with
  | NInt z => or_raise OverflowError (of_int z)
  | NFloat x => Ok x
  end.

(** [a / b]: true division.  Two ints are divided exactly and the quotient
    is rounded once; otherwise both operands are converted to float. *)
Definition truediv (a b : number) : result float :=
  match a, b with
  | NInt p, NInt q =>
      if q =? 0 then Raise ZeroDivisionError
      else match rn64 (Z.sgn q * p * one) (Z.abs q) with
           | FFin k => Ok (FFin k)
           | _ => Raise OverflowError
           end
  | _, _ =>
      x ← to_float a;
      y ← to_float b;
      or_raise ZeroDivisionError (div x y)
  end.

(** [round(x, 1)] for a float [x]. *)
Definition py_round1 (x : float) : result float :=
  or_raise OverflowError (round1 x).

(** The literals [60.0] and [1609.34] of the script. *)
Definition sixty : float := of_decimal 600 1.
Definition meters_per_mile : float := of_decimal 160934 2.

(** ** Dates and times

    [datetime] objects are kept by their civil fields and, when aware,
    their offset from UTC in seconds. *)

Record naive : Type := mkNaive {
  year : Z; month : Z; day : Z;
  hour : Z; minute : Z; second : Z; microsecond : Z
}.

Record datetime : Type := mkDatetime {
  civil : naive;
  utcoffset : option Z
}.

(** Days from 1970-01-01 to the given date of the proleptic Gregorian
    calendar. *)
Definition days_from_civil (y m d : Z) : Z :=
  let y' := if m <=? 2 then y - 1 else y in
  let era := y' / 400 in
  let yoe := y' - era * 400 in
  let mp := (m + 9) mod 12 in
  let doy := (153 * mp + 2) / 5 + d - 1 in
  let doe := yoe * 365 + yoe / 4 - yoe / 100 + doy in
  era * 146097 + doe - 719468.

Definition day_names : list string :=
  ["Monday"; "Tuesday"; "Wednesday"; "Thursday"; "Friday"; "Saturday"; "Sunday"]%string.

(** [dt.strftime("%A")] *)
Definition weekday_name (dt : datetime) : string :=
  let c := civil dt in
  let wd := (days_from_civil (year c) (month c) (day c) + 3) mod 7 in
  nth (Z.to_nat wd) day_names EmptyString.

(** Microseconds since the epoch (read as UTC when the value is aware). *)
Definition instant (dt : datetime) : Z :=
  let c := civil dt in
  ((days_from_civil (year c) (month c) (day c) * 86400
    + hour c * 3600 + minute c * 60 + second c
    - default 0 (utcoffset dt)) * 1000000) + microsecond c.

(** [a - b] as a [timedelta], kept in microseconds. *)
Definition dt_sub (a b : datetime) : result Z :=
  match utcoffset a, utcoffset b with
  | Some _, Some _ | None, None => Ok (instant a - instant b)
  | _, _ => Raise TypeError
  end.

(** [td.total_seconds()]: an exact int division by [10**6], rounded once. *)
Definition total_seconds (td : Z) : result float :=
  truediv (NInt td) (NInt 1000000).

(** [dt.replace(second=0, microsecond=0)] *)
Definition truncate_to_minute (dt : datetime) : datetime :=
  let c := civil dt in
  mkDatetime (mkNaive (year c) (month c) (day c) (hour c) (minute c) 0 0) (utcoffset dt).

(** [dt.time()] and the order on [time] objects. *)
Definition time_of_day : Type := (Z * Z * Z * Z)%type.

Definition time_of (dt : datetime) : time_of_day :=
  let c := civil dt in (hour c, minute c, second c, microsecond c).

(** Tuple order on (hour, minute, second, microsecond). *)
Definition time_compare (a b : time_of_day) : comparison :=
  let '(h1, m1, s1, u1) := a in
  let '(h2, m2, s2, u2) := b in
  match h1 ?= h2 with
  | Eq => match m1 ?= m2 with
          | Eq => match s1 ?= s2 with
                  | Eq => u1 ?= u2
                  | c => c
                  end
          | c => c
          end
  | c => c
  end.

Definition time_le (a b : time_of_day) : bool :=
  match time_compare a b with
  | Gt => false
  | _ => true
  end.

(** The last [w] decimal digits of [z], zero padded. *)
Fixpoint digits (w : nat) (z : Z) : string :=
  match w with
  | O => EmptyString
  | S w' => digits w' (z / 10) +:+ String (ascii_of_nat (48 + Z.to_nat (z mod 10))) EmptyString
  end.

(** [dt.strftime("%Y-%m-%d %H:%M:%S")] *)
Definition strftime_stamp (dt : datetime) : string :=
  let c := civil dt in
  digits 4 (year c) +:+ "-" +:+ digits 2 (month c) +:+ "-" +:+ digits 2 (day c) +:+ " "
  +:+ digits 2 (hour c) +:+ ":" +:+ digits 2 (minute c) +:+ ":" +:+ digits 2 (second c).

(** [dt.isoformat()] *)
Definition isoformat (dt : datetime) : string :=
  let c := civil dt in
  digits 4 (year c) +:+ "-" +:+ digits 2 (month c) +:+ "-" +:+ digits 2 (day c) +:+ "T"
  +:+ digits 2 (hour c) +:+ ":" +:+ digits 2 (minute c) +:+ ":" +:+ digits 2 (second c)
  +:+ (if microsecond c =? 0 then EmptyString else "." +:+ digits 6 (microsecond c))
  +:+ match utcoffset dt with
      | None => EmptyString
      | Some off =>
          let a := Z.abs off in
          (if off <? 0 then "-" else "+") +:+ digits 2 (a / 3600) +:+ ":" +:+ digits 2 (a mod 3600 / 60)
          +:+ (if a mod 60 =? 0 then EmptyString else ":" +:+ digits 2 (a mod 60))
      end.

(** [datetime.strptime(s, "%H:%M").time()].  The directive [%H] accepts
    [2[0-3]], [[0-1]\d] or one digit, [%M] accepts [[0-5]\d] or one digit,
    and the whole string must be consumed; [None] stands for [ValueError].
    ASCII digits are modelled. *)
Definition digit_of (c : ascii) : option Z :=
  let n := nat_of_ascii c in
  if Nat.leb 48 n && Nat.leb n 57 then Some (Z.of_nat n - 48) else None.

Definition parse_hour (cs : list ascii) : option Z :=
  match cs with
  | [a] => digit_of a
  | [a; b] =>
      x ← digit_of a;
      y ← digit_of b;
      if (x =? 2) && (y <=? 3) || (x <=? 1) then Some (10 * x + y) else None
  | _ => None
  end.

Definition parse_minute (cs : list ascii) : option Z :=
  match cs with
  | [a] => digit_of a
  | [a; b] =>
      x ← digit_of a;
      y ← digit_of b;
      if x <=? 5 then Some (10 * x + y) else None
  | _ => None
  end.

Fixpoint split_colon (cs : list ascii) : option (list ascii * list ascii) :=
  match cs with
  | [] => None
  | c :: cs' =>
      if Ascii.eqb c ":"%char then Some ([], cs')
      else '(h, m) ← split_colon cs'; Some (c :: h, m)
  end.

Definition strptime_HM (s : string) : option time_of_day :=
  '(hs, ms) ← split_colon (list_ascii_of_string s);
  h ← parse_hour hs;
  m ← parse_minute ms;
  Some (h, m, 0, 0).

(** ** The outside world

    Everything the script reaches through a library is gathered in an
    environment [env]: the wall clock, the directions provider, the
    configuration file, and the points at which a call to the Sheets API
    fails.  The oracles that may answer differently from one call to the
    next are indexed by the number of outside calls made so far. *)

Record response : Type := mkResponse {
  status_code : Z;
  text : string;
  json_body : result json      (* [response.json()] *)
}.

Record env : Type := mkEnv {
  (** [datetime.now(TIMEZONE)]: civil fields and UTC offset in seconds *)
  clock : nat -> naive * Z;
  (** the offset [TIMEZONE.localize] gives to a naive value *)
  chicago_offset : naive -> Z;
  (** [datetime.fromisoformat]; [None] stands for [ValueError] *)
  fromisoformat : string -> option datetime;
  (** [float(s)] for a string; [None] stands for [ValueError] *)
  float_of_str : string -> option float;
  (** [str(v)], as an f-string renders a value *)
  py_str : json -> string;
  (** [os.getenv("GOOGLE_MAPS_API_KEY")] *)
  maps_api_key : option string;
  (** [requests.get(url)] *)
  requests_get : nat -> string -> result response;
  (** [open(CONFIG_FILE)] followed by [json.load] *)
  config_file : result json;
  (** whether the Sheets (or credentials) call made at this point fails *)
  api_fails : nat -> bool;
  (** the text a stored cell value is displayed as *)
  cell_text : json -> string;
  (** the value [get_all_records] turns a cell text into *)
  numericise : string -> json
}.

(** *** The spreadsheet *)

Abbreviation row := (list json).
Abbreviation worksheet := (list row).

(** What the script prints, one constructor per [print] statement. *)
Inductive message : Type :=
| MsgCreatedSheet (name : string)
| MsgAddedHeaders (name : string)
| MsgHeaderMismatch (name : string)
| MsgMapsError (body : string)
| MsgRoute (summary normal traffic : json)
| MsgSkipDay (route_name : string)
| MsgSkipWindow (route_name : string) (start end_ : json)
| MsgSkipInterval (route_name : string) (diff : float)
| MsgNoRoutes (route_name : string)
| MsgInvalidDate (route_name : string) (val : string)
| MsgLogReadFailed (route_name : string) (e : exn)
| MsgAddedLogEntry (route_name : string)
| MsgLogUpdateFailed (route_name : string) (e : exn)
| MsgStarting
| MsgTriggered
| MsgExceptionType (e : exn)
| MsgError (e : exn).

(** Calls that leave the process. *)
Inductive call : Type :=
| CallNow
| CallGet (url : string)
| CallAuthorize
| CallOpen (title : string)
| CallWorksheet (title : string)
| CallAddWorksheet (title : string)
| CallGetAllValues (tab : string)
| CallClear (tab : string)
| CallAppendRow (tab : string) (values : row)
| CallGetAllRecords (tab : string)
| CallFind (tab : string) (query : string)
| CallUpdateCell (tab : string) (r c : nat) (value : json)
| CallLoadConfig.

Inductive event : Type :=
| Print (m : message)
| Called (c : call).

(** The state threaded through the script: the number of outside calls
    made, the tabs of the [CommuteData] spreadsheet by title, and the log of
    what happened, oldest first. *)
Record state : Type := mkState {
  tick : nat;
  book : gmap string worksheet;
  trace : list event
}.

Definition M (A : Type) : Type := state -> result A * state.

#[global] Instance M_ret : MRet M := fun A a st => (Ok a, st).
#[global] Instance M_bind : MBind M := fun A B f m st =>
  match m st with
  | (Ok a, st') => f a st'
  | (Raise e, st') => (Raise e, st')
  end.

Definition raise {A : Type} (e : exn) : M A := fun st => (Raise e, st).

Definition lift {A : Type} (r : result A) : M A := fun st => (r, st).

(** [try: body except Exception as e: handler(e)] *)
Definition try_except {A : Type} (body : M A) (handler : exn -> M A) : M A := fun st =>
  match body st with
  | (Ok a, st') => (Ok a, st')
  | (Raise e, st') => handler e st'
  end.

(** [print(...)] *)
Definition print (m : message) : M unit := fun st =>
  (Ok tt, mkState (tick st) (book st) (trace st ++ [Print m])).

(** An outside call: it is logged and counted, then answered. *)
Definition outside (c : call) : M nat := fun st =>
  (Ok (tick st), mkState (S (tick st)) (book st) (trace st ++ [Called c])).

Definition get_book : M (gmap string worksheet) := fun st => (Ok (book st), st).

Definition put_book (b : gmap string worksheet) : M unit := fun st =>
  (Ok tt, mkState (tick st) b (trace st)).

(** [for x in xs: body(x)] *)
Fixpoint for_each {A : Type} (xs : list A) (body : A -> M unit) : M unit :=
  match xs with
  | [] => mret tt
  | x :: xs' => body x;; for_each xs' body
  end.

Section Script.

Context (E : env).

(** *** gspread

    A worksheet object is identified by the title of its tab.  A call
    either fails as a whole ([APIError], the spreadsheet is left as it was)
    or takes effect. *)

Definition sheets_call (c : call) : M unit :=
  n ← outside c;
  if api_fails E n then raise APIError else mret tt.

Definition with_tab {A : Type} (tab : string) (f : worksheet -> M A) : M A :=
  b ← get_book;
  match b !! tab with
  | Some ws => f ws
  | None => raise APIError
  end.

(** [sh.worksheet(title)] *)
Definition sh_worksheet (title : string) : M string :=
  sheets_call (CallWorksheet title);;
  b ← get_book;
  match b !! title with
  | Some _ => mret title
  | None => raise WorksheetNotFound
  end.

(** [sh.add_worksheet(title=title, rows=1000, cols=10)] *)
Definition add_worksheet (title : string) : M string :=
  sheets_call (CallAddWorksheet title);;
  b ← get_book;
  match b !! title with
  | Some _ => raise APIError
  | None => put_book (<[title := []]> b);; mret title
  end.

(** [ws.get_all_values()] *)
Definition get_all_values (tab : string) : M (list (list string)) :=
  sheets_call (CallGetAllValues tab);;
  with_tab tab (fun ws => mret (map (map (cell_text E)) ws)).

(** [ws.clear()] *)
Definition clear (tab : string) : M unit :=
  sheets_call (CallClear tab);;
  with_tab tab (fun _ => b ← get_book; put_book (<[tab := []]> b)).

(** [ws.append_row(values)] *)
Definition append_row (tab : string) (values : row) : M unit :=
  sheets_call (CallAppendRow tab values);;
  with_tab tab (fun ws => b ← get_book; put_book (<[tab := ws ++ [values]]> b)).

(** [ws.get_all_records()]: the first row gives the keys, which must be
    distinct; each later row becomes a dict, short rows read as empty
    cells. *)
Definition record_of (keys : list string) (r : row) : list (string * json) :=
  imap (fun i k => (k, numericise E (default EmptyString (cell_text E <$> r !! i)))) keys.

Definition records_of (ws : worksheet) : result (list (list (string * json))) :=
  match ws with
  | [] => Ok []
  | header :: rest =>
      let keys := map (cell_text E) header in
      if bool_decide (NoDup keys) then Ok (map (record_of keys) rest) else Raise APIError
  end.

Definition get_all_records (tab : string) : M (list (list (string * json))) :=
  sheets_call (CallGetAllRecords tab);;
  with_tab tab (fun ws => lift (records_of ws)).

(** [ws.find(query)]: the first cell, row by row, whose text is [query],
    as its 1-based (row, column). *)
Fixpoint find_in_row (query : string) (cells : row) (c : nat) : option nat :=
  match cells with
  | [] => None
  | x :: xs => if String.eqb (cell_text E x) query then Some c else find_in_row query xs (S c)
  end.

Fixpoint find_cell (query : string) (ws : worksheet) (r : nat) : option (nat * nat) :=
  match ws with
  | [] => None
  | cells :: rest =>
      match find_in_row query cells 1 with
      | Some c => Some (r, c)
      | None => find_cell query rest (S r)
      end
  end.

Definition find (tab : string) (query : string) : M (option (nat * nat)) :=
  sheets_call (CallFind tab query);;
  with_tab tab (fun ws => mret (find_cell query ws 1)).

(** [ws.update_cell(r, c, value)], rows and columns counted from 1. *)
Definition pad_to {A : Type} (n : nat) (x : A) (l : list A) : list A :=
  l ++ replicate (n - length l) x.

Definition set_cell (r c : nat) (value : json) (ws : worksheet) : worksheet :=
  let ws' := pad_to r [] ws in
  match ws' !! Nat.pred r with
  | Some cells => <[Nat.pred r := <[Nat.pred c := value]> (pad_to c (JStr EmptyString) cells)]> ws'
  | None => ws'
  end.

Definition update_cell (tab : string) (r c : nat) (value : json) : M unit :=
  sheets_call (CallUpdateCell tab r c value);;
  with_tab tab (fun ws => b ← get_book; put_book (<[tab := set_cell r c value ws]> b)).

(** ** The script *)

Definition SHEET_NAME : string := "CommuteData".

(** [now_chicago()] *)
Definition now_chicago : M datetime :=
  n ← outside CallNow;
  let '(c, off) := clock E n in
  mret (truncate_to_minute (mkDatetime c (Some off))).

(** [get_gspread_client()]: the credentials are read or obtained and the
    client authorised, in one outside call. *)
Definition get_gspread_client : M unit := sheets_call CallAuthorize.

Definition headers : list string :=
  ["Timestamp"; "Day"; "Route"; "Duration (min)"; "Length (miles)"; "Directions"]%string.

Definition get_or_create_worksheet (name : string) : M string :=
  ws ← try_except (sh_worksheet name)
         (fun e =>
            match e with
            | WorksheetNotFound =>
                ws ← add_worksheet name;
                print (MsgCreatedSheet name);;
                mret ws
            | _ => raise e
            end);
  existing_values ← get_all_values ws;
  (if Nat.eqb (length existing_values) 0 || forallb (forallb blank) existing_values
   then
     clear ws;;
     append_row ws (map JStr headers);;
     print (MsgAddedHeaders name)
   else if bool_decide (head existing_values ≠ Some headers) && negb (String.eqb name "LastRunLog")
   then print (MsgHeaderMismatch name)
   else mret tt);;
  mret ws.

(** *** Directions *)

Definition fstr (v : json) : string :=
  match v with
  | JStr s => s
  | _ => py_str E v
  end.

Definition api_key : string :=
  match maps_api_key E with
  | Some k => if String.eqb k EmptyString then "<YOUR_API_KEY_HERE>" else k
  | None => "<YOUR_API_KEY_HERE>"
  end.

Definition directions_url (origin destination : json) : string :=
  "https://maps.googleapis.com/maps/api/directions/json"
  +:+ "?origin=" +:+ fstr origin
  +:+ "&destination=" +:+ fstr destination
  +:+ "&mode=driving"
  +:+ "&alternatives=true"
  +:+ "&departure_time=now"
  +:+ "&traffic_model=best_guess"
  +:+ "&key=" +:+ api_key.

(** [r["legs"][0]] *)
Definition first_leg (r : json) : result json :=
  legs ← getitem r "legs";
  first_item legs.

Definition get_routes (origin destination : json) : M json :=
  let url := directions_url origin destination in
  n ← outside (CallGet url);
  response ← lift (requests_get E n url);
  if negb (status_code response =? 200) then
    print (MsgMapsError (text response));;
    mret (JArr [])
  else
    data ← lift (json_body response);
    routes ← lift (get_default data "routes" (JArr []));
    rs ← lift (iter routes);
    for_each rs (fun r =>
      leg ← lift (first_leg r);
      normal ← lift (d ← getitem leg "duration"; getitem d "text");
      traffic ← lift (t ← get_default leg "duration_in_traffic" (JObj []);
                      get_default t "text" (JStr "no traffic"));
      summary ← lift (get_default r "summary" (JStr "N/A"));
      print (MsgRoute summary normal traffic));;
    mret routes.

(** *** Run state *)

(** The [for row in records] loop of [get_last_run_time], which returns
    from inside the loop at the first row of the route that has a value. *)
Fixpoint scan_records (route_name : string) (records : list (list (string * json)))
  : M (option datetime) :=
  match records with
  | [] => mret None
  | r :: records' =>
      match assoc "Route" r with
      | Some (JStr name) =>
          if String.eqb name route_name then
            let val := default JNull (assoc "LastRun" r) in
            if truthy val then
              match val with
              | JStr s =>
                  match fromisoformat E s with
                  | Some last_dt =>
                      match utcoffset last_dt with
                      | None =>
                          mret (Some (mkDatetime (civil last_dt)
                                        (Some (chicago_offset E (civil last_dt)))))
                      | Some _ => mret (Some last_dt)
                      end
                  | None =>
                      print (MsgInvalidDate route_name s);;
                      mret None
                  end
              | _ => raise TypeError
              end
            else scan_records route_name records'
          else scan_records route_name records'
      | _ => scan_records route_name records'
      end
  end.

Definition get_last_run_time (ws_log : string) (route_name : string) : M (option datetime) :=
  try_except
    (records ← get_all_records ws_log;
     scan_records route_name records)
    (fun e =>
       print (MsgLogReadFailed route_name e);;
       mret None).

Definition update_last_run_time (ws_log : string) (route_name : string) (timestamp : datetime) : M unit :=
  try_except
    (cell ← find ws_log route_name;
     match cell with
     | Some (r, _) => update_cell ws_log r 2 (JStr (isoformat timestamp))
     | None =>
         append_row ws_log [JStr route_name; JStr (isoformat timestamp)];;
         print (MsgAddedLogEntry route_name)
     end)
    (fun e => print (MsgLogUpdateFailed route_name e)).

(** *** Logging routes *)

(** [round(leg.get("duration_in_traffic", leg["duration"])["value"] / 60, 1)];
    the default argument [leg["duration"]] is evaluated before the call. *)
Definition duration_min (leg : json) : result float :=
  d ← match leg with
      | JObj kv =>
          base ← getitem leg "duration";
          Ok (default base (assoc "duration_in_traffic" kv))
      | _ => Raise AttributeError
      end;
  v ← getitem d "value";
  n ← as_number v;
  x ← truediv n (NInt 60);
  py_round1 x.

(** [round(leg["distance"]["value"] / 1609.34, 1)] *)
Definition distance_mi (leg : json) : result float :=
  d ← getitem leg "distance";
  v ← getitem d "value";
  n ← as_number v;
  x ← truediv n (NFloat meters_per_mile);
  py_round1 x.

(** [step["html_instructions"].replace("<b>", "").replace("</b>", "")] *)
Definition clean_step (step : json) : result string :=
  h ← getitem step "html_instructions";
  match h with
  | JStr s => Ok (replace "</b>" "" (replace "<b>" "" s))
  | _ => Raise AttributeError
  end.

Fixpoint clean_steps (steps : list json) : result (list string) :=
  match steps with
  | [] => Ok []
  | step :: steps' =>
      s ← clean_step step;
      rest ← clean_steps steps';
      Ok (s :: rest)
  end.

(** [" → ".join(... for step in steps)] with [steps = leg.get("steps", [])] *)
Definition turn_by_turn (leg : json) : result string :=
  steps ← get_default leg "steps" (JArr []);
  items ← iter steps;
  parts ← clean_steps items;
  Ok (join " → " parts).

(** [urllib.parse.quote(v)] is only defined on strings; the link built from
    it is never used, so only the failure is kept. *)
Definition quote_check (v : json) : result unit :=
  match v with
  | JStr _ => Ok tt
  | _ => Raise TypeError
  end.

(** [float(interval)] *)
Definition py_float (v : json) : result float :=
  match v with
  | JStr s => or_raise ValueError (float_of_str E s)
  | _ => n ← as_number v; to_float n
  end.

(** [datetime.strptime(v, "%H:%M").time()] *)
Definition strptime_time (v : json) : result time_of_day :=
  match v with
  | JStr s => or_raise ValueError (strptime_HM s)
  | _ => Raise TypeError
  end.

(** The body of the [for r in routes] loop of [log_route_to_sheet]. *)
Definition log_alternative (ws : string) (origin destination : json) (now : datetime) (r : json)
  : M unit :=
  leg ← lift (first_leg r);
  duration ← lift (duration_min leg);
  distance ← lift (distance_mi leg);
  summary ← lift (get_default r "summary" (JStr "N/A"));
  directions ← lift (turn_by_turn leg);
  lift (quote_check origin);;
  lift (quote_check destination);;
  append_row ws
    [JStr (strftime_stamp now); JStr (weekday_name now); summary;
     JFloat duration; JFloat distance; JStr directions].

(** The part of [log_route_to_sheet] that follows the gate, from
    [routes = get_routes(origin, destination)] to the end. *)
Definition fetch_and_log (ws ws_log : string) (route_name : string)
    (origin destination : json) (now : datetime) : M unit :=
  routes ← get_routes origin destination;
  if negb (truthy routes) then print (MsgNoRoutes route_name) else
  rs ← lift (iter routes);
  for_each rs (log_alternative ws origin destination now);;
  update_last_run_time ws_log route_name now.

(** The gate, then [fetch_and_log]. *)
Definition log_route_to_sheet (ws ws_log : string) (route_name : string)
    (origin destination interval days start end_ : json) : M unit :=
  now ← now_chicago;
  skip_day ← lift (if truthy days
                   then listed ← str_in (weekday_name now) days; Ok (negb listed)
                   else Ok false);
  if skip_day : bool then print (MsgSkipDay route_name) else
  skip_window ← lift (if truthy start && truthy end_
                      then
                        let t := time_of now in
                        start_t ← strptime_time start;
                        end_t ← strptime_time end_;
                        Ok (negb (time_le start_t t && time_le t end_t))
                      else Ok false);
  if skip_window : bool then print (MsgSkipWindow route_name start end_) else
  last_dt ← get_last_run_time ws_log route_name;
  cooldown ← lift (match last_dt with
                   | Some last =>
                       td ← dt_sub now last;
                       secs ← total_seconds td;
                       diff ← or_raise ZeroDivisionError (div secs sixty);
                       min_gap ← py_float interval;
                       Ok (if ltb diff min_gap then Some diff else None)
                   | None => Ok None
                   end);
  match cooldown with
  | Some diff => print (MsgSkipInterval route_name diff)
  | None => fetch_and_log ws ws_log route_name origin destination now
  end.

(** *** Main logic *)

(** The body of the [for route in config["routes"]] loop.  [route["name"]]
    must be a string for [.replace] to exist; the call then looks it up
    again, with the same result. *)
Definition track_route (ws_log : string) (route : json) : M unit :=
  name ← lift (getitem route "name");
  route_name ← lift (match name with
                     | JStr s => Ok s
                     | _ => Raise AttributeError
                     end);
  let tab_name := replace "/" "-" route_name in
  ws ← get_or_create_worksheet tab_name;
  origin ← lift (getitem route "origin");
  destination ← lift (getitem route "destination");
  interval ← lift (get_default route "interval" (JInt 15));
  start ← lift (getitem route "start");
  end_ ← lift (getitem route "end");
  log_route_to_sheet ws ws_log route_name origin destination interval JNull start end_.

Definition run_commute_tracker : M unit :=
  print MsgStarting;;
  get_gspread_client;;
  sheets_call (CallOpen "CommuteData");;
  ws_log ← get_or_create_worksheet "LastRunLog";
  outside CallLoadConfig;;
  config ← lift (config_file E);
  routes ← lift (r ← getitem config "routes"; iter r);
  for_each routes (track_route ws_log).

(** *** Entry point *)

Inductive reply : Type :=
| NoReply
| Reply200
| Reply405
| Reply500 (e : exn).

(** [main(request)]: [request] is [None] or carries its method. *)
Definition main (request : option string) : M reply :=
  print MsgTriggered;;
  try_except
    (match request with
     | None => run_commute_tracker;; mret NoReply
     | Some method =>
         if String.eqb method "GET"
         then run_commute_tracker;; mret Reply200
         else mret Reply405
     end)
    (fun e =>
       print (MsgExceptionType e);;
       print (MsgError e);;
       mret (Reply500 e)).


End Script.

(** ** Predicates used in the statements *)

(** [n] is the integer nearest to [a / d], the even one on a tie. *)
Definition nearest_even (a d n : Z) : Prop :=
  2 * n * d - d <= 2 * a <= 2 * n * d + d /\
  (2 * a = 2 * n * d - d \/ 2 * a = 2 * n * d + d -> Z.even n = true).

(** A float that is a double: rounding leaves it alone. *)
Definition is_double (x : float) : Prop :=
  match x with
  | FFin k => rn64 k 1 = FFin k
  | _ => True
  end.

(** The exact value of a number, on which Python compares ints with
    floats. *)
Definition exact (n : number) : float :=
  match n with
  | NInt z => FFin (z * one)
  | NFloat x => x
  end.

Definition is_number (n : number) : Prop :=
  match n with
  | NInt _ => True
  | NFloat x => is_double x
  end.

(** [leg["distance"]["value"]], the meters [distance_mi] converts. *)
Definition meters_of (leg : json) : result number :=
  d ← getitem leg "distance";
  v ← getitem d "value";
  as_number v.


(** Legs used as examples. *)
Definition leg_of_meters (v : json) : json :=
  JObj [("distance"%string, JObj [("value"%string, v)])].


(** A step of the script seen as a relation between the states before and
    after it; [respects R m] says every run of [m] stays within [R]. *)
Definition respects (R : state -> state -> Prop) {A : Type} (m : M A) : Prop :=
  forall st, R st (snd (m st)).

(** The run appended events that all satisfy [P]. *)
Definition emitted (P : event -> Prop) (st st' : state) : Prop :=
  exists evs, trace st' = trace st ++ evs /\ Forall P evs.

(** The spreadsheet is as it was. *)
Definition same_book (st st' : state) : Prop := book st' = book st.

(** One tab is as it was. *)
Definition same_tab (tab : string) (st st' : state) : Prop :=
  book st' !! tab = book st !! tab.

(** Events that are not a print of a message in [bad], and events that are
    not a call in [bad]. *)
Definition never_prints (bad : message -> Prop) (e : event) : Prop :=
  forall m, e = Print m -> ~ bad m.

Definition never_calls (bad : call -> Prop) (e : event) : Prop :=
  forall c, e = Called c -> ~ bad c.

Definition is_skip_day (m : message) : Prop := exists n, m = MsgSkipDay n.

Definition is_skip_window (m : message) : Prop := exists n s e, m = MsgSkipWindow n s e.

Definition is_get (c : call) : Prop := exists url, c = CallGet url.

(** A piece of markup: a [<] with a [>] somewhere after it. *)
Fixpoint has_tag (s : string) : bool :=
  match s with
  | EmptyString => false
  | String c s' => (Ascii.eqb c "<"%char && contains ">" s') || has_tag s'
  end.

(** C8 as it is worded: whatever text is persisted carries no markup. *)
Definition markup_stripped : Prop :=
  forall leg text, turn_by_turn leg = Ok text -> has_tag text = false.

(** What [clean_step] does to an instruction. *)
Definition strip_bold (s : string) : string := replace "</b>" "" (replace "<b>" "" s).

Definition leg_of_steps (instructions : list string) : json :=
  JObj [("steps"%string,
         JArr (map (fun s => JObj [("html_instructions"%string, JStr s)]) instructions))].

(** C2 as it is worded: whether the request fails or the provider answers
    outside 2xx, [get_routes] returns the empty list. *)
Definition fails_closed : Prop :=
  forall E st origin destination,
    let url := directions_url E origin destination in
    ((exists e, requests_get E (tick st) url = Raise e) \/
     (exists r, requests_get E (tick st) url = Ok r /\ ~ 200 <= status_code r <= 299)) ->
    exists st', get_routes E origin destination st = (Ok (JArr []), st').

(** ** Example worlds *)

Definition text_of (v : json) : string :=
  match v with
  | JStr s => s
  | _ => "#"
  end.

(** A world with a fixed clock and a Chicago offset of -5 h, whose
    provider, configuration file and API failures are given. *)
Definition world (now : naive) (get : nat -> string -> result response)
    (config : result json) (fails : nat -> bool) (parse : string -> option datetime) : env :=
  mkEnv (fun _ => (now, -18000)) (fun _ => -18000) parse (fun _ => None) text_of None
        get config fails text_of JStr.

(** Monday 2024-03-11, 08:05:30 local time. *)
Definition monday_morning : naive := mkNaive 2024 3 11 8 5 30 0.

Definition offline : nat -> string -> result response := fun _ _ => Raise RequestException.

Definition answers (r : response) : nat -> string -> result response := fun _ _ => Ok r.

Definition no_config : result json := Ok (JObj [("routes"%string, JArr [])]).

Definition never_fails : nat -> bool := fun _ => false.

Definition no_parse : string -> option datetime := fun _ => None.

Definition empty_state : state := mkState 0 ∅ [].


Definition route_doc (name origin destination : string) (more : list (string * json)) : json :=
  JObj ([("name"%string, JStr name); ("origin"%string, JStr origin);
         ("destination"%string, JStr destination)] ++ more).

Definition config_doc (routes : list json) : result json :=
  Ok (JObj [("routes"%string, JArr routes)]).

Definition no_window : list (string * json) :=
  [("start"%string, JNull); ("end"%string, JNull)].

(** A spreadsheet that already has its run-state tab. *)
Definition fresh_log : state :=
  mkState 0 {[ "LastRunLog"%string := [[JStr "Route"; JStr "LastRun"]] ]} [].

(** The failing input of C4: one route with neither [start] nor [end]. *)
Definition no_window_world : env :=
  world monday_morning offline (config_doc [route_doc "Home" "A" "B" []]) never_fails no_parse.

(** Two routes and a provider that cannot be reached. *)
Definition two_routes : list json :=
  [route_doc "Home" "A" "B" no_window; route_doc "Work" "B" "A" no_window].

Definition offline_world : env :=
  world monday_morning offline (config_doc two_routes) never_fails no_parse.

(** [st] after [print(m)]. *)
Definition printed (m : message) (st : state) : state :=
  mkState (tick st) (book st) (trace st ++ [Print m]).

(** ** The gate, by its conditions *)

(** The value [now_chicago()] returns when called in state [st], and the
    state after an outside call. *)
Definition now_at (E : env) (st : state) : datetime :=
  let '(c, off) := clock E (tick st) in
  truncate_to_minute (mkDatetime c (Some off)).

Definition called (c : call) (st : state) : state :=
  mkState (S (tick st)) (book st) (trace st ++ [Called c]).

(** [(now - last_dt).total_seconds() / 60.0] *)
Definition minutes_since (now last : datetime) : result float :=
  td ← dt_sub now last;
  secs ← total_seconds td;
  or_raise ZeroDivisionError (div secs sixty).

(** Active days are set and today is not one of them. *)
Definition day_skips (days : json) (now : datetime) : Prop :=
  truthy days = true /\ str_in (weekday_name now) days = Ok false.

Definition day_passes (days : json) (now : datetime) : Prop :=
  truthy days = false \/ str_in (weekday_name now) days = Ok true.

(** Both bounds are set and the time of day is outside [start, end]. *)
Definition window_skips (start end_ : json) (now : datetime) : Prop :=
  truthy start && truthy end_ = true /\
  exists s e, strptime_time start = Ok s /\ strptime_time end_ = Ok e /\
              time_le s (time_of now) && time_le (time_of now) e = false.

Definition window_passes (start end_ : json) (now : datetime) : Prop :=
  truthy start && truthy end_ = false \/
  exists s e, strptime_time start = Ok s /\ strptime_time end_ = Ok e /\
              time_le s (time_of now) && time_le (time_of now) e = true.

(** A last run exists and fewer than [interval] minutes have passed. *)
Definition cooldown_skips (E : env) (interval : json) (now last : datetime) (diff : float) : Prop :=
  minutes_since now last = Ok diff /\
  exists gap, py_float E interval = Ok gap /\ ltb diff gap = true.

Definition cooldown_passes (E : env) (interval : json) (now : datetime) (last_dt : option datetime)
  : Prop :=
  last_dt = None \/
  exists last diff gap,
    last_dt = Some last /\ minutes_since now last = Ok diff /\
    py_float E interval = Ok gap /\ ltb diff gap = false.

(** The events a run added to the trace. *)
Definition new_events (st st' : state) : list event :=
  drop (length (trace st)) (trace st').

(** A run state holding a last run of route [Home] at 08:00, five minutes
    before [monday_morning], and the parser that reads it back. *)
Definition eight_o_clock : datetime :=
  mkDatetime (mkNaive 2024 3 11 8 0 0 0) (Some (-18000)).

Definition parse_eight : string -> option datetime := fun s =>
  if String.eqb s "2024-03-11T08:00:00-05:00" then Some eight_o_clock else None.

Definition logged_at_eight : state :=
  mkState 0
    {[ "LastRunLog"%string :=
         [[JStr "Route"; JStr "LastRun"]; [JStr "Home"; JStr "2024-03-11T08:00:00-05:00"]];
       "Home"%string := [map JStr headers] ]}
    [].

Definition one_route (summary : string) (seconds : Z) (meters : json) (steps : list string) : json :=
  JObj [("summary"%string, JStr summary);
        ("legs"%string,
         JArr [JObj [("duration"%string,
                      JObj [("value"%string, JInt seconds); ("text"%string, JStr "-")]);
                     ("distance"%string, JObj [("value"%string, meters)]);
                     ("steps"%string,
                      JArr (map (fun s => JObj [("html_instructions"%string, JStr s)]) steps))]])].

Definition routes_response (routes : list json) : response :=
  mkResponse 200 EmptyString (Ok (JObj [("routes"%string, JArr routes)])).

Definition i90 : json :=
  one_route "I-90" 1800 (JFloat (of_decimal 160934 1)) ["Turn left"; "Merge"]%string.

(** The provider answers with one alternative; the run state is as above. *)
Definition home_world : env :=
  world monday_morning (answers (routes_response [i90]))
    (config_doc [route_doc "Home" "A" "B" no_window]) never_fails parse_eight.

(** C7 as it is worded: with both bounds set, a time of day equal to
    either bound is never skipped for the window. *)
Definition window_ends_inclusive : Prop :=
  forall E ws ws_log route_name origin destination interval start end_ st s e,
    strptime_time start = Ok s ->
    strptime_time end_ = Ok e ->
    time_of (now_at E st) = e \/ time_of (now_at E st) = s ->
    ~ In (Print (MsgSkipWindow route_name start end_))
         (new_events st
            (snd (log_route_to_sheet E ws ws_log route_name origin destination interval
                    JNull start end_ st))).

(** Six in the morning, for a window written from 18:00 to 06:00. *)
Definition six_world : env :=
  world (mkNaive 2024 3 11 6 0 0 0) offline no_config never_fails no_parse.

(** ** The record of an alternative

    The row [log_route_to_sheet] builds for one alternative, before it is
    appended: everything in the loop body up to [ws.append_row]. *)
Definition commute_record (origin destination : json) (now : datetime) (r : json) : result row :=
  leg ← first_leg r;
  duration ← duration_min leg;
  distance ← distance_mi leg;
  summary ← get_default r "summary" (JStr "N/A");
  directions ← turn_by_turn leg;
  quote_check origin;;
  quote_check destination;;
  Ok [JStr (strftime_stamp now); JStr (weekday_name now); summary;
      JFloat duration; JFloat distance; JStr directions].

Definition i94 : json :=
  one_route "I-94" 2100 (JInt 18000) ["Head <b>north</b>"]%string.

(** Two alternatives, and a Sheets API that fails on its fifth call, which
    is the append of the second record. *)
Definition flaky_world : env :=
  world monday_morning (answers (routes_response [i90; i94]))
    (config_doc [route_doc "Home" "A" "B" no_window]) (fun n => Nat.eqb n 4) parse_eight.

Definition two_alternatives_world : env :=
  world monday_morning (answers (routes_response [i90; i94]))
    (config_doc [route_doc "Home" "A" "B" no_window]) never_fails parse_eight.

(** ** Vocabulary of the further properties *)


(** [st] with another spreadsheet. *)
Definition with_book (b : gmap string worksheet) (st : state) : state :=
  mkState (tick st) b (trace st).

(** The run-state tab as the script itself creates it (with the headers of
    a record tab) and then fills it at 08:00. *)
Definition self_made_log : state :=
  mkState 0
    {[ "LastRunLog"%string :=
         [map JStr headers; [JStr "Home"; JStr "2024-03-11T08:00:00-05:00"]];
       "Home"%string := [map JStr headers] ]}
    [].

(** The Sheets API fails on its second call of the run, the read of the
    run state. *)
Definition read_fails_world : env :=
  world monday_morning (answers (routes_response [i90]))
    (config_doc [route_doc "Home" "A" "B" no_window]) (fun n => Nat.eqb n 1) parse_eight.

(** A run-state tab in the layout the script reads: the header
    [Route, LastRun] and one row per entry, a route name and a timestamp
    text. *)
Definition log_row (entry : string * string) : row := [JStr (fst entry); JStr (snd entry)].

Definition run_state_tab (entries : list (string * string)) : worksheet :=
  [JStr "Route"; JStr "LastRun"] :: map log_row entries.

(** The first entry of the route gets the value, or a new entry is added
    at the end. *)
Fixpoint upsert (name value : string) (entries : list (string * string))
  : list (string * string) :=
  match entries with
  | [] => [(name, value)]
  | (n, x) :: rest =>
      if String.eqb n name then (n, value) :: rest else (n, x) :: upsert name value rest
  end.


(** What [get_last_run_time] makes of a parsed value: a naive one is
    localised. *)
Definition localised (E : env) (dt : datetime) : datetime :=
  match utcoffset dt with
  | None => mkDatetime (civil dt) (Some (chicago_offset E (civil dt)))
  | Some _ => dt
  end.

(** The number of requests to the provider among some events. *)
Fixpoint requests (evs : list event) : nat :=
  match evs with
  | [] => 0
  | Called (CallGet _) :: evs' => S (requests evs')
  | _ :: evs' => requests evs'
  end.

(** The run added events holding at most [n] requests. *)
Definition at_most (n : nat) (st st' : state) : Prop :=
  exists evs, trace st' = trace st ++ evs /\ (requests evs <= n)%nat.

(** The routes the loop of [run_commute_tracker] goes through; none when
    the configuration cannot be loaded. *)
Definition configured_routes (E : env) : list json :=
  match (doc ← config_file E; r ← getitem doc "routes"; iter r) with
  | Ok routes => routes
  | Raise _ => []
  end.

(** A spreadsheet that also holds a tab no route is named after. *)
Definition archive_state : state :=
  mkState 0
    {[ "LastRunLog"%string := [[JStr "Route"; JStr "LastRun"]];
       "Home"%string := [map JStr headers];
       "Archive"%string := [[JStr "kept"]] ]}
    [].

(** The line [get_routes] prints for an alternative: everything its loop
    body evaluates before the [print]. *)
Definition route_line (r : json) : result message :=
  leg ← first_leg r;
  normal ← (d ← getitem leg "duration"; getitem d "text");
  traffic ← (t ← get_default leg "duration_in_traffic" (JObj []);
             get_default t "text" (JStr "no traffic"));
  summary ← get_default r "summary" (JStr "N/A");
  Ok (MsgRoute summary normal traffic).

(** [st] after a list of events. *)
Definition traced (evs : list event) (st : state) : state :=
  mkState (tick st) (book st) (trace st ++ evs).

(** An alternative that has everything the record needs but no [text] in
    its duration. *)
Definition untitled : json :=
  JObj [("summary"%string, JStr "I-55");
        ("legs"%string,
         JArr [JObj [("duration"%string, JObj [("value"%string, JInt 1500)]);
                     ("distance"%string, JObj [("value"%string, JInt 20000)])]])].

(** The provider answers with [i90] and then [untitled]. *)
Definition untitled_world : env :=
  world monday_morning (answers (routes_response [i90; untitled]))
    (config_doc [route_doc "Home" "A" "B" no_window]) never_fails parse_eight.

(** The Sheets API fails on its third call, which for a fetch of one
    alternative is the lookup of the run state after the record was
    appended. *)
Definition update_fails_world : env :=
  world monday_morning (answers (routes_response [i90]))
    (config_doc [route_doc "Home" "A" "B" no_window]) (fun n => Nat.eqb n 2) parse_eight.

(** A provider value (seconds or metres) that is a whole number, or a
    double, between the whole numbers [lo] and [hi]. *)
Definition between (lo hi : Z) (v : json) : Prop :=
  match v with
  | JInt z => lo <= z <= hi
  | JFloat (FFin a) => lo * one <= a <= hi * one
  | _ => False
  end.


(** * Properties *)

(** ** Binary64: the model against CPython *)

Example lit_60 : of_decimal 600 1 = FFin (60 * one).
Proof. vm_compute. reflexivity. Qed.

Example lit_quarter : div (FFin (15 * one)) (FFin (60 * one)) = Some (FFin (2 ^ 1072)).
Proof. vm_compute. reflexivity. Qed.

(** [round(0.25, 1)] is [0.2] (an exact tie goes to the even digit) while
    [round(0.45, 1)] is [0.5] (the double nearest 0.45 lies above it). *)
Example round_quarter : round1 (FFin (2 ^ 1072)) = Some (of_decimal 2 1).
Proof. vm_compute. reflexivity. Qed.

Example round_045 : round1 (of_decimal 45 2) = Some (of_decimal 5 1).
Proof. vm_compute. reflexivity. Qed.

(** Values cross-checked against CPython ([float.as_integer_ratio]). *)
Example lit_1609_34 : of_decimal 160934 2 = FFin (7077952172180111 * 2 ^ (1074 - 42)).
Proof. vm_compute. reflexivity. Qed.

Example lit_16093_4 : of_decimal 160934 1 = FFin (8847440215225139 * 2 ^ (1074 - 39)).
Proof. vm_compute. reflexivity. Qed.

Example div_ten : div (of_decimal 160934 1) (of_decimal 160934 2) = Some (FFin (10 * one)).
Proof. vm_compute. reflexivity. Qed.

Example div_almost_15 :
  div (of_decimal 899999999 6) (FFin (60 * one)) = Some (FFin (8444249291937181 * 2 ^ (1074 - 49))).
Proof. vm_compute. reflexivity. Qed.

Example div_subnormal : div (of_decimal 1 320) (of_decimal 160934 2) = Some (FFin 1).
Proof. vm_compute. reflexivity. Qed.

Example div_big_int :
  (x ← of_int 12345678901234567890123; div x (of_decimal 160934 2))
  = Some (FFin (7671268284659903488 * one)).
Proof. vm_compute. reflexivity. Qed.

Example round_105 : round1 (of_decimal 105 2) = Some (of_decimal 11 1).
Proof. vm_compute. reflexivity. Qed.

Example round_115 : round1 (of_decimal 115 2) = Some (of_decimal 11 1).
Proof. vm_compute. reflexivity. Qed.

Example of_int_overflow : of_int (2 ^ 1024 - 2 ^ 970) = None /\ of_int (2 ^ 1024 - 2 ^ 970 - 1) = Some (FFin ((2 ^ 53 - 1) * 2 ^ 2045)).
Proof. vm_compute. split; reflexivity. Qed.

(** ** Binary64: rounding is to nearest and monotone *)

Lemma rne_spec (a d : Z) : 0 < d -> nearest_even a d (rne a d).
Proof.
  intros Hd. unfold nearest_even, rne.
  pose proof (Z.div_mod a d ltac:(lia)) as Ha.
  pose proof (Z.mod_pos_bound a d Hd) as Hr.
  set (q := a / d) in *. set (r := a mod d) in *.
  destruct (Z.ltb_spec (2 * r) d) as [H1 | H1].
  - split; [nia | intros [H | H]; exfalso; nia].
  - destruct (Z.ltb_spec d (2 * r)) as [H2 | H2].
    + split; [nia | intros [H | H]; exfalso; nia].
    + assert (2 * r = d) as Hrd by lia.
      destruct (Z.even q) eqn:Hq.
      * split; [nia | intros _; exact Hq].
      * split; [nia | intros _].
        rewrite Z.even_add, Hq. reflexivity.
Qed.

Lemma even_succ_absurd (n : Z) : Z.even n = true -> Z.even (n + 1) = true -> False.
Proof. intros H1 H2. rewrite Z.even_add, H1 in H2. discriminate. Qed.

Lemma nearest_even_mono (a a' d n n' : Z) :
  0 < d -> a <= a' -> nearest_even a d n -> nearest_even a' d n' -> n <= n'.
Proof.
  intros Hd Ha [Hn Hne] [Hn' Hne'].
  destruct (Z_le_gt_dec n n') as [|Hgt]; [assumption | exfalso].
  assert (n = n' + 1) as -> by nia.
  apply (even_succ_absurd n'); [apply Hne' | apply Hne]; nia.
Qed.

Lemma rne_mono (a a' d : Z) : 0 < d -> a <= a' -> rne a d <= rne a' d.
Proof. intros Hd Ha. eapply nearest_even_mono; eauto using rne_spec. Qed.

Lemma nearest_even_unique (a d n m : Z) :
  0 < d -> nearest_even a d n -> nearest_even a d m -> n = m.
Proof.
  intros Hd Hn Hm.
  pose proof (nearest_even_mono a a d n m Hd (Z.le_refl a) Hn Hm).
  pose proof (nearest_even_mono a a d m n Hd (Z.le_refl a) Hm Hn).
  lia.
Qed.

Lemma rne_exact (n d : Z) : 0 < d -> rne (n * d) d = n.
Proof.
  intros Hd. symmetry. apply (nearest_even_unique (n * d) d); auto using rne_spec.
  split; [nia | intros [H | H]; exfalso; nia].
Qed.

Lemma rne_opp (a d : Z) : 0 < d -> rne (- a) d = - rne a d.
Proof.
  intros Hd. apply (nearest_even_unique (- a) d); auto using rne_spec.
  destruct (rne_spec a d Hd) as [Hn He].
  split; [nia |].
  intros H. rewrite Z.even_opp. apply He. nia.
Qed.

Lemma ulp_pos (a d : Z) : 0 < ulp a d.
Proof. unfold ulp. apply Z.pow_pos_nonneg; lia. Qed.

Lemma log2_upper (x : Z) : 0 <= x -> x < 2 ^ (Z.log2 x + 1).
Proof.
  intros Hx. destruct (Z.eq_dec x 0) as [-> | Hne].
  - reflexivity.
  - pose proof (Z.log2_spec x ltac:(lia)) as H. rewrite <- Z.add_1_r in H. lia.
Qed.

(** Below: [a / d] is less than [2^53] spacings of its own grid. *)
Lemma rnd_upper (a d : Z) :
  0 < d -> 0 <= a -> rnd a d <= 2 ^ 53 * ulp a d.
Proof.
  intros Hd Ha. unfold rnd.
  pose proof (ulp_pos a d) as Hu.
  apply Z.mul_le_mono_nonneg_r; [lia |].
  rewrite <- (rne_exact (2 ^ 53) (d * ulp a d)) by nia.
  apply rne_mono; [nia |].
  unfold ulp in *. rewrite Z.abs_eq in * by lia.
  set (L := Z.log2 (a / d)) in *.
  pose proof (Z.log2_nonneg (a / d)) as HL. fold L in HL.
  pose proof (log2_upper (a / d) ltac:(apply Z.div_pos; lia)) as Hx. fold L in Hx.
  assert (a < 2 ^ (L + 1) * d) as Hlt.
  { pose proof (Z.div_mod a d ltac:(lia)). pose proof (Z.mod_pos_bound a d Hd). nia. }
  assert (2 ^ (L + 1) <= 2 ^ 53 * 2 ^ Z.max 0 (L - 52)) as Hp.
  { rewrite <- Z.pow_add_r by lia. apply Z.pow_le_mono_r; lia. }
  nia.
Qed.

(** Above: past the subnormal range, [a / d] is at least [2^52] spacings. *)
Lemma rnd_lower (a d : Z) :
  0 < d -> 0 <= a -> 1 < ulp a d -> 2 ^ 52 * ulp a d <= rnd a d.
Proof.
  intros Hd Ha Hu. unfold rnd.
  apply Z.mul_le_mono_nonneg_r; [lia |].
  rewrite <- (rne_exact (2 ^ 52) (d * ulp a d)) at 1 by nia.
  apply rne_mono; [nia |].
  unfold ulp in *. rewrite Z.abs_eq in * by lia.
  set (L := Z.log2 (a / d)) in *.
  destruct (Z.max_spec 0 (L - 52)) as [[Hlt Hm] | [Hge Hm]]; rewrite Hm in *.
  - assert (0 < a / d) as Hpos.
    { destruct (Z.log2_null (a / d)) as [_ H0].
      destruct (Z_lt_le_dec 1 (a / d)); [lia | specialize (H0 ltac:(lia)); fold L in H0; lia]. }
    pose proof (Z.log2_spec (a / d) Hpos) as [Hlo _]. fold L in Hlo.
    assert (2 ^ 52 * 2 ^ (L - 52) = 2 ^ L) as Hp.
    { rewrite <- Z.pow_add_r by lia. f_equal. lia. }
    pose proof (Z.div_mod a d ltac:(lia)). pose proof (Z.mod_pos_bound a d Hd). nia.
  - simpl in Hu. lia.
Qed.

(** Two spacings are powers of two: they are equal or differ by a factor
    of at least two. *)
Lemma ulp_gap (a a' d : Z) :
  0 < d -> 0 <= a <= a' -> ulp a d = ulp a' d \/ 2 * ulp a d <= ulp a' d.
Proof.
  intros Hd Ha. unfold ulp. rewrite !Z.abs_eq by lia.
  set (e := Z.max 0 (Z.log2 (a / d) - 52)). set (e' := Z.max 0 (Z.log2 (a' / d) - 52)).
  assert (e <= e') as Hle.
  { apply Z.max_le_compat_l, Z.sub_le_mono_r, Z.log2_le_mono, Z.div_le_mono; lia. }
  assert (0 <= e) by apply Z.le_max_l.
  destruct (Z.eq_dec e e') as [-> | Hne]; [left; reflexivity | right].
  replace (2 * 2 ^ e) with (2 ^ (e + 1)) by (rewrite Z.pow_add_r by lia; lia).
  apply Z.pow_le_mono_r; lia.
Qed.

Lemma rnd_mono_nonneg (a a' d : Z) :
  0 < d -> 0 <= a <= a' -> rnd a d <= rnd a' d.
Proof.
  intros Hd Ha.
  destruct (ulp_gap a a' d Hd Ha) as [Heq | Hgap].
  - unfold rnd. rewrite Heq.
    pose proof (ulp_pos a' d).
    apply Z.mul_le_mono_nonneg_r; [lia | apply rne_mono; nia].
  - pose proof (ulp_pos a d).
    pose proof (rnd_upper a d Hd ltac:(lia)).
    pose proof (rnd_lower a' d Hd ltac:(lia) ltac:(lia)).
    lia.
Qed.

Lemma rnd_opp (a d : Z) : 0 < d -> rnd (- a) d = - rnd a d.
Proof.
  intros Hd. unfold rnd, ulp. rewrite Z.abs_opp.
  rewrite rne_opp; [lia |].
  apply Z.mul_pos_pos; [lia | apply Z.pow_pos_nonneg; lia].
Qed.

Lemma rnd_nonneg (a d : Z) : 0 < d -> 0 <= a -> 0 <= rnd a d.
Proof.
  intros Hd Ha. unfold rnd. pose proof (ulp_pos a d).
  apply Z.mul_nonneg_nonneg; [| lia].
  rewrite <- (rne_exact 0 (d * ulp a d)) by nia. apply rne_mono; nia.
Qed.

Lemma rnd_mono (a a' d : Z) : 0 < d -> a <= a' -> rnd a d <= rnd a' d.
Proof.
  intros Hd Ha.
  destruct (Z_le_gt_dec 0 a) as [H0 | H0].
  - apply rnd_mono_nonneg; lia.
  - destruct (Z_le_gt_dec 0 a') as [H1 | H1].
    + pose proof (rnd_nonneg a' d Hd H1).
      pose proof (rnd_nonneg (- a) d Hd ltac:(lia)) as Hn.
      rewrite rnd_opp in Hn by assumption. lia.
    + pose proof (rnd_mono_nonneg (- a') (- a) d Hd ltac:(lia)) as Hn.
      rewrite !rnd_opp in Hn by assumption. lia.
Qed.

(** The order behind [<=] on floats that are not NaN. *)
Lemma rn64_mono (a a' d : Z) : 0 < d -> a <= a' -> leb (rn64 a d) (rn64 a' d) = true.
Proof.
  intros Hd Ha. pose proof (rnd_mono a a' d Hd Ha) as Hk.
  unfold rn64. assert (0 < huge) by (unfold huge; apply Z.pow_pos_nonneg; lia).
  destruct (Z.leb_spec huge (Z.abs (rnd a d))), (Z.leb_spec huge (Z.abs (rnd a' d))); simpl;
    repeat match goal with
           | |- context [?x <? ?y] => destruct (Z.ltb_spec x y)
           | |- context [?x <=? ?y] => destruct (Z.leb_spec x y)
           end; simpl; try reflexivity; exfalso; lia.
Qed.

(** Unfolds the plumbing of the exception monad, nothing else. *)
Ltac rsimpl := cbn [mbind mret result_bind result_ret or_raise] in *.

Lemma one_pos : 0 < one.
Proof. unfold one. apply Z.pow_pos_nonneg; lia. Qed.

Lemma round1_mono (x y rx ry : float) :
  leb x y = true -> round1 x = Some rx -> round1 y = Some ry -> leb rx ry = true.
Proof.
  intros Hle Hx Hy.
  destruct x as [ | nx | k], y as [ | ny | k']; simpl in *; try discriminate;
    try (injection Hx as <-); try (injection Hy as <-); try assumption.
  - destruct (rn64 _ 10); simplify_eq. reflexivity.
  - destruct (rn64 _ 10); simplify_eq. simpl. assumption.
  - pose proof (rn64_mono (rne (10 * k) one * one) (rne (10 * k') one * one) 10 ltac:(lia)) as Hm.
    destruct (rn64 (rne (10 * k) one * one) 10), (rn64 (rne (10 * k') one * one) 10);
      simplify_eq.
    apply Hm. pose proof one_pos.
    apply Z.mul_le_mono_nonneg_r; [lia |]. apply rne_mono; lia.
Qed.

Lemma rn64_not_nan (a d : Z) : rn64 a d <> FNan.
Proof. unfold rn64. destruct (huge <=? Z.abs (rnd a d)); discriminate. Qed.

Lemma leb_neg_inf (x : float) : x <> FNan -> leb (FInf true) x = true.
Proof. destruct x; [congruence | reflexivity | reflexivity]. Qed.

Lemma leb_pos_inf (x : float) : x <> FNan -> leb x (FInf false) = true.
Proof. destruct x as [ | [] | ]; [congruence | reflexivity | reflexivity | reflexivity]. Qed.

Lemma div_const_mono (b : Z) (x y qx qy : float) :
  0 < b -> leb x y = true ->
  div x (FFin b) = Some qx -> div y (FFin b) = Some qy -> leb qx qy = true.
Proof.
  intros Hb Hle Hx Hy. unfold div in *.
  destruct b as [ | b | b]; try lia.
  assert ((Z.pos b <? 0) = false) as Hs by (apply Z.ltb_ge; lia).
  rewrite Hs in *. change (Z.sgn (Z.pos b)) with 1 in *. change (Z.abs (Z.pos b)) with (Z.pos b) in *.
  pose proof one_pos.
  destruct x as [ | nx | k], y as [ | ny | k']; simpl in Hle; try discriminate;
    injection Hx as <-; injection Hy as <-; rewrite ?xorb_false_r.
  - exact Hle.
  - rewrite Hle. apply leb_neg_inf, rn64_not_nan.
  - destruct ny; [discriminate |]. apply leb_pos_inf, rn64_not_nan.
  - apply rn64_mono; [lia |]. apply Z.leb_le in Hle. nia.
Qed.

Lemma of_int_eq (z : Z) (x : float) : of_int z = Some x -> rn64 (z * one) 1 = x.
Proof. unfold of_int. destruct (rn64 (z * one) 1); intros; simplify_eq; reflexivity. Qed.

Lemma to_float_int (z : Z) (x : float) :
  to_float (NInt z) = Ok x -> rn64 (z * one) 1 = x.
Proof.
  simpl. destruct (of_int z) eqn:Ez; simpl; intros; simplify_eq.
  apply of_int_eq. assumption.
Qed.

Lemma to_float_mono (n1 n2 : number) (x1 x2 : float) :
  is_number n1 -> is_number n2 -> leb (exact n1) (exact n2) = true ->
  to_float n1 = Ok x1 -> to_float n2 = Ok x2 -> leb x1 x2 = true.
Proof.
  intros W1 W2 Hle H1 H2.
  destruct n1 as [p | x], n2 as [q | y].
  - apply to_float_int in H1, H2. subst. simpl in Hle.
    apply rn64_mono; [lia |]. apply Z.leb_le in Hle. lia.
  - apply to_float_int in H1. simpl in H2, W2, Hle. simplify_eq.
    destruct x2 as [ | ny | k]; simpl in Hle; try discriminate.
    + destruct ny; [discriminate |]. apply leb_pos_inf, rn64_not_nan.
    + rewrite <- W2. apply rn64_mono; [lia |]. apply Z.leb_le in Hle. lia.
  - apply to_float_int in H2. simpl in H1, W1, Hle. simplify_eq.
    destruct x1 as [ | nx | k]; simpl in Hle; try discriminate.
    + rewrite Hle. apply leb_neg_inf, rn64_not_nan.
    + rewrite <- W1. apply rn64_mono; [lia |]. apply Z.leb_le in Hle. lia.
  - simpl in *. simplify_eq. exact Hle.
Qed.

Lemma meters_per_mile_pos : exists b, 0 < b /\ meters_per_mile = FFin b.
Proof. eexists. split; [| vm_compute; reflexivity]. reflexivity. Qed.

(** [distance_mi] reads the meters and converts them. *)
Lemma distance_mi_eq (leg : json) :
  distance_mi leg = (n ← meters_of leg; x ← truediv n (NFloat meters_per_mile); py_round1 x).
Proof.
  unfold distance_mi, meters_of.
  destruct (getitem leg "distance") as [d | e]; [cbn | reflexivity].
  destruct (getitem d "value") as [v | e]; [cbn | reflexivity].
  destruct (as_number v); reflexivity.
Qed.

Lemma miles_mono (n1 n2 : number) (m1 m2 : float) :
  is_number n1 -> is_number n2 -> leb (exact n1) (exact n2) = true ->
  (x ← truediv n1 (NFloat meters_per_mile); py_round1 x) = Ok m1 ->
  (x ← truediv n2 (NFloat meters_per_mile); py_round1 x) = Ok m2 ->
  leb m1 m2 = true.
Proof.
  intros W1 W2 Hle H1 H2.
  destruct meters_per_mile_pos as (b & Hb & Hc). rewrite Hc in *. clear Hc.
  assert (forall n, truediv n (NFloat (FFin b)) =
                    (x ← to_float n; or_raise ZeroDivisionError (div x (FFin b)))) as Hdiv.
  { intros []; reflexivity. }
  rewrite Hdiv in H1, H2.
  destruct (to_float n1) as [x1 | ] eqn:E1; [| discriminate].
  destruct (to_float n2) as [x2 | ] eqn:E2; [| discriminate].
  rsimpl. unfold py_round1 in *.
  destruct (div x1 (FFin b)) as [q1 | ] eqn:D1; [| discriminate].
  destruct (div x2 (FFin b)) as [q2 | ] eqn:D2; [| discriminate].
  rsimpl.
  destruct (round1 q1) as [r1 | ] eqn:R1; [| discriminate].
  destruct (round1 q2) as [r2 | ] eqn:R2; [| discriminate].
  rsimpl. simplify_eq.
  apply (round1_mono q1 q2); [| assumption | assumption].
  apply (div_const_mono b x1 x2); [assumption | | assumption | assumption].
  apply (to_float_mono n1 n2); assumption.
Qed.

(** ** Record normalisation: distance and duration *)

Lemma round1_one_decimal (k : Z) (r : float) :
  round1 (FFin k) = Some r ->
  exists t, nearest_even (10 * k) one t /\ r = of_decimal t 1.
Proof.
  unfold round1. intros H. exists (rne (10 * k) one). split.
  - apply rne_spec, one_pos.
  - unfold of_decimal. change (10 ^ 1) with 10.
    destruct (rn64 (rne (10 * k) one * one) 10); simplify_eq. reflexivity.
Qed.

(** C10. Distance conversion: [distance_mi] is the leg's meters divided by
    the double 1609.34 and rounded to one decimal (the one-decimal number
    nearest to the quotient, as a double); 1609.34 m gives 1.0 and
    16093.4 m gives 10.0; and more meters never give fewer miles. *)
Theorem distance_conversion :
  (forall leg,
      distance_mi leg =
      (n ← meters_of leg; x ← truediv n (NFloat (of_decimal 160934 2)); py_round1 x)) /\
  (forall leg n x m,
      meters_of leg = Ok n -> truediv n (NFloat (of_decimal 160934 2)) = Ok (FFin x) ->
      distance_mi leg = Ok m ->
      exists t, nearest_even (10 * x) one t /\ m = of_decimal t 1) /\
  distance_mi (leg_of_meters (JFloat (of_decimal 160934 2))) = Ok (of_decimal 10 1) /\
  distance_mi (leg_of_meters (JFloat (of_decimal 160934 1))) = Ok (of_decimal 100 1) /\
  (forall leg1 leg2 n1 n2 m1 m2,
      meters_of leg1 = Ok n1 -> meters_of leg2 = Ok n2 ->
      is_number n1 -> is_number n2 ->
      leb (exact n1) (exact n2) = true ->
      distance_mi leg1 = Ok m1 -> distance_mi leg2 = Ok m2 ->
      leb m1 m2 = true).
Proof.
  split; [exact distance_mi_eq |].
  split.
  { intros leg n x m Hn Hx Hm. rewrite distance_mi_eq, Hn in Hm.
    change (of_decimal 160934 2) with meters_per_mile in Hx.
    rsimpl. rewrite Hx in Hm. rsimpl. unfold py_round1 in Hm.
    destruct (round1 (FFin x)) as [r | ] eqn:Hr; rsimpl; simplify_eq.
    apply round1_one_decimal. assumption. }
  split; [vm_compute; reflexivity |].
  split; [vm_compute; reflexivity |].
  intros leg1 leg2 n1 n2 m1 m2 H1 H2 W1 W2 Hle D1 D2.
  rewrite distance_mi_eq, H1 in D1. rewrite distance_mi_eq, H2 in D2.
  apply (miles_mono n1 n2); assumption.
Qed.

Lemma distance_conversion_witness :
  leb (of_decimal 10 1) (of_decimal 100 1) = true.
Proof.
  destruct distance_conversion as (_ & _ & _ & _ & Hmono).
  apply (Hmono (leg_of_meters (JFloat (of_decimal 160934 2)))
               (leg_of_meters (JFloat (of_decimal 160934 1)))
               (NFloat (of_decimal 160934 2)) (NFloat (of_decimal 160934 1))).
  - reflexivity.
  - reflexivity.
  - vm_compute. reflexivity.
  - vm_compute. reflexivity.
  - vm_compute. reflexivity.
  - vm_compute. reflexivity.
  - vm_compute. reflexivity.
Defined.



(** ** Reasoning about runs *)

(** Unfolds one layer of the state-and-exception monad. *)
Ltac munfold :=
  unfold mbind, mret, M_bind, M_ret, lift, raise, try_except, print, outside,
    get_book, put_book in *.

Section Respects.

Context (R : state -> state -> Prop).
Hypothesis R_refl : forall st, R st st.
Hypothesis R_trans : forall a b c, R a b -> R b c -> R a c.

Lemma respects_ret {A : Type} (a : A) : respects R (mret a).
Proof. intros st. apply R_refl. Qed.

Lemma respects_raise {A : Type} (e : exn) : respects R (@raise A e).
Proof. intros st. apply R_refl. Qed.

Lemma respects_lift {A : Type} (r : result A) : respects R (lift r).
Proof. intros st. apply R_refl. Qed.

Lemma respects_get_book : respects R get_book.
Proof. intros st. apply R_refl. Qed.

Lemma respects_bind {A B : Type} (m : M A) (f : A -> M B) :
  respects R m -> (forall a, respects R (f a)) -> respects R (m ≫= f).
Proof.
  intros Hm Hf st. specialize (Hm st). munfold.
  destruct (m st) as [[a | e] st1]; simpl in *.
  - eapply R_trans; [exact Hm | apply Hf].
  - exact Hm.
Qed.

(** The continuation may use the value the pure step produced. *)
Lemma respects_lift_bind {A B : Type} (r : result A) (f : A -> M B) :
  (forall a, r = Ok a -> respects R (f a)) -> respects R (lift r ≫= f).
Proof.
  intros Hf st. munfold. destruct r as [a | e]; simpl.
  - apply Hf. reflexivity.
  - apply R_refl.
Qed.

Lemma respects_try_except {A : Type} (body : M A) (handler : exn -> M A) :
  respects R body -> (forall e, respects R (handler e)) -> respects R (try_except body handler).
Proof.
  intros Hm Hh st. specialize (Hm st). munfold.
  destruct (body st) as [[a | e] st1]; simpl in *.
  - exact Hm.
  - eapply R_trans; [exact Hm | apply Hh].
Qed.

Lemma respects_for_each {A : Type} (xs : list A) (body : A -> M unit) :
  (forall x, respects R (body x)) -> respects R (for_each xs body).
Proof.
  intros Hb. induction xs as [ | x xs IH]; simpl.
  - apply respects_ret.
  - apply respects_bind; [apply Hb | intros _; exact IH].
Qed.

End Respects.

Lemma emitted_refl (P : event -> Prop) (st : state) : emitted P st st.
Proof. exists []. split; [symmetry; apply app_nil_r | constructor]. Qed.

Lemma emitted_trans (P : event -> Prop) (a b c : state) :
  emitted P a b -> emitted P b c -> emitted P a c.
Proof.
  intros (e1 & H1 & F1) (e2 & H2 & F2). exists (e1 ++ e2). split.
  - rewrite H2, H1, app_assoc. reflexivity.
  - apply Forall_app. split; assumption.
Qed.

Lemma same_tab_refl (tab : string) (st : state) : same_tab tab st st.
Proof. reflexivity. Qed.

Lemma same_tab_trans (tab : string) (a b c : state) :
  same_tab tab a b -> same_tab tab b c -> same_tab tab a c.
Proof. unfold same_tab. congruence. Qed.

Lemma same_book_refl (st : state) : same_book st st.
Proof. reflexivity. Qed.

Lemma same_book_trans (a b c : state) : same_book a b -> same_book b c -> same_book a c.
Proof. unfold same_book. congruence. Qed.

Lemma emitted_print (P : event -> Prop) (m : message) :
  P (Print m) -> respects (emitted P) (print m).
Proof. intros HP st. exists [Print m]. split; [reflexivity | repeat constructor; exact HP]. Qed.

Lemma emitted_outside (P : event -> Prop) (c : call) :
  P (Called c) -> respects (emitted P) (outside c).
Proof. intros HP st. exists [Called c]. split; [reflexivity | repeat constructor; exact HP]. Qed.

Lemma emitted_put_book (P : event -> Prop) (b : gmap string worksheet) :
  respects (emitted P) (put_book b).
Proof. intros st. exists []. split; [symmetry; apply app_nil_r | constructor]. Qed.

Lemma same_book_print (m : message) : respects same_book (print m).
Proof. intros st. reflexivity. Qed.

Lemma same_book_outside (c : call) : respects same_book (outside c).
Proof. intros st. reflexivity. Qed.

Lemma same_book_tab (tab : string) {A : Type} (m : M A) :
  respects same_book m -> respects (same_tab tab) m.
Proof. intros H st. unfold same_tab. rewrite (H st). reflexivity. Qed.

Create HintDb respects.

#[global] Hint Resolve emitted_refl emitted_trans same_tab_refl same_tab_trans
  same_book_refl same_book_trans : respects.
#[global] Hint Resolve emitted_print emitted_outside emitted_put_book
  same_book_print same_book_outside : respects.

(** Splits a goal [respects R m] along the control structure of [m]. *)
Ltac respects_step :=
  lazymatch goal with
  | |- respects _ (mret _) => apply respects_ret; solve [eauto with respects]
  | |- respects _ (raise _) => apply respects_raise; solve [eauto with respects]
  | |- respects _ (lift _ ≫= _) =>
      apply respects_lift_bind; [solve [eauto with respects] | intros ? ?]
  | |- respects _ (lift _) => apply respects_lift; solve [eauto with respects]
  | |- respects _ get_book => apply respects_get_book; solve [eauto with respects]
  | |- respects _ (_ ≫= _) =>
      apply respects_bind; [solve [eauto with respects] | | intros ?]
  | |- respects _ (try_except _ _) =>
      apply respects_try_except; [solve [eauto with respects] | | intros ?]
  | |- respects _ (for_each _ _) =>
      apply respects_for_each; [solve [eauto with respects] | solve [eauto with respects] | intros ?]
  | |- respects _ (match ?x with _ => _ end) => destruct x
  | |- respects _ (let '(_, _) := ?x in _) => destruct x
  end.

Ltac respects_tac := repeat (first [solve [eauto with respects] | respects_step]).

Lemma never_prints_called (bad : message -> Prop) (c : call) : never_prints bad (Called c).
Proof. intros m H. discriminate. Qed.

Lemma never_calls_print (bad : call -> Prop) (m : message) : never_calls bad (Print m).
Proof. intros c H. discriminate. Qed.

#[global] Hint Resolve never_prints_called never_calls_print : respects.

(** *** What the gspread calls emit and touch *)

Section GspreadEmits.

Context (E : env) (P : event -> Prop).

Lemma sheets_call_emits (c : call) : P (Called c) -> respects (emitted P) (sheets_call E c).
Proof. intros HP. unfold sheets_call. respects_tac. Qed.

Hint Resolve sheets_call_emits : respects.

Lemma with_tab_emits {A : Type} (tab : string) (f : worksheet -> M A) :
  (forall ws, respects (emitted P) (f ws)) -> respects (emitted P) (with_tab tab f).
Proof. intros Hf. unfold with_tab. respects_tac. Qed.

Lemma sh_worksheet_emits (title : string) :
  P (Called (CallWorksheet title)) -> respects (emitted P) (sh_worksheet E title).
Proof. intros HP. unfold sh_worksheet. respects_tac. Qed.

Lemma add_worksheet_emits (title : string) :
  P (Called (CallAddWorksheet title)) -> respects (emitted P) (add_worksheet E title).
Proof. intros HP. unfold add_worksheet. respects_tac. Qed.

Lemma get_all_values_emits (tab : string) :
  P (Called (CallGetAllValues tab)) -> respects (emitted P) (get_all_values E tab).
Proof. intros HP. unfold get_all_values, with_tab. respects_tac. Qed.

Lemma clear_emits (tab : string) :
  P (Called (CallClear tab)) -> respects (emitted P) (clear E tab).
Proof. intros HP. unfold clear, with_tab. respects_tac. Qed.

Lemma append_row_emits (tab : string) (values : row) :
  P (Called (CallAppendRow tab values)) -> respects (emitted P) (append_row E tab values).
Proof. intros HP. unfold append_row, with_tab. respects_tac. Qed.

Lemma get_all_records_emits (tab : string) :
  P (Called (CallGetAllRecords tab)) -> respects (emitted P) (get_all_records E tab).
Proof. intros HP. unfold get_all_records, with_tab. respects_tac. Qed.

Lemma find_emits (tab query : string) :
  P (Called (CallFind tab query)) -> respects (emitted P) (find E tab query).
Proof. intros HP. unfold find, with_tab. respects_tac. Qed.

Lemma update_cell_emits (tab : string) (r c : nat) (value : json) :
  P (Called (CallUpdateCell tab r c value)) -> respects (emitted P) (update_cell E tab r c value).
Proof. intros HP. unfold update_cell, with_tab. respects_tac. Qed.

End GspreadEmits.

#[global] Hint Resolve sheets_call_emits sh_worksheet_emits add_worksheet_emits
  get_all_values_emits clear_emits append_row_emits get_all_records_emits find_emits
  update_cell_emits : respects.

(** *** What the script's functions print

    [bad] is a set of messages containing only gate skips; every function
    other than the gate itself keeps clear of it. *)

Section ScriptPrints.

Context (E : env) (bad : message -> Prop).
Hypothesis bad_is_skip : forall m, bad m -> is_skip_day m \/ is_skip_window m.

Ltac not_bad :=
  let m := fresh "m" in
  let H := fresh "H" in
  let Hb := fresh "Hb" in
  intros m H Hb; injection H as <-;
  destruct (bad_is_skip _ Hb) as [[? ?] | (? & ? & ? & ?)]; discriminate.

Ltac emits := respects_tac; try (apply emitted_print; not_bad).

Lemma now_chicago_prints : respects (emitted (never_prints bad)) (now_chicago E).
Proof. unfold now_chicago. emits. Qed.

Lemma get_gspread_client_prints : respects (emitted (never_prints bad)) (get_gspread_client E).
Proof. unfold get_gspread_client. emits. Qed.

Lemma get_or_create_worksheet_prints (name : string) :
  respects (emitted (never_prints bad)) (get_or_create_worksheet E name).
Proof. unfold get_or_create_worksheet. emits. Qed.

Lemma get_routes_prints (origin destination : json) :
  respects (emitted (never_prints bad)) (get_routes E origin destination).
Proof. unfold get_routes. emits. Qed.

Lemma scan_records_prints (route_name : string) (records : list (list (string * json))) :
  respects (emitted (never_prints bad)) (scan_records E route_name records).
Proof. induction records as [ | r records IH]; simpl; emits. Qed.

Lemma get_last_run_time_prints (ws_log route_name : string) :
  respects (emitted (never_prints bad)) (get_last_run_time E ws_log route_name).
Proof. unfold get_last_run_time. pose proof scan_records_prints. emits. Qed.

Lemma update_last_run_time_prints (ws_log route_name : string) (timestamp : datetime) :
  respects (emitted (never_prints bad)) (update_last_run_time E ws_log route_name timestamp).
Proof. unfold update_last_run_time. emits. Qed.

Lemma log_alternative_prints (ws : string) (origin destination : json) (now : datetime) (r : json) :
  respects (emitted (never_prints bad)) (log_alternative E ws origin destination now r).
Proof. unfold log_alternative. emits. Qed.

End ScriptPrints.

(** ** The day-of-week filter on the orchestrator's path *)

Lemma skip_day_only (m : message) : is_skip_day m -> is_skip_day m \/ is_skip_window m.
Proof. intros H. left. exact H. Qed.

Lemma skip_window_only (m : message) : is_skip_window m -> is_skip_day m \/ is_skip_window m.
Proof. intros H. right. exact H. Qed.

(** With [days=None] the gate has no way to reach its first [print]. *)
Lemma log_route_to_sheet_no_days (E : env) (ws ws_log route_name : string)
    (origin destination interval start end_ : json) :
  respects (emitted (never_prints is_skip_day))
    (log_route_to_sheet E ws ws_log route_name origin destination interval JNull start end_).
Proof.
  pose proof (now_chicago_prints E is_skip_day).
  pose proof (get_last_run_time_prints E is_skip_day skip_day_only).
  pose proof (get_routes_prints E is_skip_day skip_day_only).
  pose proof (log_alternative_prints E is_skip_day).
  pose proof (update_last_run_time_prints E is_skip_day skip_day_only).
  assert (forall m, ~ is_skip_day m -> respects (emitted (never_prints is_skip_day)) (print m))
    as Hprint.
  { intros m Hm. apply emitted_print. intros m' Heq. injection Heq as <-. exact Hm. }
  unfold log_route_to_sheet.
  apply respects_bind; [eauto with respects | eauto | intros now].
  cbn [truthy].
  apply respects_lift_bind; [eauto with respects | intros skip_day Hskip].
  injection Hskip as <-. unfold fetch_and_log.
  respects_tac; apply Hprint; intros [n Hn]; discriminate.
Qed.

Lemma track_route_no_skip_day (E : env) (ws_log : string) (route : json) :
  respects (emitted (never_prints is_skip_day)) (track_route E ws_log route).
Proof.
  pose proof (get_or_create_worksheet_prints E is_skip_day skip_day_only).
  pose proof (log_route_to_sheet_no_days E).
  unfold track_route. respects_tac.
Qed.

Lemma run_commute_tracker_no_skip_day (E : env) :
  respects (emitted (never_prints is_skip_day)) (run_commute_tracker E).
Proof.
  pose proof (get_or_create_worksheet_prints E is_skip_day skip_day_only).
  pose proof (get_gspread_client_prints E is_skip_day).
  pose proof (track_route_no_skip_day E).
  unfold run_commute_tracker.
  respects_tac; apply emitted_print; intros m Heq [n Hn]; simplify_eq.
Qed.

Lemma never_prints_not_in (bad : message -> Prop) (evs : list event) (m : message) :
  Forall (never_prints bad) evs -> bad m -> ~ In (Print m) evs.
Proof.
  intros Hall Hbad Hin. rewrite Forall_forall in Hall.
  apply list_elem_of_In in Hin. exact (Hall _ Hin m eq_refl Hbad).
Qed.

(** C5. On the orchestrator's path the day-of-week filter is never
    exercised: [run_commute_tracker] (and [main] around it) always calls
    [log_route_to_sheet] with [days=None], so whatever the configuration,
    the clock and the store, no run prints the skip-day message. *)
Theorem day_filter_never_exercised (E : env) (st : state) :
  (exists evs,
      trace (snd (run_commute_tracker E st)) = trace st ++ evs /\
      forall n, ~ In (Print (MsgSkipDay n)) evs) /\
  (forall request,
      exists evs,
        trace (snd (main E request st)) = trace st ++ evs /\
        forall n, ~ In (Print (MsgSkipDay n)) evs).
Proof.
  split.
  - destruct (run_commute_tracker_no_skip_day E st) as (evs & Htr & Hall).
    exists evs. split; [exact Htr |].
    intros n. apply (never_prints_not_in is_skip_day); [exact Hall | exists n; reflexivity].
  - intros request.
    assert (respects (emitted (never_prints is_skip_day)) (main E request)) as Hmain.
    { pose proof (run_commute_tracker_no_skip_day E).
      unfold main. respects_tac; apply emitted_print; intros m Heq [n Hn]; simplify_eq. }
    destruct (Hmain st) as (evs & Htr & Hall).
    exists evs. split; [exact Htr |].
    intros n. apply (never_prints_not_in is_skip_day); [exact Hall | exists n; reflexivity].
Qed.

(** ** Record normalisation: the directions text *)

Lemma replace_absent (old new s : string) :
  contains old s = false -> replace old new s = s.
Proof.
  unfold replace. induction s as [ | c s IH]; intros H.
  - reflexivity.
  - cbn [contains] in H. apply orb_false_elim in H as [Hp Hc].
    cbn [replace_from]. rewrite Hp, IH by exact Hc. reflexivity.
Qed.

Lemma clean_steps_strings (steps : list json) (instructions : list string) :
  Forall2 (fun step s => getitem step "html_instructions" = Ok (JStr s)) steps instructions ->
  clean_steps steps = Ok (map strip_bold instructions).
Proof.
  induction 1 as [ | step s steps instructions Hs _ IH]; [reflexivity |].
  cbn [clean_steps]. unfold clean_step. rewrite Hs. rsimpl. rewrite IH. reflexivity.
Qed.

(** C8 as worded fails: only the bold tags are removed, so the [<wbr/>]
    the provider puts inside road names is persisted. *)
Lemma markup_survives : ~ markup_stripped.
Proof.
  intros H.
  specialize (H (leg_of_steps ["Take exit <b>12</b> toward I-90/<wbr/>Chicago"%string])
                "Take exit 12 toward I-90/<wbr/>Chicago"%string eq_refl).
  vm_compute in H. discriminate.
Qed.

(** C8, amended. The persisted directions text is each step's instruction
    with every [<b>] and then every [</b>] removed, joined by [" → "] in
    step order; a leg without steps, or with none, gives the empty string;
    an instruction holding neither bold tag is persisted as it is, other
    markup included. *)
Theorem directions_text_bold_stripped :
  (forall leg steps instructions,
      get_default leg "steps" (JArr []) = Ok (JArr steps) ->
      Forall2 (fun step s => getitem step "html_instructions" = Ok (JStr s)) steps instructions ->
      turn_by_turn leg = Ok (join " → " (map strip_bold instructions))) /\
  (forall kv,
      assoc "steps" kv = None \/ assoc "steps" kv = Some (JArr []) ->
      turn_by_turn (JObj kv) = Ok EmptyString) /\
  (forall s,
      contains "<b>" s = false -> contains "</b>" s = false -> strip_bold s = s).
Proof.
  split; [| split].
  - intros leg steps instructions Hsteps Hall. unfold turn_by_turn.
    rewrite Hsteps. rsimpl. cbn [iter]. rsimpl.
    rewrite (clean_steps_strings steps instructions Hall). reflexivity.
  - intros kv [H | H]; unfold turn_by_turn, get_default; rewrite H; reflexivity.
  - intros s H1 H2. unfold strip_bold.
    rewrite (replace_absent "<b>" "" s H1). apply replace_absent. exact H2.
Qed.

Lemma directions_text_bold_stripped_witness :
  turn_by_turn (leg_of_steps ["Turn <b>left</b>"; "Merge"]%string) = Ok "Turn left → Merge"%string /\
  turn_by_turn (JObj []) = Ok EmptyString /\
  strip_bold "Toll road<wbr/>" = "Toll road<wbr/>"%string.
Proof.
  destruct directions_text_bold_stripped as (Hjoin & Hempty & Hkeep).
  split; [| split].
  - apply (Hjoin (leg_of_steps ["Turn <b>left</b>"; "Merge"]%string)
                 [JObj [("html_instructions"%string, JStr "Turn <b>left</b>")];
                  JObj [("html_instructions"%string, JStr "Merge")]]
                 ["Turn <b>left</b>"; "Merge"]%string); [reflexivity |].
    repeat constructor.
  - apply Hempty. left. reflexivity.
  - apply Hkeep; reflexivity.
Defined.

(** ** The directions client *)

(** C2 as worded fails: a request that cannot be made raises out of
    [get_routes]. *)
Lemma network_failure_raises : ~ fails_closed.
Proof.
  intros H.
  destruct (H (world monday_morning offline no_config never_fails no_parse) empty_state
              (JStr "A") (JStr "B")) as [st' Hst'].
  - left. exists RequestException. reflexivity.
  - vm_compute in Hst'. discriminate.
Qed.

(** C2, amended. For every origin and destination, [get_routes] issues one
    request; on any status other than 200 it prints the error and returns
    the empty list without raising; when the request itself fails, the
    exception leaves [get_routes] and nothing is returned. *)
Theorem get_routes_status_closed (E : env) (st : state) (origin destination : json) :
  let url := directions_url E origin destination in
  (forall r,
      requests_get E (tick st) url = Ok r -> status_code r <> 200 ->
      get_routes E origin destination st =
      (Ok (JArr []),
       mkState (S (tick st)) (book st)
         (trace st ++ [Called (CallGet url); Print (MsgMapsError (text r))]))) /\
  (forall e,
      requests_get E (tick st) url = Raise e ->
      get_routes E origin destination st =
      (Raise e, mkState (S (tick st)) (book st) (trace st ++ [Called (CallGet url)]))).
Proof.
  intros url. split.
  - intros r Hr Hstatus. unfold get_routes. fold url. munfold. cbn.
    rewrite Hr. apply Z.eqb_neq in Hstatus. rewrite Hstatus. cbn.
    rewrite <- app_assoc. reflexivity.
  - intros e He. unfold get_routes. fold url. munfold. cbn. rewrite He. reflexivity.
Qed.

Lemma get_routes_status_closed_witness :
  (exists st',
      get_routes (world monday_morning (answers (mkResponse 503 "unavailable" (Raise JSONDecodeError)))
                    no_config never_fails no_parse) (JStr "A") (JStr "B") empty_state
      = (Ok (JArr []), st')) /\
  (exists st',
      get_routes (world monday_morning offline no_config never_fails no_parse)
        (JStr "A") (JStr "B") empty_state
      = (Raise RequestException, st')).
Proof.
  split.
  - eexists.
    apply (proj1 (get_routes_status_closed
                    (world monday_morning (answers (mkResponse 503 "unavailable" (Raise JSONDecodeError)))
                       no_config never_fails no_parse) empty_state (JStr "A") (JStr "B"))
                 (mkResponse 503 "unavailable" (Raise JSONDecodeError))).
    + reflexivity.
    + simpl. lia.
  - eexists.
    apply (proj2 (get_routes_status_closed
                    (world monday_morning offline no_config never_fails no_parse)
                    empty_state (JStr "A") (JStr "B")) RequestException).
    reflexivity.
Defined.

(** ** The orchestrator *)

(** C4. A route document without [start] (or without [end]) is not
    processed: once its tab is there, [track_route] raises [KeyError]
    before [log_route_to_sheet] is called.  A document with both keys and
    no [interval] is processed with an interval of 15. *)
Theorem missing_window_key_error (E : env) (ws_log : string) (kv : list (string * json))
    (name ws : string) (origin destination : json) (st st1 : state) :
  assoc "name" kv = Some (JStr name) ->
  assoc "origin" kv = Some origin ->
  assoc "destination" kv = Some destination ->
  get_or_create_worksheet E (replace "/" "-" name) st = (Ok ws, st1) ->
  (assoc "start" kv = None ->
   track_route E ws_log (JObj kv) st = (Raise (KeyError "start"), st1)) /\
  (forall start,
      assoc "start" kv = Some start -> assoc "end" kv = None ->
      track_route E ws_log (JObj kv) st = (Raise (KeyError "end"), st1)) /\
  (forall start end_,
      assoc "start" kv = Some start -> assoc "end" kv = Some end_ ->
      assoc "interval" kv = None ->
      track_route E ws_log (JObj kv) st =
      log_route_to_sheet E ws ws_log name origin destination (JInt 15) JNull start end_ st1).
Proof.
  intros Hname Horigin Hdest Hws.
  assert (track_route E ws_log (JObj kv) st =
          (interval ← lift (get_default (JObj kv) "interval" (JInt 15));
           start ← lift (getitem (JObj kv) "start");
           end_ ← lift (getitem (JObj kv) "end");
           log_route_to_sheet E ws ws_log name origin destination interval JNull start end_)
            st1) as Hrun.
  { unfold track_route, getitem. rewrite Hname, Horigin, Hdest.
    munfold. cbn. rewrite Hws. reflexivity. }
  split; [| split].
  - intros Hstart. rewrite Hrun. unfold getitem, get_default. rewrite Hstart. reflexivity.
  - intros start Hstart Hend. rewrite Hrun. unfold getitem, get_default.
    rewrite Hstart, Hend. reflexivity.
  - intros start end_ Hstart Hend Hint. rewrite Hrun. unfold getitem, get_default.
    rewrite Hstart, Hend, Hint. reflexivity.
Qed.

Lemma missing_window_key_error_witness :
  exists st1,
    track_route no_window_world "LastRunLog" (route_doc "Home" "A" "B" []) fresh_log
    = (Raise (KeyError "start"), st1).
Proof.
  eexists.
  refine (proj1 (missing_window_key_error no_window_world "LastRunLog"
                   [("name"%string, JStr "Home"); ("origin"%string, JStr "A");
                    ("destination"%string, JStr "B")]
                   "Home" "Home" (JStr "A") (JStr "B") fresh_log _ _ _ _ _) _);
    reflexivity.
Defined.

(** The whole run on that input ends in the 500 reply, without a request
    to the provider. *)
Example missing_window_fails_run :
  fst (main no_window_world None fresh_log) = Ok (Reply500 (KeyError "start")) /\
  forall url, ~ In (Called (CallGet url)) (trace (snd (main no_window_world None fresh_log))).
Proof.
  split; [vm_compute; reflexivity |].
  intros url H. vm_compute in H.
  repeat (destruct H as [H | H]; [discriminate |]). exact H.
Qed.


Lemma get_last_run_time_returns (E : env) (ws_log route_name : string) (st : state) :
  exists o st', get_last_run_time E ws_log route_name st = (Ok o, st').
Proof.
  unfold get_last_run_time, try_except.
  match goal with |- context [match ?b st with _ => _ end] => destruct (b st) as [[o | e] st'] end;
    [eauto |].
  munfold. cbn. eauto.
Qed.

Lemma update_last_run_time_returns (E : env) (ws_log route_name : string) (timestamp : datetime)
    (st : state) :
  exists st', update_last_run_time E ws_log route_name timestamp st = (Ok tt, st').
Proof.
  unfold update_last_run_time, try_except.
  match goal with |- context [match ?b st with _ => _ end] => destruct (b st) as [[[] | e] st'] end;
    [eauto |].
  munfold. cbn. eauto.
Qed.


(** ** The gate *)

#[global] Arguments dt_sub : simpl never.
#[global] Arguments total_seconds : simpl never.
#[global] Arguments Float64.div : simpl never.
#[global] Arguments Float64.ltb : simpl never.
#[global] Arguments py_float : simpl never.
#[global] Arguments minutes_since : simpl never.
#[global] Arguments strptime_time : simpl never.
#[global] Arguments str_in : simpl never.
#[global] Arguments truthy : simpl never.
#[global] Arguments weekday_name : simpl never.
#[global] Arguments time_le : simpl never.
#[global] Arguments get_last_run_time : simpl never.
#[global] Arguments fetch_and_log : simpl never.

Section Gate.

Context (E : env) (ws ws_log route_name : string).
Context (origin destination interval days start end_ : json).

Abbreviation run := (log_route_to_sheet E ws ws_log route_name origin destination interval days start end_).

(** Every run of [log_route_to_sheet] takes one of these paths, in this
    order. *)
Lemma cooldown_eq (now last : datetime) :
  (td ← dt_sub now last;
   secs ← total_seconds td;
   diff ← or_raise ZeroDivisionError (div secs sixty);
   min_gap ← py_float E interval;
   Ok (if ltb diff min_gap then Some diff else None)) =
  (diff ← minutes_since now last;
   gap ← py_float E interval;
   Ok (if ltb diff gap then Some diff else None)).
Proof.
  unfold minutes_since.
  destruct (dt_sub now last) as [td | e]; [rsimpl | reflexivity].
  destruct (total_seconds td) as [secs | e]; [rsimpl | reflexivity].
  destruct (div secs sixty); reflexivity.
Qed.

Lemma gate_cases (st : state) :
  let now := now_at E st in
  let st1 := called CallNow st in
  (exists e, truthy days = true /\ str_in (weekday_name now) days = Raise e /\
             run st = (Raise e, st1)) \/
  (day_skips days now /\ run st = (Ok tt, printed (MsgSkipDay route_name) st1)) \/
  (day_passes days now /\
   ((exists e, truthy start && truthy end_ = true /\
               (s ← strptime_time start; e ← strptime_time end_; Ok (s, e)) = Raise e /\
               run st = (Raise e, st1)) \/
    (window_skips start end_ now /\
     run st = (Ok tt, printed (MsgSkipWindow route_name start end_) st1)) \/
    (window_passes start end_ now /\
     exists last_dt st2,
       get_last_run_time E ws_log route_name st1 = (Ok last_dt, st2) /\
       ((exists last e,
            last_dt = Some last /\
            (diff ← minutes_since now last; gap ← py_float E interval; Ok (diff, gap)) = Raise e /\
            run st = (Raise e, st2)) \/
        (exists last diff,
            last_dt = Some last /\ cooldown_skips E interval now last diff /\
            run st = (Ok tt, printed (MsgSkipInterval route_name diff) st2)) \/
        (cooldown_passes E interval now last_dt /\
         run st = fetch_and_log E ws ws_log route_name origin destination now st2))))).
Proof.
  intros now st1.
  assert (now_chicago E st = (Ok now, st1)) as Hnow.
  { unfold now_chicago, now, now_at, st1, called. munfold. cbn.
    destruct (clock E (tick st)). reflexivity. }
  remember (run st) as R eqn:HR.
  unfold log_route_to_sheet in HR. unfold mbind at 1, M_bind at 1 in HR. rewrite Hnow in HR.
  clearbody now st1. clear Hnow.
  unfold day_skips, day_passes, window_skips, window_passes.
  (* day of week *)
  destruct (truthy days) eqn:Hd;
    [destruct (str_in (weekday_name now) days) as [[] | e] eqn:Hs |];
    [ | right; left; subst R; split; [split |]; reflexivity
      | left; exists e; subst R; repeat split; reflexivity | ];
    (right; right; split; [solve [auto] |]).
  all: (* time window *)
    destruct (truthy start && truthy end_) eqn:Hw;
    [destruct (strptime_time start) as [s | e] eqn:Hs1;
     [destruct (strptime_time end_) as [e' | e] eqn:Hs2;
      [destruct (time_le s (time_of now) && time_le (time_of now) e') eqn:Hin | ] | ] | ];
    [ | right; left; subst R; split; [split; [reflexivity | exists s, e'; auto] |];
        munfold; cbn; rewrite Hin; reflexivity
      | left; exists e; subst R; repeat split; reflexivity
      | left; exists e; subst R; repeat split; reflexivity | ];
    (right; right; split; [solve [eauto 10] |]).
  all: munfold; cbn in HR; rewrite ?Hin in HR; cbn in HR.
  all: (* cooldown *)
    destruct (get_last_run_time_returns E ws_log route_name st1) as (last_dt & st2 & Hl);
    rewrite Hl in HR; exists last_dt, st2; (split; [exact Hl |]);
    unfold cooldown_skips, cooldown_passes;
    (destruct last_dt as [last | ]; [| right; right; subst R; split; [left |]; reflexivity]);
    pose proof (cooldown_eq now last) as Hc; unfold mbind in Hc; rewrite Hc in HR; clear Hc;
    destruct (minutes_since now last) as [diff | e] eqn:Hm;
    [destruct (py_float E interval) as [gap | e] eqn:Hg;
     [destruct (ltb diff gap) eqn:Hlt | ] | ]; cbn in HR; subst R; rewrite ?Hlt.
  all: first
    [ solve [right; left; exists last, diff; repeat split; eauto]
    | solve [right; right; split; [right; exists last, diff, gap; auto | reflexivity]]
    | solve [left; exists last, e; rewrite ?Hm; cbn; rewrite ?Hg; auto] ].
Qed.

End Gate.

Lemma new_events_app (st st' : state) (evs : list event) :
  trace st' = trace st ++ evs -> new_events st st' = evs.
Proof. intros H. unfold new_events. rewrite H. apply drop_app_length. Qed.

Lemma not_get_called (c : call) : ~ is_get c -> never_calls is_get (Called c).
Proof. intros H c' Heq. injection Heq as <-. exact H. Qed.

Lemma scan_records_no_get (E : env) (route_name : string) (records : list (list (string * json))) :
  respects (emitted (never_calls is_get)) (scan_records E route_name records).
Proof. induction records as [ | r records IH]; simpl; respects_tac. Qed.

Lemma get_last_run_time_no_get (E : env) (ws_log route_name : string) :
  respects (emitted (never_calls is_get)) (get_last_run_time E ws_log route_name).
Proof.
  pose proof (scan_records_no_get E).
  unfold get_last_run_time.
  respects_tac. apply get_all_records_emits, not_get_called. intros [url H']. discriminate.
Qed.

Lemma never_calls_not_in (evs : list event) (url : string) :
  Forall (never_calls is_get) evs -> ~ In (Called (CallGet url)) evs.
Proof.
  intros Hall Hin. rewrite Forall_forall in Hall.
  apply list_elem_of_In in Hin. apply (Hall _ Hin (CallGet url) eq_refl). exists url. reflexivity.
Qed.

Section GateOrder.

Context (E : env) (ws ws_log route_name : string).
Context (origin destination interval days start end_ : json).

Abbreviation run := (log_route_to_sheet E ws ws_log route_name origin destination interval days start end_).

Lemma day_exclusive (now : datetime) : day_skips days now -> day_passes days now -> False.
Proof. intros [H1 H2] [H | H]; congruence. Qed.

Lemma window_exclusive (now : datetime) :
  window_skips start end_ now -> window_passes start end_ now -> False.
Proof.
  intros [H1 (s & e & Hs & He & Hout)] [H | (s' & e' & Hs' & He' & Hin)]; [congruence |].
  rewrite Hs in Hs'. rewrite He in He'. simplify_eq. congruence.
Qed.

Lemma cooldown_exclusive (now last : datetime) (diff : float) :
  cooldown_skips E interval now last diff -> cooldown_passes E interval now (Some last) -> False.
Proof.
  intros [Hm (gap & Hg & Hlt)] [H | (last' & diff' & gap' & Hl & Hm' & Hg' & Hge)]; [discriminate |].
  simplify_eq. rewrite Hm in Hm'. rewrite Hg in Hg'. simplify_eq. congruence.
Qed.

(** No request leaves before the gate has passed. *)
Lemma no_get_before_fetch (st : state) (url : string) :
  let now := now_at E st in
  let st1 := called CallNow st in
  In (Called (CallGet url)) (new_events st (snd (run st))) ->
  day_passes days now /\ window_passes start end_ now /\
  exists last_dt st2,
    get_last_run_time E ws_log route_name st1 = (Ok last_dt, st2) /\
    cooldown_passes E interval now last_dt /\
    run st = fetch_and_log E ws ws_log route_name origin destination now st2.
Proof.
  intros now st1 Hin.
  assert (new_events st st1 = [Called CallNow]) as H1 by (apply new_events_app; reflexivity).
  assert (forall m, new_events st (printed m st1) = [Called CallNow; Print m]) as H1p.
  { intros m. apply new_events_app. cbn. rewrite <- app_assoc. reflexivity. }
  pose proof (gate_cases E ws ws_log route_name origin destination interval days start end_ st)
    as Hcases.
  cbv zeta in Hcases. fold now in Hcases. fold st1 in Hcases.
  destruct Hcases as [(e & _ & _ & Hr) | [(_ & Hr) | (Hday & Hwin)]].
  { rewrite Hr in Hin. cbn [snd] in Hin. rewrite H1 in Hin.
    destruct Hin as [H | []]; discriminate. }
  { rewrite Hr in Hin. cbn [snd] in Hin. rewrite H1p in Hin.
    destruct Hin as [H | [H | []]]; discriminate. }
  destruct Hwin as [(e & _ & _ & Hr) | [(_ & Hr) | (Hwin & last_dt & st2 & Hl & Hcool)]].
  { rewrite Hr in Hin. cbn [snd] in Hin. rewrite H1 in Hin.
    destruct Hin as [H | []]; discriminate. }
  { rewrite Hr in Hin. cbn [snd] in Hin. rewrite H1p in Hin.
    destruct Hin as [H | [H | []]]; discriminate. }
  destruct (get_last_run_time_no_get E ws_log route_name st1) as (evs & Htr & Hall).
  rewrite Hl in Htr. cbn [snd] in Htr.
  assert (new_events st st2 = Called CallNow :: evs) as H2.
  { apply new_events_app. rewrite Htr. cbn. rewrite <- app_assoc. reflexivity. }
  assert (forall m, new_events st (printed m st2) = Called CallNow :: evs ++ [Print m]) as H2p.
  { intros m. apply new_events_app. cbn. rewrite Htr. cbn. rewrite <- !app_assoc. reflexivity. }
  destruct Hcool as [(last & e & _ & _ & Hr) | [(last & diff & _ & _ & Hr) | (Hcool & Hr)]].
  - exfalso. rewrite Hr in Hin. cbn [snd] in Hin. rewrite H2 in Hin.
    destruct Hin as [H | H]; [discriminate |]. exact (never_calls_not_in evs url Hall H).
  - exfalso. rewrite Hr in Hin. cbn [snd] in Hin. rewrite H2p in Hin.
    destruct Hin as [H | H]; [discriminate |].
    apply in_app_or in H as [H | [H | []]]; [| discriminate].
    exact (never_calls_not_in evs url Hall H).
  - split; [exact Hday |]. split; [exact Hwin |]. exists last_dt, st2. auto.
Qed.

Lemma day_raise_exclusive (now : datetime) (e : exn) :
  truthy days = true -> str_in (weekday_name now) days = Raise e ->
  (day_skips days now \/ day_passes days now) -> False.
Proof. intros H1 H2 [[_ H] | [H | H]]; congruence. Qed.

Lemma window_raise_exclusive (now : datetime) (e : exn) :
  (s ← strptime_time start; e ← strptime_time end_; Ok (s, e)) = Raise e ->
  truthy start && truthy end_ = true ->
  (window_skips start end_ now \/ window_passes start end_ now) -> False.
Proof.
  intros Hr Ht [(_ & s & e' & Hs & He & _) | [H | (s & e' & Hs & He & _)]];
    try congruence; rewrite Hs, He in Hr; discriminate.
Qed.

Lemma cooldown_raise_exclusive (now last : datetime) (e : exn) :
  (diff ← minutes_since now last; gap ← py_float E interval; Ok (diff, gap)) = Raise e ->
  ((exists diff, cooldown_skips E interval now last diff) \/
   cooldown_passes E interval now (Some last)) -> False.
Proof.
  intros Hr [(diff & Hm & gap & Hg & _) | [H | (last' & diff & gap & Hl & Hm & Hg & _)]];
    try discriminate; simplify_eq; rewrite Hm in Hr; rsimpl; rewrite Hg in Hr; discriminate.
Qed.

(** C6. Gate order and short circuit.  With [now] the minute
    [log_route_to_sheet] reads first: a day that is not active skips,
    whatever the window and the last run; otherwise a time outside the
    window skips, before the last run is even read; otherwise a last run
    fewer than [interval] minutes ago skips; otherwise the run goes on to
    [fetch_and_log].  A request to the provider is issued only on that last
    path.  The gap is [(now - last).total_seconds() / 60.0], a float number
    of minutes, compared with [<] against [float(interval)]. *)
Theorem gate_order_short_circuit (st : state) :
  let now := now_at E st in
  let st1 := called CallNow st in
  (day_skips days now ->
   run st = (Ok tt, printed (MsgSkipDay route_name) st1)) /\
  (day_passes days now -> window_skips start end_ now ->
   run st = (Ok tt, printed (MsgSkipWindow route_name start end_) st1)) /\
  (day_passes days now -> window_passes start end_ now ->
   forall last st2 diff,
     get_last_run_time E ws_log route_name st1 = (Ok (Some last), st2) ->
     cooldown_skips E interval now last diff ->
     run st = (Ok tt, printed (MsgSkipInterval route_name diff) st2)) /\
  (day_passes days now -> window_passes start end_ now ->
   forall last_dt st2,
     get_last_run_time E ws_log route_name st1 = (Ok last_dt, st2) ->
     cooldown_passes E interval now last_dt ->
     run st = fetch_and_log E ws ws_log route_name origin destination now st2) /\
  (forall url,
      In (Called (CallGet url)) (new_events st (snd (run st))) ->
      day_passes days now /\ window_passes start end_ now /\
      exists last_dt st2,
        get_last_run_time E ws_log route_name st1 = (Ok last_dt, st2) /\
        cooldown_passes E interval now last_dt) /\
  (forall last,
      minutes_since now last =
      (td ← dt_sub now last;
       secs ← truediv (NInt td) (NInt 1000000);
       or_raise ZeroDivisionError (div secs (of_decimal 600 1)))).
Proof.
  intros now st1.
  pose proof (gate_cases E ws ws_log route_name origin destination interval days start end_ st)
    as Hcases.
  cbv zeta in Hcases. fold now in Hcases. fold st1 in Hcases.
  split; [| split; [| split; [| split; [| split]]]].
  - intros Hskip.
    destruct Hcases as [(e & Ht & Hs & _) | [(_ & Hr) | (Hday & _)]].
    + destruct (day_raise_exclusive now e Ht Hs). left. exact Hskip.
    + exact Hr.
    + destruct (day_exclusive now Hskip Hday).
  - intros Hday Hskip.
    destruct Hcases as [(e & Ht & Hs & _) | [(Hd & _) | (_ & Hwin)]].
    + destruct (day_raise_exclusive now e Ht Hs). right. exact Hday.
    + destruct (day_exclusive now Hd Hday).
    + destruct Hwin as [(e & Ht & Hs & _) | [(_ & Hr) | (Hwin & _)]].
      * destruct (window_raise_exclusive now e Hs Ht). left. exact Hskip.
      * exact Hr.
      * destruct (window_exclusive now Hskip Hwin).
  - intros Hday Hwin last st2 diff Hl Hskip.
    destruct Hcases as [(e & Ht & Hs & _) | [(Hd & _) | (_ & Hw)]].
    + destruct (day_raise_exclusive now e Ht Hs). right. exact Hday.
    + destruct (day_exclusive now Hd Hday).
    + destruct Hw as [(e & Ht & Hs & _) | [(Hw & _) | (_ & last_dt & st2' & Hl' & Hcool)]].
      * destruct (window_raise_exclusive now e Hs Ht). right. exact Hwin.
      * destruct (window_exclusive now Hw Hwin).
      * rewrite Hl in Hl'. injection Hl' as <- <-.
        destruct Hcool as [(l & e & Hsome & Hraise & _) | [(l & d & Hsome & Hc & Hr) | (Hc & _)]].
        -- injection Hsome as <-.
           destruct (cooldown_raise_exclusive now last e Hraise). left. exists diff. exact Hskip.
        -- injection Hsome as <-. rewrite Hr.
           destruct Hskip as [Hm _], Hc as [Hm' _]. rewrite Hm in Hm'. injection Hm' as <-.
           reflexivity.
        -- destruct (cooldown_exclusive now last diff Hskip Hc).
  - intros Hday Hwin last_dt st2 Hl Hpass.
    destruct Hcases as [(e & Ht & Hs & _) | [(Hd & _) | (_ & Hw)]].
    + destruct (day_raise_exclusive now e Ht Hs). right. exact Hday.
    + destruct (day_exclusive now Hd Hday).
    + destruct Hw as [(e & Ht & Hs & _) | [(Hw & _) | (_ & last_dt' & st2' & Hl' & Hcool)]].
      * destruct (window_raise_exclusive now e Hs Ht). right. exact Hwin.
      * destruct (window_exclusive now Hw Hwin).
      * rewrite Hl in Hl'. injection Hl' as <- <-.
        destruct Hcool as [(l & e & Hsome & Hraise & _) | [(l & d & Hsome & Hc & _) | (_ & Hr)]].
        -- subst last_dt. destruct (cooldown_raise_exclusive now l e Hraise). right. exact Hpass.
        -- subst last_dt. destruct (cooldown_exclusive now l d Hc Hpass).
        -- exact Hr.
  - intros url Hin.
    destruct (no_get_before_fetch st url Hin) as (Hday & Hwin & last_dt & st2 & Hl & Hc & _).
    split; [exact Hday |]. split; [exact Hwin |]. exists last_dt, st2. split; assumption.
  - intros last. reflexivity.
Qed.

End GateOrder.
Example isoformat_eight : isoformat eight_o_clock = "2024-03-11T08:00:00-05:00"%string.
Proof. reflexivity. Qed.

Example five_minutes :
  minutes_since (now_at home_world logged_at_eight) eight_o_clock = Ok (of_decimal 50 1).
Proof. vm_compute. reflexivity. Qed.

Lemma gate_order_short_circuit_witness :
  log_route_to_sheet home_world "Home" "LastRunLog" "Home" (JStr "A") (JStr "B") (JInt 15)
    (JArr [JStr "Saturday"; JStr "Sunday"]) JNull JNull logged_at_eight
  = (Ok tt, printed (MsgSkipDay "Home") (called CallNow logged_at_eight)) /\
  log_route_to_sheet home_world "Home" "LastRunLog" "Home" (JStr "A") (JStr "B") (JInt 15)
    JNull (JStr "09:00") (JStr "17:00") logged_at_eight
  = (Ok tt, printed (MsgSkipWindow "Home" (JStr "09:00") (JStr "17:00"))
              (called CallNow logged_at_eight)) /\
  log_route_to_sheet home_world "Home" "LastRunLog" "Home" (JStr "A") (JStr "B") (JInt 15)
    JNull (JStr "08:00") (JStr "17:00") logged_at_eight
  = (Ok tt, printed (MsgSkipInterval "Home" (of_decimal 50 1))
              (called (CallGetAllRecords "LastRunLog") (called CallNow logged_at_eight))) /\
  log_route_to_sheet home_world "Home" "LastRunLog" "Home" (JStr "A") (JStr "B") (JInt 5)
    JNull (JStr "08:00") (JStr "17:00") logged_at_eight
  = fetch_and_log home_world "Home" "LastRunLog" "Home" (JStr "A") (JStr "B")
      (now_at home_world logged_at_eight)
      (called (CallGetAllRecords "LastRunLog") (called CallNow logged_at_eight)).
Proof.
  split; [| split; [| split]].
  - apply (proj1 (gate_order_short_circuit home_world "Home" "LastRunLog" "Home" (JStr "A") (JStr "B")
                    (JInt 15) (JArr [JStr "Saturday"; JStr "Sunday"]) JNull JNull logged_at_eight)).
    split; reflexivity.
  - apply (proj1 (proj2 (gate_order_short_circuit home_world "Home" "LastRunLog" "Home" (JStr "A")
                           (JStr "B") (JInt 15) JNull (JStr "09:00") (JStr "17:00") logged_at_eight))).
    + left. reflexivity.
    + split; [reflexivity |]. exists (9, 0, 0, 0), (17, 0, 0, 0). repeat split; reflexivity.
  - apply (proj1 (proj2 (proj2 (gate_order_short_circuit home_world "Home" "LastRunLog" "Home"
                                  (JStr "A") (JStr "B") (JInt 15) JNull (JStr "08:00") (JStr "17:00")
                                  logged_at_eight)))
             ltac:(left; reflexivity)
             ltac:(right; exists (8, 0, 0, 0), (17, 0, 0, 0); repeat split; reflexivity)
             eight_o_clock).
    + reflexivity.
    + split; [vm_compute; reflexivity |].
      exists (FFin (15 * one)). split; vm_compute; reflexivity.
  - apply (proj1 (proj2 (proj2 (proj2 (gate_order_short_circuit home_world "Home" "LastRunLog" "Home"
                                  (JStr "A") (JStr "B") (JInt 5) JNull (JStr "08:00") (JStr "17:00")
                                  logged_at_eight))))
             ltac:(left; reflexivity)
             ltac:(right; exists (8, 0, 0, 0), (17, 0, 0, 0); repeat split; reflexivity)
             (Some eight_o_clock)).
    + reflexivity.
    + right. exists eight_o_clock, (of_decimal 50 1), (FFin (5 * one)).
      split; [reflexivity |]. repeat split; vm_compute; reflexivity.
Defined.

(** ** The time window *)

Lemma time_le_refl (t : time_of_day) : time_le t t = true.
Proof.
  destruct t as [[[h m] s] u]. unfold time_le, time_compare.
  rewrite !Z.compare_refl. reflexivity.
Qed.

Lemma emitted_called (P : event -> Prop) (c : call) (st : state) :
  P (Called c) -> emitted P st (called c st).
Proof. intros HP. exact (emitted_outside P c HP st). Qed.

Lemma emitted_printed (P : event -> Prop) (m : message) (st : state) :
  P (Print m) -> emitted P st (printed m st).
Proof. intros HP. exact (emitted_print P m HP st). Qed.

Lemma fetch_and_log_prints (E : env) (bad : message -> Prop) (ws ws_log route_name : string)
    (origin destination : json) (now : datetime) :
  (forall m, bad m -> is_skip_day m \/ is_skip_window m) ->
  respects (emitted (never_prints bad))
    (fetch_and_log E ws ws_log route_name origin destination now).
Proof.
  intros Hbad.
  pose proof (get_routes_prints E bad Hbad).
  pose proof (log_alternative_prints E bad).
  pose proof (update_last_run_time_prints E bad Hbad).
  unfold fetch_and_log. respects_tac.
  apply emitted_print. intros m Heq Hm. injection Heq as <-.
  destruct (Hbad _ Hm) as [[? ?] | (? & ? & ? & ?)]; discriminate.
Qed.

(** C7 as worded fails: when the window is written with its start after its
    end, a time equal to the end bound is skipped. *)
Lemma inverted_window_skips_end : ~ window_ends_inclusive.
Proof.
  intros H.
  apply (H six_world "Home"%string "LastRunLog"%string "Home"%string (JStr "A") (JStr "B")
           (JInt 15) (JStr "18:00") (JStr "06:00") fresh_log (18, 0, 0, 0) (6, 0, 0, 0)
           eq_refl eq_refl (or_introl eq_refl)).
  vm_compute. right. left. reflexivity.
Qed.

Lemma not_skip_window_prints (m : message) :
  ~ is_skip_window m -> never_prints is_skip_window (Print m).
Proof. intros H m' Heq. injection Heq as <-. exact H. Qed.

(** C7, amended. For every route whose two bounds parse and satisfy
    [start <= end], a [now] whose time of day equals the end bound (or the
    start bound) is inside the window: the gate goes past the window check
    and the run prints no skip-window message. *)
Theorem window_bounds_inclusive (E : env) (ws ws_log route_name : string)
    (origin destination interval days start end_ : json) (st : state) (s e : time_of_day) :
  strptime_time start = Ok s ->
  strptime_time end_ = Ok e ->
  time_le s e = true ->
  time_of (now_at E st) = e \/ time_of (now_at E st) = s ->
  window_passes start end_ (now_at E st) /\
  forall n a b,
    ~ In (Print (MsgSkipWindow n a b))
         (new_events st
            (snd (log_route_to_sheet E ws ws_log route_name origin destination interval
                    days start end_ st))).
Proof.
  intros Hs He Hle Hnow.
  assert (time_le s (time_of (now_at E st)) && time_le (time_of (now_at E st)) e = true) as Hin.
  { destruct Hnow as [-> | ->]; rewrite time_le_refl, Hle; reflexivity. }
  assert (window_passes start end_ (now_at E st)) as Hpass.
  { right. exists s, e. auto. }
  split; [exact Hpass |].
  set (P := never_prints is_skip_window).
  assert (emitted P st
            (snd (log_route_to_sheet E ws ws_log route_name origin destination interval
                    days start end_ st))) as (evs & Htr & Hall).
  { assert (emitted P st (called CallNow st)) as H1.
    { apply emitted_called, never_prints_called. }
    pose proof (gate_cases E ws ws_log route_name origin destination interval days start end_ st)
      as Hcases.
    cbv zeta in Hcases.
    destruct Hcases as [(x & _ & _ & Hr) | [(_ & Hr) | (_ & Hwin)]].
    - rewrite Hr. exact H1.
    - rewrite Hr. apply (emitted_trans P _ _ _ H1), emitted_printed, not_skip_window_prints.
      intros (? & ? & ? & ?). discriminate.
    - destruct Hwin as [(x & _ & _ & Hr) | [(Hskip & _) | (_ & last_dt & st2 & Hl & Hcool)]].
      + rewrite Hr. exact H1.
      + destruct (window_exclusive start end_ _ Hskip Hpass).
      + assert (emitted P st st2) as H2.
        { apply (emitted_trans P _ _ _ H1).
          pose proof (get_last_run_time_prints E is_skip_window skip_window_only ws_log
                        route_name (called CallNow st)) as Hg.
          rewrite Hl in Hg. exact Hg. }
        destruct Hcool as [(l & x & _ & _ & Hr) | [(l & d & _ & _ & Hr) | (_ & Hr)]].
        * rewrite Hr. exact H2.
        * rewrite Hr. apply (emitted_trans P _ _ _ H2), emitted_printed, not_skip_window_prints.
          intros (? & ? & ? & ?). discriminate.
        * rewrite Hr. apply (emitted_trans P _ _ _ H2).
          apply (fetch_and_log_prints E is_skip_window). exact skip_window_only. }
  intros n a b. rewrite (new_events_app _ _ evs Htr).
  apply (never_prints_not_in is_skip_window); [exact Hall |]. exists n, a, b. reflexivity.
Qed.

Lemma window_bounds_inclusive_witness :
  window_passes (JStr "06:00") (JStr "18:00") (now_at six_world fresh_log) /\
  forall n a b,
    ~ In (Print (MsgSkipWindow n a b))
         (new_events fresh_log
            (snd (log_route_to_sheet six_world "Home" "LastRunLog" "Home" (JStr "A") (JStr "B")
                    (JInt 15) JNull (JStr "06:00") (JStr "18:00") fresh_log))).
Proof.
  apply (window_bounds_inclusive six_world "Home" "LastRunLog" "Home" (JStr "A") (JStr "B")
           (JInt 15) JNull (JStr "06:00") (JStr "18:00") fresh_log (6, 0, 0, 0) (18, 0, 0, 0)).
  - reflexivity.
  - reflexivity.
  - reflexivity.
  - right. reflexivity.
Defined.

(** ** Run state is written last *)

Lemma log_alternative_eq (E : env) (ws : string) (origin destination : json) (now : datetime)
    (r : json) (st : state) :
  log_alternative E ws origin destination now r st =
  match commute_record origin destination now r with
  | Ok values => append_row E ws values st
  | Raise e => (Raise e, st)
  end.
Proof.
  unfold log_alternative, commute_record. munfold.
  destruct (first_leg r) as [leg | e]; [| reflexivity]. cbn [result_bind].
  destruct (duration_min leg) as [duration | e]; [| reflexivity]. cbn [result_bind].
  destruct (distance_mi leg) as [distance | e]; [| reflexivity]. cbn [result_bind].
  destruct (get_default r "summary" (JStr "N/A")) as [summary | e]; [| reflexivity].
  cbn [result_bind].
  destruct (turn_by_turn leg) as [directions | e]; [| reflexivity]. cbn [result_bind].
  destruct (quote_check origin) as [[] | e]; [| reflexivity]. cbn [result_bind].
  destruct (quote_check destination) as [[] | e]; reflexivity.
Qed.

(** An append either fails and changes nothing in the spreadsheet, or adds
    the row at the end of its tab. *)
Lemma append_row_cases (E : env) (tab : string) (values : row) (st : state) :
  (exists e, append_row E tab values st = (Raise e, called (CallAppendRow tab values) st)) \/
  (exists w,
      book st !! tab = Some w /\
      append_row E tab values st =
      (Ok tt, mkState (S (tick st)) (<[tab := w ++ [values]]> (book st))
                (trace st ++ [Called (CallAppendRow tab values)]))).
Proof.
  unfold append_row, sheets_call, with_tab, called. munfold. cbn.
  destruct (api_fails E (tick st)); cbn; [left; eauto |].
  destruct (book st !! tab) as [w | ] eqn:Hw; cbn; [right | left]; eauto.
Qed.

(** The loop over the alternatives touches one tab only; when it finishes,
    that tab has gained the record of every alternative, in order. *)
Lemma log_loop (E : env) (ws : string) (origin destination : json) (now : datetime)
    (rs : list json) (st st' : state) (r : result unit) :
  for_each rs (log_alternative E ws origin destination now) st = (r, st') ->
  (forall t, t <> ws -> book st' !! t = book st !! t) /\
  (r = Ok tt ->
   exists rows,
     Forall2 (fun alt values => commute_record origin destination now alt = Ok values) rs rows /\
     ((rs = [] /\ book st' = book st) \/
      exists w0, book st !! ws = Some w0 /\ book st' !! ws = Some (w0 ++ rows))).
Proof.
  revert st. induction rs as [ | alt rs IH]; intros st Hrun.
  - cbn in Hrun. munfold. simplify_eq. split; [reflexivity |].
    intros _. exists []. split; [constructor | left; split; reflexivity].
  - cbn [for_each] in Hrun. unfold mbind, M_bind in Hrun.
    rewrite log_alternative_eq in Hrun.
    destruct (commute_record origin destination now alt) as [values | e] eqn:Hrec.
    2:{ simplify_eq. split; [reflexivity | discriminate]. }
    destruct (append_row_cases E ws values st) as [(e & Ha) | (w & Hw & Ha)];
      rewrite Ha in Hrun.
    { simplify_eq. split; [reflexivity | discriminate]. }
    apply IH in Hrun as [Hframe Hok]. cbn [book] in *.
    split.
    + intros t Ht. rewrite (Hframe t Ht). apply lookup_insert_ne. congruence.
    + intros Hr. destruct (Hok Hr) as (rows & Hrows & Hbook).
      exists (values :: rows). split; [constructor; assumption |].
      right. exists w. split; [exact Hw |].
      destruct Hbook as [[-> ->] | (w1 & Hw1 & Hst')].
      * inversion Hrows. subst. cbn [book]. rewrite lookup_insert_eq. reflexivity.
      * rewrite lookup_insert_eq in Hw1. injection Hw1 as <-.
        rewrite Hst', <- app_assoc. reflexivity.
Qed.

Lemma sheets_call_same_book (E : env) (c : call) : respects same_book (sheets_call E c).
Proof. unfold sheets_call. respects_tac. Qed.

Lemma get_routes_same_book (E : env) (origin destination : json) :
  respects same_book (get_routes E origin destination).
Proof. unfold get_routes. respects_tac. Qed.

Lemma find_same_book (E : env) (tab query : string) : respects same_book (find E tab query).
Proof. pose proof (sheets_call_same_book E). unfold find, with_tab. respects_tac. Qed.

Lemma append_row_same_tab (E : env) (t tab : string) (values : row) :
  t <> tab -> respects (same_tab t) (append_row E tab values).
Proof.
  intros Hne st. unfold same_tab.
  destruct (append_row_cases E tab values st) as [(e & ->) | (w & _ & ->)]; cbn.
  - reflexivity.
  - apply lookup_insert_ne. congruence.
Qed.

Lemma update_cell_same_tab (E : env) (t tab : string) (r c : nat) (value : json) :
  t <> tab -> respects (same_tab t) (update_cell E tab r c value).
Proof.
  intros Hne st. unfold same_tab, update_cell, sheets_call, with_tab. munfold. cbn.
  destruct (api_fails E (tick st)); cbn; [reflexivity |].
  destruct (book st !! tab); cbn; [| reflexivity].
  apply lookup_insert_ne. congruence.
Qed.

(** Updating the run state touches the run-state tab only. *)
Lemma update_last_run_time_same_tab (E : env) (t ws_log route_name : string)
    (timestamp : datetime) :
  t <> ws_log -> respects (same_tab t) (update_last_run_time E ws_log route_name timestamp).
Proof.
  intros Hne.
  pose proof (same_book_tab t _ (find_same_book E ws_log route_name)).
  pose proof (append_row_same_tab E t ws_log).
  pose proof (update_cell_same_tab E t ws_log).
  pose proof (fun m => same_book_tab t _ (same_book_print m)).
  unfold update_last_run_time. respects_tac.
Qed.

Section FetchAndLog.

Context (E : env) (ws ws_log route_name : string) (origin destination : json) (now : datetime).

(** The paths through [fetch_and_log]. *)
Lemma fetch_and_log_cases (st : state) :
  exists r3 st3,
    get_routes E origin destination st = (r3, st3) /\ book st3 = book st /\
    match r3 with
    | Raise e =>
        fetch_and_log E ws ws_log route_name origin destination now st = (Raise e, st3)
    | Ok routes =>
        if truthy routes then
          match iter routes with
          | Raise e =>
              fetch_and_log E ws ws_log route_name origin destination now st = (Raise e, st3)
          | Ok rs =>
              exists r4 st4,
                for_each rs (log_alternative E ws origin destination now) st3 = (r4, st4) /\
                match r4 with
                | Raise e =>
                    fetch_and_log E ws ws_log route_name origin destination now st
                    = (Raise e, st4)
                | Ok _ =>
                    fetch_and_log E ws ws_log route_name origin destination now st
                    = update_last_run_time E ws_log route_name now st4
                end
          end
        else
          fetch_and_log E ws ws_log route_name origin destination now st
          = (Ok tt, printed (MsgNoRoutes route_name) st3)
    end.
Proof.
  pose proof (get_routes_same_book E origin destination st) as Hbook.
  remember (fetch_and_log E ws ws_log route_name origin destination now st) as R eqn:HR.
  unfold fetch_and_log in HR. unfold mbind at 1, M_bind at 1 in HR.
  destruct (get_routes E origin destination st) as [[routes | e] st3].
  2:{ exists (Raise e), st3. split; [reflexivity |]. split; [exact Hbook | exact HR]. }
  exists (Ok routes), st3. split; [reflexivity |]. split; [exact Hbook |].
  destruct (truthy routes); cbn [negb] in HR; [| exact HR].
  munfold. destruct (iter routes) as [rs | e]; [| exact HR].
  destruct (for_each rs (log_alternative E ws origin destination now) st3) as [[[] | e] st4].
  - exists (Ok tt), st4. split; [reflexivity | exact HR].
  - exists (Raise e), st4. split; [reflexivity | exact HR].
Qed.

End FetchAndLog.

(** ** A failing route ends the run *)





Lemma scan_records_same_book (E : env) (route_name : string)
    (records : list (list (string * json))) :
  respects same_book (scan_records E route_name records).
Proof. induction records as [ | r records IH]; simpl; respects_tac. Qed.

Lemma get_last_run_time_same_book (E : env) (ws_log route_name : string) :
  respects same_book (get_last_run_time E ws_log route_name).
Proof.
  pose proof (sheets_call_same_book E). pose proof (scan_records_same_book E).
  unfold get_last_run_time, get_all_records, with_tab. respects_tac.
Qed.

Lemma truthy_iter_nonempty (routes : json) (rs : list json) :
  truthy routes = true -> iter routes = Ok rs -> rs <> [].
Proof.
  destruct routes as [ | | | | s | l | kv]; try discriminate; cbn.
  - destruct s; [discriminate |]. intros _ H. injection H as <-. discriminate.
  - destruct l; [discriminate |]. intros _ H. injection H as <-. discriminate.
  - destruct kv; [discriminate |]. intros _ H. injection H as <-. discriminate.
Qed.

(** C3. Run-state atomicity, for every run of [log_route_to_sheet] whose
    record tab is not the run-state tab.  If the run raises (the fetch, the
    normalisation of an alternative, or an append, at any point of the
    loop), the run-state tab is exactly as before the run.  If the
    run-state tab changed, the run finished, the provider had returned at
    least one alternative, and the record tab holds its previous rows
    followed by one record per alternative: the entry is written only after
    all records were appended.  When the provider returns no alternative,
    the run prints so and the spreadsheet is untouched. *)
Theorem run_state_written_last (E : env) (ws ws_log route_name : string)
    (origin destination interval days start end_ : json) :
  ws <> ws_log ->
  (forall st r st',
      log_route_to_sheet E ws ws_log route_name origin destination interval days start end_ st
      = (r, st') ->
      (forall e, r = Raise e -> book st' !! ws_log = book st !! ws_log) /\
      (book st' !! ws_log <> book st !! ws_log ->
       r = Ok tt /\
       exists st2 routes st3 rs rows w0,
         book st2 = book st /\
         get_routes E origin destination st2 = (Ok routes, st3) /\
         truthy routes = true /\ iter routes = Ok rs /\
         Forall2 (fun alt values =>
                    commute_record origin destination (now_at E st) alt = Ok values) rs rows /\
         book st !! ws = Some w0 /\
         book st' !! ws = Some (w0 ++ rows))) /\
  (forall now st2 routes st3,
      get_routes E origin destination st2 = (Ok routes, st3) ->
      truthy routes = false ->
      fetch_and_log E ws ws_log route_name origin destination now st2
      = (Ok tt, printed (MsgNoRoutes route_name) st3) /\
      book st3 = book st2).
Proof.
  intros Hne. split.
  - intros st r st' Hrun.
    assert (book st' = book st -> 
            (forall e, r = Raise e -> book st' !! ws_log = book st !! ws_log) /\
            (book st' !! ws_log <> book st !! ws_log ->
             r = Ok tt /\
             exists st2 routes st3 rs rows w0,
               book st2 = book st /\
               get_routes E origin destination st2 = (Ok routes, st3) /\
               truthy routes = true /\ iter routes = Ok rs /\
               Forall2 (fun alt values =>
                          commute_record origin destination (now_at E st) alt = Ok values)
                       rs rows /\
               book st !! ws = Some w0 /\
               book st' !! ws = Some (w0 ++ rows))) as Hsame.
    { intros ->. split; [reflexivity | intros H; destruct (H eq_refl)]. }
    pose proof (gate_cases E ws ws_log route_name origin destination interval days start end_ st)
      as Hcases.
    cbv zeta in Hcases. rewrite Hrun in Hcases.
    destruct Hcases as [(x & _ & _ & Hr) | [(_ & Hr) | (_ & Hwin)]];
      [injection Hr as -> ->; apply Hsame; reflexivity .. |].
    destruct Hwin as [(x & _ & _ & Hr) | [(_ & Hr) | (_ & last_dt & st2 & Hl & Hcool)]];
      [injection Hr as -> ->; apply Hsame; reflexivity .. |].
    assert (book st2 = book st) as Hb2.
    { pose proof (get_last_run_time_same_book E ws_log route_name (called CallNow st)) as H.
      rewrite Hl in H. exact H. }
    destruct Hcool as [(l & x & _ & _ & Hr) | [(l & d & _ & _ & Hr) | (_ & Hr)]];
      [injection Hr as -> ->; apply Hsame; exact Hb2 .. |].
    destruct (fetch_and_log_cases E ws ws_log route_name origin destination (now_at E st) st2)
      as (r3 & st3 & Hget & Hb3 & Hfetch).
    rewrite <- Hr in Hfetch.
    destruct r3 as [routes | e].
    2:{ injection Hfetch as -> ->. apply Hsame. congruence. }
    destruct (truthy routes) eqn:Htruthy.
    2:{ injection Hfetch as -> ->. apply Hsame. cbn. congruence. }
    destruct (iter routes) as [rs | e] eqn:Hiter.
    2:{ injection Hfetch as -> ->. apply Hsame. congruence. }
    destruct Hfetch as (r4 & st4 & Hloop & Hfetch).
    destruct (log_loop E ws origin destination (now_at E st) rs st3 st4 r4 Hloop)
      as [Hframe Hrows].
    destruct r4 as [[] | e].
    2:{ injection Hfetch as -> ->. split.
        - intros _ _. rewrite (Hframe ws_log) by congruence. congruence.
        - intros H. destruct H. rewrite (Hframe ws_log) by congruence. congruence. }
    destruct (update_last_run_time_returns E ws_log route_name (now_at E st) st4) as [st5 Hup].
    rewrite Hup in Hfetch. injection Hfetch as -> ->.
    split; [discriminate |]. intros _. split; [reflexivity |].
    destruct (Hrows eq_refl) as (rows & Hall & [[-> _] | (w0 & Hw0 & Hw4)]).
    { destruct (truthy_iter_nonempty routes [] Htruthy Hiter eq_refl). }
    exists st2, routes, st3, rs, rows, w0.
    split; [exact Hb2 |]. split; [exact Hget |]. split; [exact Htruthy |].
    split; [exact Hiter |]. split; [exact Hall |]. split.
    + rewrite <- Hb2, <- Hb3. exact Hw0.
    + pose proof (update_last_run_time_same_tab E ws ws_log route_name (now_at E st) Hne st4)
        as Hws.
      rewrite Hup in Hws. unfold same_tab in Hws. cbn [snd] in Hws. rewrite Hws. exact Hw4.
  - intros now st2 routes st3 Hget Htruthy.
    destruct (fetch_and_log_cases E ws ws_log route_name origin destination now st2)
      as (r3 & st3' & Hget' & Hb3 & Hfetch).
    rewrite Hget in Hget'. injection Hget' as <- <-.
    rewrite Htruthy in Hfetch. split; assumption.
Qed.

Lemma run_state_written_last_witness :
  (fst (log_route_to_sheet flaky_world "Home" "LastRunLog" "Home" (JStr "A") (JStr "B")
          (JInt 5) JNull JNull JNull logged_at_eight) = Raise APIError /\
   book (snd (log_route_to_sheet flaky_world "Home" "LastRunLog" "Home" (JStr "A") (JStr "B")
                (JInt 5) JNull JNull JNull logged_at_eight)) !! "LastRunLog"%string
   = book logged_at_eight !! "LastRunLog"%string /\
   length <$> book (snd (log_route_to_sheet flaky_world "Home" "LastRunLog" "Home" (JStr "A")
                           (JStr "B") (JInt 5) JNull JNull JNull logged_at_eight)) !! "Home"%string
   = Some 2%nat) /\
  (fst (log_route_to_sheet two_alternatives_world "Home" "LastRunLog" "Home" (JStr "A") (JStr "B")
          (JInt 5) JNull JNull JNull logged_at_eight) = Ok tt /\
   length <$> book (snd (log_route_to_sheet two_alternatives_world "Home" "LastRunLog" "Home"
                           (JStr "A") (JStr "B") (JInt 5) JNull JNull JNull logged_at_eight))
              !! "Home"%string
   = Some 3%nat).
Proof.
  assert ("Home"%string <> "LastRunLog"%string) as Hne by discriminate.
  split.
  - pose proof (proj1 (run_state_written_last flaky_world "Home" "LastRunLog" "Home" (JStr "A")
                         (JStr "B") (JInt 5) JNull JNull JNull Hne)) as H.
    destruct (log_route_to_sheet flaky_world "Home" "LastRunLog" "Home" (JStr "A") (JStr "B")
                (JInt 5) JNull JNull JNull logged_at_eight) as [r st'] eqn:Hrun.
    assert (r = Raise APIError) as Hr.
    { change r with (fst (r, st')). rewrite <- Hrun. vm_compute. reflexivity. }
    split; [exact Hr |]. split.
    + exact (proj1 (H logged_at_eight r st' Hrun) APIError Hr).
    + change st' with (snd (r, st')). rewrite <- Hrun. vm_compute. reflexivity.
  - pose proof (proj1 (run_state_written_last two_alternatives_world "Home" "LastRunLog" "Home"
                         (JStr "A") (JStr "B") (JInt 5) JNull JNull JNull Hne)) as H.
    destruct (log_route_to_sheet two_alternatives_world "Home" "LastRunLog" "Home" (JStr "A")
                (JStr "B") (JInt 5) JNull JNull JNull logged_at_eight) as [r st'] eqn:Hrun.
    assert (book st' !! "LastRunLog"%string <> book logged_at_eight !! "LastRunLog"%string) as Hch.
    { change st' with (snd (r, st')). rewrite <- Hrun. vm_compute. discriminate. }
    destruct (proj2 (H logged_at_eight r st' Hrun) Hch)
      as (Hr & st2 & routes & st3 & rs & rows & w0 & _ & Hget & _ & Hiter & Hall & Hw0 & Hw).
    split; [exact Hr |].
    change st' with (snd (r, st')). rewrite <- Hrun. vm_compute. reflexivity.
Defined.

(** * Further properties of the script *)

(** ** The entry point *)

(** X1.  [main] never lets an exception out.  A request with a method other than
    GET is answered 405 without anything else happening; no request at all
    gives no reply, GET gives 200, and the 500 reply carries exactly the
    exception the tracker raised. *)
Theorem main_always_replies (E : env) (request : option string) (st : state) :
  exists rep st',
    main E request st = (Ok rep, st') /\
    (forall method,
        request = Some method -> method <> "GET"%string ->
        rep = Reply405 /\ st' = printed MsgTriggered st) /\
    (rep = NoReply ->
     request = None /\ run_commute_tracker E (printed MsgTriggered st) = (Ok tt, st')) /\
    (rep = Reply200 ->
     request = Some "GET"%string /\
     run_commute_tracker E (printed MsgTriggered st) = (Ok tt, st')) /\
    (forall e,
        rep = Reply500 e ->
        fst (run_commute_tracker E (printed MsgTriggered st)) = Raise e).
Proof.
  unfold main. munfold. cbn. fold (printed MsgTriggered st).
  destruct request as [method | ].
  - destruct (String.eqb_spec method "GET") as [-> | Hne].
    + destruct (run_commute_tracker E (printed MsgTriggered st)) as [[[] | e] st1]; cbn.
      * exists Reply200, st1.
        split; [reflexivity |]. split; [intros m Hm Hm'; congruence |].
        split; [discriminate |]. split; [auto | discriminate].
      * eexists (Reply500 e), _.
        split; [reflexivity |]. split; [intros m Hm Hm'; congruence |].
        split; [discriminate |]. split; [discriminate | intros e' He'; congruence].
    + exists Reply405, (printed MsgTriggered st).
      split; [reflexivity |]. split; [auto |].
      split; [discriminate |]. split; discriminate.
  - destruct (run_commute_tracker E (printed MsgTriggered st)) as [[[] | e] st1]; cbn.
    + exists NoReply, st1.
      split; [reflexivity |]. split; [discriminate |].
      split; [auto |]. split; discriminate.
    + eexists (Reply500 e), _.
      split; [reflexivity |]. split; [discriminate |].
      split; [discriminate |]. split; [discriminate | intros e' He'; congruence].
Qed.

Lemma main_always_replies_witness :
  fst (main offline_world (Some "POST"%string) fresh_log) = Ok Reply405 /\
  snd (main offline_world (Some "POST"%string) fresh_log) = printed MsgTriggered fresh_log.
Proof.
  destruct (main_always_replies offline_world (Some "POST"%string) fresh_log)
    as (rep & st' & Hrun & H405 & _).
  destruct (H405 "POST"%string eq_refl ltac:(discriminate)) as [-> ->].
  rewrite Hrun. split; reflexivity.
Defined.

(** ** Worksheets *)

(** Each gspread call, as an equation on the state it is made in. *)
Lemma sh_worksheet_run (E : env) (title : string) (st : state) :
  sh_worksheet E title st =
  (if api_fails E (tick st) then Raise APIError
   else match book st !! title with
        | Some _ => Ok title
        | None => Raise WorksheetNotFound
        end,
   called (CallWorksheet title) st).
Proof.
  unfold sh_worksheet, sheets_call, called. munfold. cbn.
  destruct (api_fails E (tick st)); cbn; [reflexivity |].
  destruct (book st !! title); reflexivity.
Qed.

Lemma add_worksheet_run (E : env) (title : string) (st : state) :
  add_worksheet E title st =
  if api_fails E (tick st) then (Raise APIError, called (CallAddWorksheet title) st)
  else match book st !! title with
       | Some _ => (Raise APIError, called (CallAddWorksheet title) st)
       | None => (Ok title, with_book (<[title := []]> (book st)) (called (CallAddWorksheet title) st))
       end.
Proof.
  unfold add_worksheet, sheets_call, called, with_book. munfold. cbn.
  destruct (api_fails E (tick st)); cbn; [reflexivity |].
  destruct (book st !! title); reflexivity.
Qed.

Lemma get_all_values_run (E : env) (tab : string) (st : state) :
  get_all_values E tab st =
  (if api_fails E (tick st) then Raise APIError
   else match book st !! tab with
        | Some rows => Ok (map (map (cell_text E)) rows)
        | None => Raise APIError
        end,
   called (CallGetAllValues tab) st).
Proof.
  unfold get_all_values, sheets_call, with_tab, called. munfold. cbn.
  destruct (api_fails E (tick st)); cbn; [reflexivity |].
  destruct (book st !! tab); reflexivity.
Qed.

Lemma clear_run (E : env) (tab : string) (st : state) :
  clear E tab st =
  if api_fails E (tick st) then (Raise APIError, called (CallClear tab) st)
  else match book st !! tab with
       | Some _ => (Ok tt, with_book (<[tab := []]> (book st)) (called (CallClear tab) st))
       | None => (Raise APIError, called (CallClear tab) st)
       end.
Proof.
  unfold clear, sheets_call, with_tab, called, with_book. munfold. cbn.
  destruct (api_fails E (tick st)); cbn; [reflexivity |].
  destruct (book st !! tab); reflexivity.
Qed.

Lemma append_row_run (E : env) (tab : string) (values : row) (st : state) :
  append_row E tab values st =
  if api_fails E (tick st) then (Raise APIError, called (CallAppendRow tab values) st)
  else match book st !! tab with
       | Some rows =>
           (Ok tt, with_book (<[tab := rows ++ [values]]> (book st))
                     (called (CallAppendRow tab values) st))
       | None => (Raise APIError, called (CallAppendRow tab values) st)
       end.
Proof.
  unfold append_row, sheets_call, with_tab, called, with_book. munfold. cbn.
  destruct (api_fails E (tick st)); cbn; [reflexivity |].
  destruct (book st !! tab); reflexivity.
Qed.





(** ** Reading the run state *)

Lemma get_all_records_run (E : env) (tab : string) (st : state) :
  get_all_records E tab st =
  (if api_fails E (tick st) then Raise APIError
   else match book st !! tab with
        | Some rows => records_of E rows
        | None => Raise APIError
        end,
   called (CallGetAllRecords tab) st).
Proof.
  unfold get_all_records, sheets_call, with_tab, called. munfold. cbn.
  destruct (api_fails E (tick st)); cbn; [reflexivity |].
  destruct (book st !! tab) as [rows | ]; [| reflexivity].
  destruct (records_of E rows); reflexivity.
Qed.

Lemma get_last_run_time_run (E : env) (ws_log route_name : string) (st : state) :
  get_last_run_time E ws_log route_name st =
  let st1 := called (CallGetAllRecords ws_log) st in
  match (if api_fails E (tick st) then Raise APIError
         else match book st !! ws_log with
              | Some rows => records_of E rows
              | None => Raise APIError
              end) with
  | Ok records =>
      match scan_records E route_name records st1 with
      | (Ok o, st2) => (Ok o, st2)
      | (Raise e, st2) => (Ok None, printed (MsgLogReadFailed route_name e) st2)
      end
  | Raise e => (Ok None, printed (MsgLogReadFailed route_name e) st1)
  end.
Proof.
  unfold get_last_run_time, try_except. unfold mbind at 1, M_bind at 1.
  rewrite get_all_records_run. cbv zeta.
  destruct (if api_fails E (tick st) then _ else _) as [records | e]; [| reflexivity].
  destruct (scan_records E route_name records _) as [[o | e] st2]; reflexivity.
Qed.

Lemma assoc_imap_absent (k : string) (keys : list string) (g : nat -> string -> json) :
  ~ In k keys -> assoc k (imap (fun i k' => (k', g i k')) keys) = None.
Proof.
  revert g. induction keys as [ | k' keys IH]; intros g Hk; [reflexivity |].
  cbn. destruct (String.eqb_spec k k') as [-> | Hne].
  - destruct Hk. left. reflexivity.
  - apply (IH (fun i => g (S i))). intros Hin. apply Hk. right. exact Hin.
Qed.

Lemma scan_records_no_column (E : env) (route_name : string)
    (records : list (list (string * json))) (st : state) :
  Forall (fun r => assoc "LastRun" r = None) records ->
  scan_records E route_name records st = (Ok None, st).
Proof.
  induction 1 as [ | r records Hr _ IH]; [reflexivity |].
  cbn [scan_records]. rewrite Hr. cbn.
  destruct (assoc "Route" r) as [[ | | | | s | | ] | ]; try exact IH.
  destruct (String.eqb s route_name); exact IH.
Qed.

(** X4.  A run-state tab whose first row has no [LastRun] cell never yields a
    last run: every route reads as never run, whatever the rows say. *)
Theorem missing_last_run_column_reads_none (E : env) (ws_log route_name : string) (st : state) :
  (forall header rest,
      book st !! ws_log = Some (header :: rest) ->
      ~ In "LastRun"%string (map (cell_text E) header)) ->
  fst (get_last_run_time E ws_log route_name st) = Ok None.
Proof.
  intros Hcol. rewrite get_last_run_time_run. cbv zeta.
  destruct (api_fails E (tick st)); [reflexivity |].
  destruct (book st !! ws_log) as [[ | header rest] | ] eqn:Hlog; [reflexivity | | reflexivity].
  unfold records_of. destruct (bool_decide _); [| reflexivity].
  rewrite scan_records_no_column; [reflexivity |].
  apply Forall_forall. intros r Hr. apply list_elem_of_fmap in Hr as (cells & -> & _).
  apply assoc_imap_absent. exact (Hcol header rest eq_refl).
Qed.

Lemma missing_last_run_column_reads_none_witness :
  fst (get_last_run_time home_world "LastRunLog" "Home" self_made_log) = Ok None.
Proof.
  apply missing_last_run_column_reads_none.
  intros header rest H. vm_compute in H. injection H as <- <-.
  vm_compute. intros Hin.
  repeat (destruct Hin as [Hin | Hin]; [discriminate |]). exact Hin.
Defined.

(** X5.  The tab [get_or_create_worksheet] creates for the run state carries the
    headers of a record tab, which have no [LastRun] column.  On such a tab
    the cooldown never applies: whenever the day and the window pass, the
    route is fetched, however recently it ran and whatever the interval. *)
Theorem self_made_log_never_cools_down (E : env) (ws ws_log route_name : string)
    (origin destination interval days start end_ : json) (st : state) (rest : worksheet) :
  (forall s, cell_text E (JStr s) = s) ->
  book st !! ws_log = Some (map JStr headers :: rest) ->
  day_passes days (now_at E st) ->
  window_passes start end_ (now_at E st) ->
  exists st2,
    log_route_to_sheet E ws ws_log route_name origin destination interval days start end_ st
    = fetch_and_log E ws ws_log route_name origin destination (now_at E st) st2.
Proof.
  intros Htext Hlog Hday Hwin.
  assert (fst (get_last_run_time E ws_log route_name (called CallNow st)) = Ok None) as Hnone.
  { apply missing_last_run_column_reads_none. cbn [book called].
    intros header rest' H. rewrite Hlog in H. injection H as <- <-.
    cbn [map]. rewrite !Htext. intros Hin.
    repeat (destruct Hin as [Hin | Hin]; [discriminate |]). exact Hin. }
  pose proof (gate_cases E ws ws_log route_name origin destination interval days start end_ st)
    as Hcases.
  cbv zeta in Hcases.
  destruct Hcases as [(e & Ht & Hs & _) | [(Hd & _) | (_ & Hw)]].
  - destruct (day_raise_exclusive days (now_at E st) e Ht Hs). right. exact Hday.
  - destruct (day_exclusive days (now_at E st) Hd Hday).
  - destruct Hw as [(e & Ht & Hs & _) | [(Hw & _) | (_ & last_dt & st2 & Hl & Hcool)]].
    + destruct (window_raise_exclusive start end_ (now_at E st) e Hs Ht). right. exact Hwin.
    + destruct (window_exclusive start end_ (now_at E st) Hw Hwin).
    + rewrite Hl in Hnone. cbn in Hnone. injection Hnone as ->.
      destruct Hcool as [(l & e & Hsome & _) | [(l & d & Hsome & _) | (_ & Hr)]];
        [discriminate | discriminate |].
      exists st2. exact Hr.
Qed.

Lemma self_made_log_never_cools_down_witness :
  exists st2,
    log_route_to_sheet home_world "Home" "LastRunLog" "Home" (JStr "A") (JStr "B") (JInt 15)
      JNull JNull JNull self_made_log
    = fetch_and_log home_world "Home" "LastRunLog" "Home" (JStr "A") (JStr "B")
        (now_at home_world self_made_log) st2.
Proof.
  apply (self_made_log_never_cools_down home_world "Home" "LastRunLog" "Home" (JStr "A")
           (JStr "B") (JInt 15) JNull JNull JNull self_made_log
           [[JStr "Home"; JStr "2024-03-11T08:00:00-05:00"]]).
  - reflexivity.
  - reflexivity.
  - left. reflexivity.
  - left. reflexivity.
Defined.

Lemma scan_records_aware (E : env) (route_name : string)
    (records : list (list (string * json))) (st st' : state) (dt : datetime) :
  scan_records E route_name records st = (Ok (Some dt), st') ->
  exists off, utcoffset dt = Some off.
Proof.
  induction records as [ | r records IH]; cbn [scan_records]; [discriminate |].
  destruct (assoc "Route" r) as [[ | | | | s | | ] | ]; try exact IH.
  destruct (String.eqb s route_name); [| exact IH].
  cbv zeta. destruct (truthy _); [| exact IH].
  destruct (default JNull (assoc "LastRun" r)) as [ | | | | v | | ]; try discriminate.
  destruct (fromisoformat E v) as [last | ]; [| munfold; discriminate].
  destruct (utcoffset last) as [off | ] eqn:Hoff; munfold; intros H; injection H as <- <-.
  - exists off. exact Hoff.
  - eexists. reflexivity.
Qed.

(** X6.  Whatever the run state holds, a last run handed to the gate is
    timezone-aware (a stored value without offset is localised), so the
    subtraction from [now] is always defined. *)
Theorem last_run_is_aware (E : env) (ws_log route_name : string) (st st' : state)
    (dt : datetime) :
  get_last_run_time E ws_log route_name st = (Ok (Some dt), st') ->
  (exists off, utcoffset dt = Some off) /\
  forall st0, dt_sub (now_at E st0) dt = Ok (instant (now_at E st0) - instant dt).
Proof.
  intros Hrun.
  assert (exists off, utcoffset dt = Some off) as [off Hoff].
  { rewrite get_last_run_time_run in Hrun. cbv zeta in Hrun.
    destruct (if api_fails E (tick st) then _ else _) as [records | e]; [| discriminate].
    destruct (scan_records E route_name records _) as [[o | e] st2] eqn:Hscan; [| discriminate].
    injection Hrun as -> ->. exact (scan_records_aware _ _ _ _ _ _ Hscan). }
  split; [exists off; exact Hoff |].
  intros st0. unfold dt_sub, now_at. rewrite Hoff.
  destruct (clock E (tick st0)). reflexivity.
Qed.

Lemma last_run_is_aware_witness :
  dt_sub (now_at home_world logged_at_eight) eight_o_clock = Ok (5 * 60 * 1000000).
Proof.
  exact (proj2 (last_run_is_aware home_world "LastRunLog" "Home" logged_at_eight
                  (called (CallGetAllRecords "LastRunLog") logged_at_eight) eight_o_clock
                  eq_refl) logged_at_eight).
Defined.

(** X7.  A run state that cannot be read counts as no previous run: when the
    call that reads it fails, the cooldown is skipped and, day and window
    permitting, the route is fetched. *)
Theorem failed_read_skips_cooldown (E : env) (ws ws_log route_name : string)
    (origin destination interval days start end_ : json) (st : state) :
  api_fails E (S (tick st)) = true ->
  day_passes days (now_at E st) ->
  window_passes start end_ (now_at E st) ->
  log_route_to_sheet E ws ws_log route_name origin destination interval days start end_ st
  = fetch_and_log E ws ws_log route_name origin destination (now_at E st)
      (printed (MsgLogReadFailed route_name APIError)
         (called (CallGetAllRecords ws_log) (called CallNow st))).
Proof.
  intros Hfail Hday Hwin.
  pose proof (gate_cases E ws ws_log route_name origin destination interval days start end_ st)
    as Hcases.
  cbv zeta in Hcases.
  destruct Hcases as [(e & Ht & Hs & _) | [(Hd & _) | (_ & Hw)]].
  - destruct (day_raise_exclusive days (now_at E st) e Ht Hs). right. exact Hday.
  - destruct (day_exclusive days (now_at E st) Hd Hday).
  - destruct Hw as [(e & Ht & Hs & _) | [(Hw & _) | (_ & last_dt & st2 & Hl & Hcool)]].
    + destruct (window_raise_exclusive start end_ (now_at E st) e Hs Ht). right. exact Hwin.
    + destruct (window_exclusive start end_ (now_at E st) Hw Hwin).
    + rewrite get_last_run_time_run in Hl. cbv zeta in Hl. cbn [tick called] in Hl.
      rewrite Hfail in Hl. injection Hl as <- <-.
      destruct Hcool as [(l & e & Hsome & _) | [(l & d & Hsome & _) | (_ & Hr)]];
        [discriminate | discriminate | exact Hr].
Qed.

Lemma failed_read_skips_cooldown_witness :
  log_route_to_sheet read_fails_world "Home" "LastRunLog" "Home" (JStr "A") (JStr "B") (JInt 15)
    JNull JNull JNull logged_at_eight
  = fetch_and_log read_fails_world "Home" "LastRunLog" "Home" (JStr "A") (JStr "B")
      (now_at read_fails_world logged_at_eight)
      (printed (MsgLogReadFailed "Home" APIError)
         (called (CallGetAllRecords "LastRunLog") (called CallNow logged_at_eight))).
Proof.
  apply failed_read_skips_cooldown.
  - reflexivity.
  - left. reflexivity.
  - left. reflexivity.
Defined.

(** ** Writing the run state *)

Lemma find_run (E : env) (tab query : string) (st : state) :
  find E tab query st =
  (if api_fails E (tick st) then Raise APIError
   else match book st !! tab with
        | Some rows => Ok (find_cell E query rows 1)
        | None => Raise APIError
        end,
   called (CallFind tab query) st).
Proof.
  unfold find, sheets_call, with_tab, called. munfold. cbn.
  destruct (api_fails E (tick st)); cbn; [reflexivity |].
  destruct (book st !! tab); reflexivity.
Qed.

Lemma update_cell_run (E : env) (tab : string) (r c : nat) (value : json) (st : state) :
  update_cell E tab r c value st =
  if api_fails E (tick st) then (Raise APIError, called (CallUpdateCell tab r c value) st)
  else match book st !! tab with
       | Some rows =>
           (Ok tt, with_book (<[tab := set_cell r c value rows]> (book st))
                     (called (CallUpdateCell tab r c value) st))
       | None => (Raise APIError, called (CallUpdateCell tab r c value) st)
       end.
Proof.
  unfold update_cell, sheets_call, with_tab, called, with_book. munfold. cbn.
  destruct (api_fails E (tick st)); cbn; [reflexivity |].
  destruct (book st !! tab); reflexivity.
Qed.

Section Upsert.

Context (E : env) (name value : string).
Hypothesis text_of_string : forall s, cell_text E (JStr s) = s.



Hypothesis numericise_string : forall s s', numericise E s = JStr s' -> s' = s.
Hypothesis name_is_text : numericise E name = JStr name.
Hypothesis value_is_text : numericise E value = JStr value.
Hypothesis value_not_empty : value <> EmptyString.

Lemma records_of_run_state_tab (entries : list (string * string)) :
  records_of E (run_state_tab entries) =
  Ok (map (fun p => [("Route"%string, numericise E (fst p));
                     ("LastRun"%string, numericise E (snd p))]) entries).
Proof.
  unfold records_of, run_state_tab. cbn [map]. rewrite !text_of_string.
  replace (bool_decide (NoDup ["Route"%string; "LastRun"%string])) with true
    by (vm_compute; reflexivity).
  f_equal. rewrite List.map_map. apply List.map_ext. intros [n x].
  unfold record_of, log_row. cbn. rewrite !text_of_string. reflexivity.
Qed.

Lemma scan_records_upsert (entries : list (string * string)) (st : state) :
  scan_records E name
    (map (fun p => [("Route"%string, numericise E (fst p));
                    ("LastRun"%string, numericise E (snd p))])
         (upsert name value entries)) st =
  match fromisoformat E value with
  | Some dt => (Ok (Some (localised E dt)), st)
  | None => (Ok None, printed (MsgInvalidDate name value) st)
  end.
Proof.
  assert (scan_records E name
            [[("Route"%string, numericise E name); ("LastRun"%string, numericise E value)]] st =
          match fromisoformat E value with
          | Some dt => (Ok (Some (localised E dt)), st)
          | None => (Ok None, printed (MsgInvalidDate name value) st)
          end) as Hhit.
  { cbn [scan_records assoc]. cbn. rewrite name_is_text, String.eqb_refl, value_is_text.
    cbn [default]. unfold truthy.
    destruct (String.eqb_spec value "") as [Hv | _]; [destruct (value_not_empty Hv) |].
    cbn [negb]. unfold localised.
    destruct (fromisoformat E value) as [dt | ]; [| reflexivity].
    destruct (utcoffset dt); reflexivity. }
  induction entries as [ | [n x] entries IH]; [exact Hhit |].
  cbn [upsert]. destruct (String.eqb_spec n name) as [-> | Hn].
  - cbn [map fst snd]. cbn [scan_records assoc] in *. cbn in *.
    rewrite name_is_text, String.eqb_refl, value_is_text in *.
    cbn [default] in *. unfold truthy in *.
    destruct (String.eqb_spec value "") as [Hv | _]; [destruct (value_not_empty Hv) |].
    cbn [negb] in *. exact Hhit.
  - cbn [map fst snd scan_records assoc]. cbn.
    destruct (numericise E n) as [ | | | | s | | ] eqn:Hnum; try exact IH.
    apply numericise_string in Hnum. subst s.
    apply String.eqb_neq in Hn. rewrite Hn. exact IH.
Qed.

End Upsert.

Lemma isoformat_not_empty (dt : datetime) : isoformat dt <> EmptyString.
Proof.
  unfold isoformat. destruct (digits 4 (year (civil dt))); discriminate.
Qed.



(** X9.  Round trip of the run state.  After [update_last_run_time] has upserted
    a timestamp, [get_last_run_time] on that tab returns the timestamp read
    back from its ISO text (localised when the text carried no offset), for
    a route name and a text that [get_all_records] leaves as strings. *)
Theorem run_state_round_trip (E : env) (ws_log route_name : string)
    (timestamp parsed : datetime) (entries : list (string * string)) (st : state) :
  (forall s, cell_text E (JStr s) = s) ->
  (forall s s', numericise E s = JStr s' -> s' = s) ->
  numericise E route_name = JStr route_name ->
  numericise E (isoformat timestamp) = JStr (isoformat timestamp) ->
  fromisoformat E (isoformat timestamp) = Some parsed ->
  book st !! ws_log = Some (run_state_tab (upsert route_name (isoformat timestamp) entries)) ->
  api_fails E (tick st) = false ->
  get_last_run_time E ws_log route_name st
  = (Ok (Some (localised E parsed)), called (CallGetAllRecords ws_log) st).
Proof.
  intros Htext Hnum Hname Hvalue Hparse Hlog Hread.
  rewrite get_last_run_time_run. cbv zeta. rewrite Hread, Hlog.
  rewrite (records_of_run_state_tab E Htext).
  rewrite (scan_records_upsert E route_name (isoformat timestamp) Hnum Hname Hvalue
             (isoformat_not_empty timestamp)).
  rewrite Hparse. reflexivity.
Qed.

Lemma run_state_round_trip_witness :
  get_last_run_time home_world "LastRunLog" "Home" logged_at_eight
  = (Ok (Some eight_o_clock), called (CallGetAllRecords "LastRunLog") logged_at_eight).
Proof.
  apply (run_state_round_trip home_world "LastRunLog" "Home" eight_o_clock eight_o_clock []).
  - reflexivity.
  - intros s s' H. injection H as <-. reflexivity.
  - reflexivity.
  - reflexivity.
  - reflexivity.
  - reflexivity.
  - reflexivity.
Defined.

(** ** Requests to the provider *)

Lemma requests_app (a b : list event) : requests (a ++ b) = (requests a + requests b)%nat.
Proof.
  induction a as [ | [m | c] a IH]; cbn; [reflexivity | exact IH |].
  destruct c; cbn; rewrite ?IH; reflexivity.
Qed.

Lemma requests_none (evs : list event) :
  Forall (never_calls is_get) evs -> requests evs = 0%nat.
Proof.
  induction 1 as [ | e evs He _ IH]; [reflexivity |].
  destruct e as [m | c]; cbn; [exact IH |].
  destruct c; cbn; try exact IH.
  destruct (He _ eq_refl). eexists. reflexivity.
Qed.

Lemma at_most_compose (a b : nat) (x y z : state) :
  at_most a x y -> at_most b y z -> at_most (a + b) x z.
Proof.
  intros (e1 & H1 & L1) (e2 & H2 & L2). exists (e1 ++ e2). split.
  - rewrite H2, H1, app_assoc. reflexivity.
  - rewrite requests_app. lia.
Qed.

Lemma at_most_refl (n : nat) (st : state) : at_most n st st.
Proof. exists []. split; [symmetry; apply List.app_nil_r | cbn; lia]. Qed.

Lemma no_get_at_most (n : nat) {A : Type} (m : M A) :
  respects (emitted (never_calls is_get)) m -> respects (at_most n) m.
Proof.
  intros H st. destruct (H st) as (evs & Htr & Hall). exists evs.
  split; [exact Htr |]. rewrite (requests_none evs Hall). lia.
Qed.

(** A step without request, then at most [n]. *)
Lemma at_most_bind {A B : Type} (n : nat) (m : M A) (f : A -> M B) :
  respects (at_most 0) m -> (forall a, respects (at_most n) (f a)) ->
  respects (at_most n) (m ≫= f).
Proof.
  intros Hm Hf st. specialize (Hm st). munfold.
  destruct (m st) as [[a | e] st1]; cbn in *.
  - exact (at_most_compose 0 n _ _ _ Hm (Hf a st1)).
  - destruct Hm as (evs & Htr & Hle). exists evs. split; [exact Htr | lia].
Qed.

(** At most [n], then steps without request. *)
Lemma at_most_then {A B : Type} (n : nat) (m : M A) (f : A -> M B) :
  respects (at_most n) m -> (forall a, respects (at_most 0) (f a)) ->
  respects (at_most n) (m ≫= f).
Proof.
  intros Hm Hf st. specialize (Hm st). munfold.
  destruct (m st) as [[a | e] st1]; cbn in *.
  - rewrite <- (Nat.add_0_r n). exact (at_most_compose n 0 _ _ _ Hm (Hf a st1)).
  - exact Hm.
Qed.

Lemma at_most_for_each {A : Type} (n : nat) (xs : list A) (body : A -> M unit) :
  (forall x, respects (at_most n) (body x)) ->
  respects (at_most (length xs * n)) (for_each xs body).
Proof.
  intros Hb. induction xs as [ | x xs IH]; cbn [for_each length Nat.mul].
  - intros st. apply at_most_refl.
  - intros st. specialize (Hb x st). munfold.
    destruct (body x st) as [[[] | e] st1]; cbn in *.
    + exact (at_most_compose _ _ _ _ _ Hb (IH st1)).
    + destruct Hb as (evs & Htr & Hle). exists evs. split; [exact Htr | lia].
Qed.

Lemma is_not_get (c : call) :
  match c with CallGet _ => False | _ => True end -> never_calls is_get (Called c).
Proof.
  intros H c' Heq [url Hurl]. injection Heq as <-. subst c. exact H.
Qed.

#[global] Hint Extern 1 (never_calls is_get (Called _)) => (apply is_not_get; exact I) : respects.

Section NoRequest.

Context (E : env).

Lemma now_chicago_no_get : respects (emitted (never_calls is_get)) (now_chicago E).
Proof. unfold now_chicago. respects_tac. Qed.

Lemma get_or_create_worksheet_no_get (name : string) :
  respects (emitted (never_calls is_get)) (get_or_create_worksheet E name).
Proof. unfold get_or_create_worksheet. respects_tac. Qed.

Lemma log_alternative_no_get (ws : string) (origin destination : json) (now : datetime)
    (r : json) :
  respects (emitted (never_calls is_get)) (log_alternative E ws origin destination now r).
Proof. unfold log_alternative. respects_tac. Qed.

Lemma update_last_run_time_no_get (ws_log route_name : string) (timestamp : datetime) :
  respects (emitted (never_calls is_get)) (update_last_run_time E ws_log route_name timestamp).
Proof. unfold update_last_run_time. respects_tac. Qed.

End NoRequest.

Lemma at_most_lift_bind {A B : Type} (n : nat) (r : result A) (f : A -> M B) :
  (forall a, r = Ok a -> respects (at_most n) (f a)) -> respects (at_most n) (lift r ≫= f).
Proof.
  intros Hf st. munfold. destruct r as [a | e]; cbn.
  - apply Hf. reflexivity.
  - apply at_most_refl.
Qed.

Lemma get_routes_one_request (E : env) (origin destination : json) (st : state) :
  exists evs,
    trace (snd (get_routes E origin destination st))
    = trace st ++ Called (CallGet (directions_url E origin destination)) :: evs /\
    Forall (never_calls is_get) evs.
Proof.
  unfold get_routes. unfold mbind at 1, M_bind at 1. unfold outside at 1. cbv zeta.
  match goal with
  | |- context [snd (?rest ?x ?s)] =>
      assert (respects (emitted (never_calls is_get)) (rest x)) as Hrest
        by (cbv beta; respects_tac);
      destruct (Hrest s) as (evs & Htr & Hall)
  end.
  exists evs. split; [| exact Hall]. rewrite Htr. cbn. rewrite <- app_assoc. reflexivity.
Qed.

Lemma get_routes_at_most_one (E : env) (origin destination : json) :
  respects (at_most 1) (get_routes E origin destination).
Proof.
  intros st. destruct (get_routes_one_request E origin destination st) as (evs & Htr & Hall).
  eexists. split; [exact Htr |]. cbn. rewrite (requests_none evs Hall). lia.
Qed.

Lemma fetch_and_log_at_most_one (E : env) (ws ws_log route_name : string)
    (origin destination : json) (now : datetime) :
  respects (at_most 1) (fetch_and_log E ws ws_log route_name origin destination now).
Proof.
  unfold fetch_and_log. apply at_most_then; [apply get_routes_at_most_one |].
  intros routes. apply no_get_at_most.
  pose proof (log_alternative_no_get E). pose proof (update_last_run_time_no_get E).
  respects_tac.
Qed.

Lemma log_route_to_sheet_at_most_one (E : env) (ws ws_log route_name : string)
    (origin destination interval days start end_ : json) :
  respects (at_most 1)
    (log_route_to_sheet E ws ws_log route_name origin destination interval days start end_).
Proof.
  unfold log_route_to_sheet.
  apply at_most_bind; [apply no_get_at_most, now_chicago_no_get | intros now].
  apply at_most_lift_bind. intros skip_day _.
  destruct skip_day; [apply no_get_at_most; respects_tac |].
  apply at_most_lift_bind. intros skip_window _.
  destruct skip_window; [apply no_get_at_most; respects_tac |].
  apply at_most_bind; [apply no_get_at_most, get_last_run_time_no_get | intros last_dt].
  apply at_most_lift_bind. intros [diff | ] _.
  - apply no_get_at_most. respects_tac.
  - apply fetch_and_log_at_most_one.
Qed.

Lemma track_route_at_most_one (E : env) (ws_log : string) (route : json) :
  respects (at_most 1) (track_route E ws_log route).
Proof.
  unfold track_route.
  repeat (apply at_most_lift_bind; intros ? _).
  apply at_most_bind; [apply no_get_at_most, get_or_create_worksheet_no_get | intros ws].
  repeat (apply at_most_lift_bind; intros ? _).
  apply log_route_to_sheet_at_most_one.
Qed.

(** X10.  No retries and no fan-out: [get_routes] issues exactly one request, a
    run of [log_route_to_sheet] at most one, and a whole run of
    [run_commute_tracker] at most one per configured route (none when the
    configuration cannot be loaded). *)
Theorem one_request_per_route (E : env) (st : state) :
  (forall origin destination,
      requests (new_events st (snd (get_routes E origin destination st))) = 1%nat) /\
  (forall ws ws_log route_name origin destination interval days start end_,
      (requests (new_events st
                   (snd (log_route_to_sheet E ws ws_log route_name origin destination interval
                           days start end_ st))) <= 1)%nat) /\
  (requests (new_events st (snd (run_commute_tracker E st)))
   <= length (configured_routes E))%nat.
Proof.
  split; [| split].
  - intros origin destination.
    destruct (get_routes_one_request E origin destination st) as (evs & Htr & Hall).
    rewrite (new_events_app _ _ _ Htr). cbn. rewrite (requests_none evs Hall). reflexivity.
  - intros ws ws_log route_name origin destination interval days start end_.
    destruct (log_route_to_sheet_at_most_one E ws ws_log route_name origin destination
                interval days start end_ st) as (evs & Htr & Hle).
    rewrite (new_events_app _ _ _ Htr). exact Hle.
  - assert (respects (at_most (length (configured_routes E))) (run_commute_tracker E)) as Hrun.
    { unfold run_commute_tracker.
      apply at_most_bind; [apply no_get_at_most; respects_tac | intros _].
      apply at_most_bind; [apply no_get_at_most; unfold get_gspread_client; respects_tac
                          | intros _].
      apply at_most_bind; [apply no_get_at_most; respects_tac | intros _].
      apply at_most_bind; [apply no_get_at_most, get_or_create_worksheet_no_get | intros ws_log].
      apply at_most_bind; [apply no_get_at_most; respects_tac | intros _].
      apply at_most_lift_bind. intros config Hconfig.
      apply at_most_lift_bind. intros routes Hroutes.
      assert (configured_routes E = routes) as ->.
      { unfold configured_routes. rewrite Hconfig.
        change (match (r ← getitem config "routes"; iter r) with
                | Ok l => l
                | Raise _ => []
                end = routes).
        rewrite Hroutes. reflexivity. }
      rewrite <- (Nat.mul_1_r (length routes)).
      apply at_most_for_each. intros route. apply track_route_at_most_one. }
    destruct (Hrun st) as (evs & Htr & Hle).
    rewrite (new_events_app _ _ _ Htr). exact Hle.
Qed.

(** ** Tabs *)

Lemma replace_slash_step (c : ascii) (s : string) :
  replace "/" "-" (String c s) =
  String (if Ascii.eqb c "/" then "-"%char else c) (replace "/" "-" s).
Proof.
  unfold replace. cbn [replace_from is_prefix].
  rewrite (Ascii.eqb_sym "/" c). destruct (Ascii.eqb c "/"); reflexivity.
Qed.

Lemma replace_slash_clean (s : string) : contains "/" (replace "/" "-" s) = false.
Proof.
  induction s as [ | c s IH]; [reflexivity |].
  rewrite replace_slash_step. cbn [contains is_prefix]. rewrite IH.
  destruct (Ascii.eqb_spec c "/") as [-> | Hc]; [reflexivity |].
  apply Ascii.eqb_neq in Hc. rewrite (Ascii.eqb_sym "/" c), Hc. reflexivity.
Qed.

Lemma track_route_tabs (E : env) (ws_log : string) (route : json) :
  respects
    (emitted (fun e => forall t, e = Called (CallWorksheet t) -> contains "/" t = false))
    (track_route E ws_log route).
Proof.
  set (P := fun e => forall t, e = Called (CallWorksheet t) -> contains "/" t = false).
  assert (forall m, P (Print m)) as Hprint by (intros m t H; discriminate).
  assert (forall c, match c with CallWorksheet _ => False | _ => True end -> P (Called c))
    as Hcall.
  { intros c Hc t H. injection H as ->. destruct Hc. }
  unfold track_route, get_or_create_worksheet, log_route_to_sheet, fetch_and_log,
    get_last_run_time, update_last_run_time, get_routes, log_alternative, now_chicago.
  assert (forall rn recs, respects (emitted P) (scan_records E rn recs)) as Hscan.
  { intros rn recs. induction recs as [ | r recs IH]; simpl; respects_tac;
      apply emitted_print, Hprint. }
  respects_tac;
    try (apply emitted_print, Hprint);
    try (apply emitted_outside, Hcall; exact I);
    try (first [ apply sheets_call_emits | apply add_worksheet_emits | apply get_all_values_emits
               | apply clear_emits | apply append_row_emits | apply get_all_records_emits
               | apply find_emits | apply update_cell_emits ]; apply Hcall; exact I).
  all: apply sh_worksheet_emits; intros t' Ht'; injection Ht' as <-;
    apply replace_slash_clean.
Qed.

(** X11.  The tab of a route is its name with every [/] turned into [-]: the
    title never holds a slash, every tab [track_route] looks up is such a
    title, and renaming twice changes nothing more (so a route named like
    another route's tab shares that tab). *)
Theorem route_tab_has_no_slash (E : env) (ws_log : string) (route : json) (st : state) :
  (forall name, contains "/" (replace "/" "-" name) = false) /\
  (forall name, replace "/" "-" (replace "/" "-" name) = replace "/" "-" name) /\
  (forall t,
      In (Called (CallWorksheet t)) (new_events st (snd (track_route E ws_log route st))) ->
      contains "/" t = false).
Proof.
  split; [exact replace_slash_clean |]. split.
  - intros name. apply replace_absent, replace_slash_clean.
  - intros t Hin. destruct (track_route_tabs E ws_log route st) as (evs & Htr & Hall).
    rewrite (new_events_app _ _ _ Htr) in Hin.
    rewrite Forall_forall in Hall. apply list_elem_of_In in Hin.
    exact (Hall _ Hin t eq_refl).
Qed.

Lemma route_tab_has_no_slash_witness : contains "/" "Home-Work" = false.
Proof.
  apply (proj2 (proj2 (route_tab_has_no_slash offline_world "LastRunLog"
                         (route_doc "Home/Work" "A" "B" no_window) fresh_log))).
  vm_compute. left. reflexivity.
Defined.

Lemma add_worksheet_same_tab (E : env) (t title : string) :
  t <> title -> respects (same_tab t) (add_worksheet E title).
Proof.
  intros Hne st. unfold same_tab. rewrite add_worksheet_run.
  destruct (api_fails E (tick st)); [reflexivity |].
  destruct (book st !! title); cbn; [reflexivity |].
  apply lookup_insert_ne. congruence.
Qed.

Lemma clear_same_tab (E : env) (t tab : string) :
  t <> tab -> respects (same_tab t) (clear E tab).
Proof.
  intros Hne st. unfold same_tab. rewrite clear_run.
  destruct (api_fails E (tick st)); [reflexivity |].
  destruct (book st !! tab); cbn; [| reflexivity].
  apply lookup_insert_ne. congruence.
Qed.

Lemma same_tab_read (t : string) {A : Type} (m : M A) :
  respects same_book m -> respects (same_tab t) m.
Proof. apply same_book_tab. Qed.

Lemma sh_worksheet_same_book (E : env) (title : string) :
  respects same_book (sh_worksheet E title).
Proof. intros st. rewrite sh_worksheet_run. reflexivity. Qed.

Lemma get_all_values_same_book (E : env) (tab : string) :
  respects same_book (get_all_values E tab).
Proof. intros st. rewrite get_all_values_run. reflexivity. Qed.

Lemma now_chicago_same_book (E : env) : respects same_book (now_chicago E).
Proof. unfold now_chicago. respects_tac. Qed.

Lemma respects_bind_post (R : state -> state -> Prop) {A B : Type} (Q : A -> Prop)
    (m : M A) (f : A -> M B) :
  (forall a b c, R a b -> R b c -> R a c) ->
  (forall st a st', m st = (Ok a, st') -> Q a) ->
  respects R m -> (forall a, Q a -> respects R (f a)) -> respects R (m ≫= f).
Proof.
  intros Htrans HQ Hm Hf st. specialize (Hm st). specialize (HQ st). munfold.
  destruct (m st) as [[a | e] st1]; cbn in *.
  - eapply Htrans; [exact Hm | apply Hf, (HQ a st1 eq_refl)].
  - exact Hm.
Qed.

(** The worksheet object obtained for a title is the one of that title. *)
Lemma worksheet_of_title (E : env) (name ws : string) (st st' : state) :
  try_except (sh_worksheet E name)
    (fun e =>
       match e with
       | WorksheetNotFound =>
           ws ← add_worksheet E name;
           print (MsgCreatedSheet name);;
           mret ws
       | _ => raise e
       end) st = (Ok ws, st') ->
  ws = name.
Proof.
  unfold try_except. rewrite sh_worksheet_run.
  destruct (api_fails E (tick st)); [discriminate |].
  destruct (book st !! name).
  - intros H. injection H as <- _. reflexivity.
  - unfold mbind at 1, M_bind at 1. rewrite add_worksheet_run.
    cbn [tick book called]. destruct (api_fails E (S (tick st))); [discriminate |].
    destruct (book st !! name); [discriminate |].
    munfold. intros H. injection H as <- _. reflexivity.
Qed.

Section Frame.

Context (E : env) (t : string).

Ltac frame :=
  respects_tac;
  try (apply same_tab_read;
       first [ apply same_book_print | apply same_book_outside | apply sheets_call_same_book
             | apply sh_worksheet_same_book | apply get_all_values_same_book
             | apply now_chicago_same_book | apply get_last_run_time_same_book
             | apply get_routes_same_book | apply find_same_book ]).

Lemma get_or_create_worksheet_same_tab (name : string) :
  t <> name -> respects (same_tab t) (get_or_create_worksheet E name).
Proof.
  intros Hne.
  pose proof (add_worksheet_same_tab E t name Hne).
  pose proof (clear_same_tab E t name Hne).
  pose proof (append_row_same_tab E t name).
  unfold get_or_create_worksheet.
  apply (respects_bind_post (same_tab t) (fun ws => ws = name));
    [apply same_tab_trans | intros st0 a st0'; apply worksheet_of_title
    | frame | intros ws ->; frame].
Qed.

Lemma log_alternative_same_tab (ws : string) (origin destination : json) (now : datetime)
    (r : json) :
  t <> ws -> respects (same_tab t) (log_alternative E ws origin destination now r).
Proof.
  intros Hne. pose proof (append_row_same_tab E t ws).
  unfold log_alternative. frame.
Qed.

Lemma log_route_to_sheet_same_tab (ws ws_log route_name : string)
    (origin destination interval days start end_ : json) :
  t <> ws -> t <> ws_log ->
  respects (same_tab t)
    (log_route_to_sheet E ws ws_log route_name origin destination interval days start end_).
Proof.
  intros Hws Hlog.
  pose proof (fun o d now r => log_alternative_same_tab ws o d now r Hws).
  pose proof (fun rn ts => update_last_run_time_same_tab E t ws_log rn ts Hlog).
  unfold log_route_to_sheet, fetch_and_log. frame.
Qed.

Lemma track_route_same_tab (ws_log : string) (route : json) :
  t <> ws_log ->
  (forall name, getitem route "name" = Ok (JStr name) -> t <> replace "/" "-" name) ->
  respects (same_tab t) (track_route E ws_log route).
Proof.
  intros Hlog Hname. unfold track_route.
  apply respects_lift_bind; [apply same_tab_refl | intros name Hn].
  apply respects_lift_bind; [apply same_tab_refl | intros route_name Hrn].
  destruct name; try discriminate. injection Hrn as ->.
  specialize (Hname route_name Hn).
  pose proof (get_or_create_worksheet_same_tab _ Hname).
  apply (respects_bind_post (same_tab t) (fun ws => ws = replace "/" "-" route_name));
    [apply same_tab_trans | | assumption | intros ws ->].
  - intros st ws st' Hrun. unfold get_or_create_worksheet in Hrun.
    unfold mbind at 1, M_bind at 1 in Hrun.
    destruct (try_except _ _ st) as [[ws' | e] st1] eqn:Hws; [| discriminate].
    apply worksheet_of_title in Hws. subst ws'.
    munfold. destruct (get_all_values _ _ _) as [[v | e] st2]; [| discriminate].
    match type of Hrun with
    | (let (_, _) := ?x in _) = _ => destruct x as [[[] | e] st3]
    end; [| discriminate].
    injection Hrun as <- _. reflexivity.
  - pose proof (log_route_to_sheet_same_tab (replace "/" "-" route_name) ws_log route_name).
    frame.
Qed.

End Frame.

Lemma for_each_respects_in (R : state -> state -> Prop) {A : Type} (xs : list A)
    (body : A -> M unit) :
  (forall st, R st st) -> (forall a b c, R a b -> R b c -> R a c) ->
  (forall x, In x xs -> respects R (body x)) -> respects R (for_each xs body).
Proof.
  intros Hrefl Htrans. induction xs as [ | x xs IH]; intros Hb; cbn [for_each].
  - intros st. apply Hrefl.
  - apply respects_bind; [exact Htrans | apply Hb; left; reflexivity |].
    intros _. apply IH. intros y Hy. apply Hb. right. exact Hy.
Qed.

(** X12.  A run writes only where it is meant to: [log_route_to_sheet] changes no
    tab other than its record tab and the run-state tab, and a whole run of
    [run_commute_tracker] changes no tab other than [LastRunLog] and the
    tabs of the configured routes, whatever fails on the way. *)
Theorem other_tabs_untouched (E : env) (st : state) (t : string) :
  (forall ws ws_log route_name origin destination interval days start end_,
      t <> ws -> t <> ws_log ->
      book (snd (log_route_to_sheet E ws ws_log route_name origin destination interval
                   days start end_ st)) !! t
      = book st !! t) /\
  (t <> "LastRunLog"%string ->
   (forall route name,
       In route (configured_routes E) ->
       getitem route "name" = Ok (JStr name) ->
       t <> replace "/" "-" name) ->
   book (snd (run_commute_tracker E st)) !! t = book st !! t).
Proof.
  split.
  - intros ws ws_log route_name origin destination interval days start end_ Hws Hlog.
    exact (log_route_to_sheet_same_tab E t ws ws_log route_name origin destination interval
             days start end_ Hws Hlog st).
  - intros Hlog Hroutes.
    assert (respects (same_tab t) (run_commute_tracker E)) as Hrun; [| exact (Hrun st)].
    pose proof (get_or_create_worksheet_same_tab E t "LastRunLog" Hlog) as Hcreate.
    unfold run_commute_tracker, get_gspread_client.
    apply respects_bind; [apply same_tab_trans | apply same_tab_read, same_book_print |].
    intros _.
    apply respects_bind; [apply same_tab_trans | apply same_tab_read, sheets_call_same_book |].
    intros _.
    apply respects_bind; [apply same_tab_trans | apply same_tab_read, sheets_call_same_book |].
    intros _.
    apply (respects_bind_post (same_tab t) (fun ws => ws = "LastRunLog"%string));
      [apply same_tab_trans | | exact Hcreate | intros ws_log ->].
    { intros st0 ws st0' H0. unfold get_or_create_worksheet in H0.
      unfold mbind at 1, M_bind at 1 in H0.
      destruct (try_except _ _ st0) as [[ws' | e] st1] eqn:Hws; [| discriminate].
      apply worksheet_of_title in Hws. subst ws'.
      munfold. destruct (get_all_values _ _ _) as [[v | e] st2]; [| discriminate].
      match type of H0 with
      | (let (_, _) := ?x in _) = _ => destruct x as [[[] | e] st3]
      end; [| discriminate].
      injection H0 as <- _. reflexivity. }
    apply respects_bind; [apply same_tab_trans | apply same_tab_read, same_book_outside |].
    intros _.
    apply respects_lift_bind; [apply same_tab_refl | intros config Hconfig].
    apply respects_lift_bind; [apply same_tab_refl | intros routes Hr].
    assert (configured_routes E = routes) as Hcfg.
    { unfold configured_routes. rewrite Hconfig.
      change (match (r ← getitem config "routes"; iter r) with
              | Ok l => l
              | Raise _ => []
              end = routes).
      rewrite Hr. reflexivity. }
    apply for_each_respects_in; [apply same_tab_refl | apply same_tab_trans |].
    intros route Hin. apply track_route_same_tab; [exact Hlog |].
    intros name Hname. apply (Hroutes route name); [rewrite Hcfg; exact Hin | exact Hname].
Qed.

Lemma other_tabs_untouched_witness :
  book (snd (run_commute_tracker home_world archive_state)) !! "Archive"%string
  = Some [[JStr "kept"]].
Proof.
  refine (proj2 (other_tabs_untouched home_world archive_state "Archive") _ _).
  - discriminate.
  - intros route name [<- | []] Hname. injection Hname as <-. discriminate.
Defined.

(** ** What the directions client returns *)

Lemma route_line_loop (alts : list json) (msgs : list message) (st : state) :
  Forall2 (fun alt m => route_line alt = Ok m) alts msgs ->
  for_each alts (fun r =>
    leg ← lift (first_leg r);
    normal ← lift (d ← getitem leg "duration"; getitem d "text");
    traffic ← lift (t ← get_default leg "duration_in_traffic" (JObj []);
                    get_default t "text" (JStr "no traffic"));
    summary ← lift (get_default r "summary" (JStr "N/A"));
    print (MsgRoute summary normal traffic)) st
  = (Ok tt, traced (map Print msgs) st).
Proof.
  intros Hall. revert st.
  induction Hall as [ | alt m alts msgs Hm _ IH]; intros st.
  - unfold traced. cbn. rewrite List.app_nil_r. destruct st; reflexivity.
  - cbn [for_each]. unfold mbind at 1, M_bind at 1.
    unfold route_line in Hm. munfold.
    destruct (first_leg alt) as [leg | e]; [| discriminate]. cbn in Hm |- *.
    destruct (result_bind _ _ _ (getitem leg "duration")) as [normal | e]; [| discriminate].
    cbn in Hm |- *.
    destruct (result_bind _ _ _ (get_default leg "duration_in_traffic" (JObj [])))
      as [traffic | e]; [| discriminate].
    cbn in Hm |- *.
    destruct (get_default alt "summary" (JStr "N/A")) as [summary | e]; [| discriminate].
    cbn in Hm |- *. injection Hm as <-.
    rewrite IH. unfold traced. cbn. rewrite <- app_assoc. reflexivity.
Qed.

Lemma route_line_loop_fails (good rest : list json) (bad : json) (msgs : list message)
    (e : exn) (st : state) :
  Forall2 (fun alt m => route_line alt = Ok m) good msgs ->
  route_line bad = Raise e ->
  for_each (good ++ bad :: rest) (fun r =>
    leg ← lift (first_leg r);
    normal ← lift (d ← getitem leg "duration"; getitem d "text");
    traffic ← lift (t ← get_default leg "duration_in_traffic" (JObj []);
                    get_default t "text" (JStr "no traffic"));
    summary ← lift (get_default r "summary" (JStr "N/A"));
    print (MsgRoute summary normal traffic)) st
  = (Raise e, traced (map Print msgs) st).
Proof.
  intros Hall Hbad. revert st.
  induction Hall as [ | alt m alts msgs Hm _ IH]; intros st.
  - cbn [app for_each]. unfold mbind at 1, M_bind at 1.
    unfold route_line in Hbad. munfold.
    destruct (first_leg bad) as [leg | e0]; cbn in Hbad |- *;
      [| injection Hbad as <-; unfold traced; cbn; rewrite List.app_nil_r;
         destruct st; reflexivity].
    destruct (result_bind _ _ _ (getitem leg "duration")) as [normal | e0]; cbn in Hbad |- *;
      [| injection Hbad as <-; unfold traced; cbn; rewrite List.app_nil_r;
         destruct st; reflexivity].
    destruct (result_bind _ _ _ (get_default leg "duration_in_traffic" (JObj [])))
      as [traffic | e0]; cbn in Hbad |- *;
      [| injection Hbad as <-; unfold traced; cbn; rewrite List.app_nil_r;
         destruct st; reflexivity].
    destruct (get_default bad "summary" (JStr "N/A")) as [summary | e0]; cbn in Hbad |- *;
      [discriminate |].
    injection Hbad as <-. unfold traced. cbn. rewrite List.app_nil_r.
    destruct st; reflexivity.
  - cbn [app for_each]. unfold mbind at 1, M_bind at 1.
    unfold route_line in Hm. munfold.
    destruct (first_leg alt) as [leg | e0]; [| discriminate]. cbn in Hm |- *.
    destruct (result_bind _ _ _ (getitem leg "duration")) as [normal | e0]; [| discriminate].
    cbn in Hm |- *.
    destruct (result_bind _ _ _ (get_default leg "duration_in_traffic" (JObj [])))
      as [traffic | e0]; [| discriminate].
    cbn in Hm |- *.
    destruct (get_default alt "summary" (JStr "N/A")) as [summary | e0]; [| discriminate].
    cbn in Hm |- *. injection Hm as <-.
    rewrite IH. unfold traced. cbn. rewrite <- app_assoc. reflexivity.
Qed.

(** X13.  What [get_routes] does with a 200 response whose body parses.
    When every alternative has a printable line, it returns the value under
    ["routes"] as it came (the empty list when the key is absent), after one
    request and one line per alternative in order.  The first alternative
    whose line cannot be built makes the whole fetch raise, after the lines
    of the alternatives before it. *)
Theorem get_routes_on_ok_response (E : env) (origin destination : json) (st : state)
    (r : response) (data routes : json) (alts : list json) :
  requests_get E (tick st) (directions_url E origin destination) = Ok r ->
  status_code r = 200 ->
  json_body r = Ok data ->
  get_default data "routes" (JArr []) = Ok routes ->
  iter routes = Ok alts ->
  (forall msgs,
      Forall2 (fun alt m => route_line alt = Ok m) alts msgs ->
      get_routes E origin destination st
      = (Ok routes,
         traced (map Print msgs) (called (CallGet (directions_url E origin destination)) st)))
  /\
  (forall good bad rest msgs e,
      alts = good ++ bad :: rest ->
      Forall2 (fun alt m => route_line alt = Ok m) good msgs ->
      route_line bad = Raise e ->
      get_routes E origin destination st
      = (Raise e,
         traced (map Print msgs) (called (CallGet (directions_url E origin destination)) st))).
Proof.
  intros Hget Hstatus Hbody Hroutes Hiter.
  split.
  - intros msgs Hall.
    unfold get_routes. munfold. unfold outside, lift. cbn.
    rewrite Hget. cbn. rewrite Hstatus. cbn. rewrite Hbody. cbn.
    rewrite Hroutes. cbn. rewrite Hiter. cbn.
    pose proof (route_line_loop alts msgs
                  (called (CallGet (directions_url E origin destination)) st) Hall) as Hloop.
    unfold called in Hloop. munfold. unfold lift in Hloop.
    rewrite Hloop. reflexivity.
  - intros good bad rest msgs e -> Hall Hbad.
    unfold get_routes. munfold. unfold outside, lift. cbn.
    rewrite Hget. cbn. rewrite Hstatus. cbn. rewrite Hbody. cbn.
    rewrite Hroutes. cbn. rewrite Hiter. cbn.
    pose proof (route_line_loop_fails good rest bad msgs e
                  (called (CallGet (directions_url E origin destination)) st) Hall Hbad)
      as Hloop.
    unfold called in Hloop. munfold. unfold lift in Hloop.
    rewrite Hloop. reflexivity.
Qed.

Lemma get_routes_on_ok_response_witness :
  get_routes two_alternatives_world (JStr "A") (JStr "B") logged_at_eight
  = (Ok (JArr [i90; i94]),
     traced [Print (MsgRoute (JStr "I-90") (JStr "-") (JStr "no traffic"));
             Print (MsgRoute (JStr "I-94") (JStr "-") (JStr "no traffic"))]
       (called (CallGet (directions_url two_alternatives_world (JStr "A") (JStr "B")))
          logged_at_eight))
  /\ fst (get_routes untitled_world (JStr "A") (JStr "B") logged_at_eight)
     = Raise (KeyError "text")
  /\ exists row, commute_record (JStr "A") (JStr "B") (now_at untitled_world logged_at_eight)
                   untitled = Ok row.
Proof.
  split; [| split].
  - refine (proj1 (get_routes_on_ok_response two_alternatives_world (JStr "A") (JStr "B")
                     logged_at_eight (routes_response [i90; i94])
                     (JObj [("routes"%string, JArr [i90; i94])]) (JArr [i90; i94]) [i90; i94]
                     eq_refl eq_refl eq_refl eq_refl eq_refl)
                  [MsgRoute (JStr "I-90") (JStr "-") (JStr "no traffic");
                   MsgRoute (JStr "I-94") (JStr "-") (JStr "no traffic")] _).
    repeat constructor.
  - refine (f_equal fst
              (proj2 (get_routes_on_ok_response untitled_world (JStr "A") (JStr "B")
                        logged_at_eight (routes_response [i90; untitled])
                        (JObj [("routes"%string, JArr [i90; untitled])])
                        (JArr [i90; untitled]) [i90; untitled]
                        eq_refl eq_refl eq_refl eq_refl eq_refl)
                     [i90] untitled [] [MsgRoute (JStr "I-90") (JStr "-") (JStr "no traffic")]
                     (KeyError "text") eq_refl _ eq_refl)).
    repeat constructor.
  - eexists. vm_compute. reflexivity.
Defined.

(** ** A run state that cannot be written *)

Lemma update_failure (E : env) (ws_log route_name : string)
    (timestamp : datetime) (st : state) :
  api_fails E (tick st) = true \/ api_fails E (S (tick st)) = true
  \/ book st !! ws_log = None ->
  exists st',
    update_last_run_time E ws_log route_name timestamp st = (Ok tt, st') /\
    book st' = book st /\
    last (trace st') = Some (Print (MsgLogUpdateFailed route_name APIError)).
Proof.
  intros Hfail.
  unfold update_last_run_time, try_except.
  unfold mbind at 1, M_bind at 1. rewrite find_run.
  destruct (api_fails E (tick st)) eqn:Hfirst.
  { eexists. split; [reflexivity |]. cbn. split; [reflexivity |].
    apply last_snoc. }
  destruct (book st !! ws_log) as [rows |] eqn:Htab.
  2:{ eexists. split; [reflexivity |]. cbn. split; [reflexivity |].
      apply last_snoc. }
  destruct Hfail as [Hfail | [Hsecond | Hnone]]; [discriminate | | discriminate].
  destruct (find_cell E route_name rows 1) as [[r c] |].
  - rewrite update_cell_run. cbn [called tick]. rewrite Hsecond.
    eexists. split; [reflexivity |]. cbn. split; [reflexivity |].
    apply last_snoc.
  - unfold mbind at 1, M_bind at 1. rewrite append_row_run. cbn [called tick].
    rewrite Hsecond.
    eexists. split; [reflexivity |]. cbn. split; [reflexivity |].
    apply last_snoc.
Qed.

(** X14.  A failure of the Sheets API anywhere in [update_last_run_time]
    (the lookup, or the write that follows it, or a run-state tab that is
    gone) is swallowed: the call returns normally, the spreadsheet is
    exactly as it was, and the last thing printed is the warning.  So when
    it happens at the end of [fetch_and_log], the run ends normally with
    the records of the loop appended and the run state not advanced. *)
Theorem failed_update_is_swallowed (E : env) (ws_log route_name : string)
    (timestamp : datetime) :
  (forall st,
      api_fails E (tick st) = true \/ api_fails E (S (tick st)) = true
      \/ book st !! ws_log = None ->
      exists st',
        update_last_run_time E ws_log route_name timestamp st = (Ok tt, st') /\
        book st' = book st /\
        last (trace st') = Some (Print (MsgLogUpdateFailed route_name APIError))) /\
  (forall ws origin destination st routes st3 rs st4,
      get_routes E origin destination st = (Ok routes, st3) ->
      truthy routes = true ->
      iter routes = Ok rs ->
      for_each rs (log_alternative E ws origin destination timestamp) st3 = (Ok tt, st4) ->
      api_fails E (tick st4) = true \/ api_fails E (S (tick st4)) = true
      \/ book st4 !! ws_log = None ->
      exists st',
        fetch_and_log E ws ws_log route_name origin destination timestamp st = (Ok tt, st') /\
        book st' = book st4 /\
        last (trace st') = Some (Print (MsgLogUpdateFailed route_name APIError))).
Proof.
  split.
  - intros st. apply update_failure.
  - intros ws origin destination st routes st3 rs st4 Hget Htruthy Hiter Hloop Hfail.
    destruct (update_failure E ws_log route_name timestamp st4 Hfail)
      as (st' & Hupd & Hbook & Hlast).
    exists st'. split; [| split; assumption].
    destruct (fetch_and_log_cases E ws ws_log route_name origin destination timestamp st)
      as (r3 & st3' & Hget' & _ & Hcases).
    rewrite Hget in Hget'. injection Hget' as <- <-.
    rewrite Htruthy, Hiter in Hcases.
    destruct Hcases as (r4 & st4' & Hloop' & Hcases).
    rewrite Hloop in Hloop'. injection Hloop' as <- <-.
    rewrite Hcases. exact Hupd.
Qed.

Lemma failed_update_is_swallowed_witness :
  exists st',
    fetch_and_log update_fails_world "Home" "LastRunLog" "Home" (JStr "A") (JStr "B")
      (now_at update_fails_world logged_at_eight) logged_at_eight = (Ok tt, st') /\
    book st' !! "LastRunLog"%string = book logged_at_eight !! "LastRunLog"%string /\
    (length <$> book st' !! "Home"%string) = Some 2%nat.
Proof.
  destruct (proj2 (failed_update_is_swallowed update_fails_world "LastRunLog" "Home"
                     (now_at update_fails_world logged_at_eight))
              "Home"%string (JStr "A") (JStr "B") logged_at_eight
              (JArr [i90])
              (fst (snd (get_routes update_fails_world (JStr "A") (JStr "B") logged_at_eight),
                    tt))
              [i90]
              (snd (for_each [i90]
                      (log_alternative update_fails_world "Home" (JStr "A") (JStr "B")
                         (now_at update_fails_world logged_at_eight))
                      (snd (get_routes update_fails_world (JStr "A") (JStr "B")
                              logged_at_eight))))
              ltac:(vm_compute; reflexivity) eq_refl eq_refl
              ltac:(vm_compute; reflexivity)
              ltac:(left; vm_compute; reflexivity))
    as (st' & Hrun & Hbook & _).
  exists st'. split; [exact Hrun |]. rewrite Hbook. split; vm_compute; reflexivity.
Defined.

(** ** Exact arithmetic on whole numbers *)

(** A whole number below [2^53] is a double, and the quotient that denotes
    it rounds to it. *)
Lemma rn64_exact (n d : Z) :
  0 < d -> Z.abs n < 2 ^ 53 -> rn64 (n * one * d) d = FFin (n * one).
Proof.
  intros Hd Hn.
  assert (Hone : 0 < one) by (unfold one; apply Z.pow_pos_nonneg; lia).
  assert (Hrnd : rnd (n * one * d) d = n * one).
  { assert (Hq : Z.abs (n * one * d) / d = Z.abs n * one).
    { rewrite !Z.abs_mul, (Z.abs_eq one), (Z.abs_eq d) by lia.
      rewrite Z.div_mul by lia. reflexivity. }
    destruct (Z.eq_dec n 0) as [-> | Hn0].
    { assert (Hulp : ulp (0 * one * d) d = 1).
      { unfold ulp. rewrite Hq. reflexivity. }
      unfold rnd. rewrite Hulp, !Z.mul_1_r.
      pose proof (rne_exact 0 d Hd) as H0.
      change (0 * d) with 0 in H0. change (0 * one * d) with 0.
      rewrite H0. reflexivity. }
    set (L := Z.log2 (Z.abs n)).
    assert (HL : 0 <= L < 53).
    { split; [apply Z.log2_nonneg |]. apply Z.log2_lt_pow2; lia. }
    assert (Hulp : ulp (n * one * d) d = 2 ^ (L + 1022)).
    { unfold ulp. rewrite Hq. unfold one. rewrite Z.log2_mul_pow2 by lia. fold L.
      rewrite Z.max_r by lia. f_equal. lia. }
    assert (Hsplit : one = 2 ^ (52 - L) * 2 ^ (L + 1022)).
    { unfold one. rewrite <- Z.pow_add_r by lia. f_equal. lia. }
    assert (Hu : 0 < 2 ^ (L + 1022)) by (apply Z.pow_pos_nonneg; lia).
    unfold rnd. rewrite Hulp.
    set (a := 2 ^ (52 - L)) in *. set (u := 2 ^ (L + 1022)) in *.
    replace (n * one * d) with (n * a * (d * u)) by (rewrite Hsplit; lia).
    rewrite rne_exact by nia. rewrite Hsplit. lia. }
  unfold rn64. rewrite Hrnd.
  assert (Hsmall : Z.abs (n * one) < huge).
  { rewrite Z.abs_mul, (Z.abs_eq one) by lia.
    apply Z.lt_le_trans with (2 ^ 53 * one).
    - apply Z.mul_lt_mono_pos_r; assumption.
    - unfold one, huge. rewrite <- Z.pow_add_r by lia.
      apply Z.pow_le_mono_r; lia. }
  destruct (huge <=? Z.abs (n * one)) eqn:Hh; [apply Z.leb_le in Hh; lia | reflexivity].
Qed.

Lemma of_int_exact (n : Z) : Z.abs n < 2 ^ 53 -> of_int n = Some (FFin (n * one)).
Proof.
  intros Hn. unfold of_int.
  replace (n * one) with (n * one * 1) at 1 by lia.
  rewrite rn64_exact by lia. reflexivity.
Qed.

Lemma sixty_exact : sixty = FFin (60 * one).
Proof.
  unfold sixty, of_decimal. change (10 ^ 1) with 10.
  replace (600 * one) with (60 * one * 10) by lia.
  apply rn64_exact; lia.
Qed.

Lemma total_seconds_exact (s : Z) :
  Z.abs s < 2 ^ 53 -> total_seconds (s * 1000000) = Ok (FFin (s * one)).
Proof.
  intros Hs. unfold total_seconds, truediv.
  change (1000000 =? 0) with false. cbv iota.
  change (Z.sgn 1000000) with 1. change (Z.abs 1000000) with 1000000.
  replace (1 * (s * 1000000) * one) with (s * one * 1000000) by lia.
  rewrite rn64_exact by lia. reflexivity.
Qed.

Lemma div_sixty_exact (k : Z) :
  Z.abs k < 2 ^ 53 -> div (FFin (60 * k * one)) sixty = Some (FFin (k * one)).
Proof.
  intros Hk. rewrite sixty_exact. pose proof one_pos as Hone.
  unfold div. destruct (60 * one) as [ | p | p] eqn:Hb; [lia | | lia].
  rewrite <- Hb.
  rewrite Z.sgn_pos, Z.abs_eq by lia.
  replace (1 * (60 * k * one) * one) with (k * one * (60 * one)) by lia.
  rewrite rn64_exact by lia. reflexivity.
Qed.

Lemma minutes_since_exact (now last : datetime) (k : Z) :
  utcoffset now <> None -> utcoffset last <> None ->
  instant now - instant last = k * 60000000 ->
  Z.abs k < 2 ^ 47 ->
  minutes_since now last = Ok (FFin (k * one)).
Proof.
  intros Hnow Hlast Hk Hsmall.
  unfold minutes_since, dt_sub.
  destruct (utcoffset now); [| congruence]. destruct (utcoffset last); [| congruence].
  rsimpl. rewrite Hk.
  replace (k * 60000000) with (60 * k * 1000000) by lia.
  rewrite total_seconds_exact by lia. rsimpl.
  rewrite div_sixty_exact by lia. reflexivity.
Qed.

Lemma whole_minutes_apart (a b : datetime) (oa ob : Z) :
  utcoffset a = Some oa -> utcoffset b = Some ob ->
  oa mod 60 = 0 -> ob mod 60 = 0 ->
  exists k, instant (truncate_to_minute a) - instant (truncate_to_minute b) = k * 60000000.
Proof.
  intros Ha Hb Hoa Hob.
  apply Z.mod_divide in Hoa; [| lia]. apply Z.mod_divide in Hob; [| lia].
  destruct Hoa as [qa ->]. destruct Hob as [qb ->].
  exists ((days_from_civil (year (civil a)) (month (civil a)) (day (civil a)) * 1440
           + hour (civil a) * 60 + minute (civil a) - qa)
          - (days_from_civil (year (civil b)) (month (civil b)) (day (civil b)) * 1440
             + hour (civil b) * 60 + minute (civil b) - qb)).
  unfold instant, truncate_to_minute. cbn. rewrite Ha, Hb. cbn. lia.
Qed.

(** X15.  The cooldown is exact on whole minutes.  Two minute-truncated
    aware values whose offsets are whole minutes (what [now_chicago]
    returns and what [update_last_run_time] stores) lie a whole number [k]
    of minutes apart; the difference the gate computes in floating point is
    then exactly [k], and with a whole [interval] the route is skipped
    exactly when [k < interval]: a run [interval] minutes after the last
    one, to the minute, is not skipped. *)
Theorem cooldown_exact_on_whole_minutes (E : env) :
  (forall a b oa ob,
      utcoffset a = Some oa -> utcoffset b = Some ob ->
      oa mod 60 = 0 -> ob mod 60 = 0 ->
      exists k,
        instant (truncate_to_minute a) - instant (truncate_to_minute b) = k * 60000000) /\
  (forall now last k interval,
      utcoffset now <> None -> utcoffset last <> None ->
      instant now - instant last = k * 60000000 ->
      Z.abs k < 2 ^ 47 -> Z.abs interval < 2 ^ 53 ->
      minutes_since now last = Ok (FFin (k * one)) /\
      (forall diff,
          cooldown_skips E (JInt interval) now last diff
          <-> diff = FFin (k * one) /\ k < interval) /\
      (cooldown_passes E (JInt interval) now (Some last) <-> interval <= k)).
Proof.
  split; [exact whole_minutes_apart |].
  intros now last k interval Hnow Hlast Hk Hsmall Hint.
  pose proof (minutes_since_exact now last k Hnow Hlast Hk Hsmall) as Hdiff.
  pose proof one_pos as Hone.
  assert (Hgap : py_float E (JInt interval) = Ok (FFin (interval * one))).
  { unfold py_float, as_number, to_float. rsimpl. rewrite of_int_exact by assumption. reflexivity. }
  assert (Hlt : ltb (FFin (k * one)) (FFin (interval * one)) = (k <? interval)).
  { unfold ltb. destruct (Z.ltb_spec k interval) as [H | H].
    - apply Z.ltb_lt. nia.
    - apply Z.ltb_ge. nia. }
  split; [exact Hdiff | split].
  - intros diff. unfold cooldown_skips. rewrite Hdiff, Hgap. split.
    + intros (Heq & gap & Hg & Hl). injection Heq as <-. injection Hg as <-.
      rewrite Hlt in Hl. apply Z.ltb_lt in Hl. auto.
    + intros (-> & Hl). split; [reflexivity |].
      eexists. split; [reflexivity |]. rewrite Hlt. apply Z.ltb_lt. exact Hl.
  - unfold cooldown_passes. split.
    + intros [Hnone | (last' & diff & gap & Hsome & Hd & Hg & Hl)]; [discriminate |].
      injection Hsome as <-. rewrite Hdiff in Hd. injection Hd as <-.
      rewrite Hgap in Hg. injection Hg as <-.
      rewrite Hlt in Hl. apply Z.ltb_ge in Hl. exact Hl.
    + intros Hle. right. exists last, (FFin (k * one)), (FFin (interval * one)).
      split; [reflexivity |]. split; [exact Hdiff |]. split; [exact Hgap |].
      rewrite Hlt. apply Z.ltb_ge. exact Hle.
Qed.

Lemma cooldown_exact_on_whole_minutes_witness :
  cooldown_skips home_world (JInt 15) (now_at home_world logged_at_eight) eight_o_clock
    (FFin (5 * one)) /\
  cooldown_passes home_world (JInt 5) (now_at home_world logged_at_eight) (Some eight_o_clock).
Proof.
  split.
  - apply (proj1 (proj2 (proj2 (cooldown_exact_on_whole_minutes home_world)
                          (now_at home_world logged_at_eight) eight_o_clock 5 15
                          ltac:(discriminate) ltac:(discriminate) eq_refl
                          ltac:(reflexivity) ltac:(reflexivity)))).
    split; [reflexivity | lia].
  - apply (proj2 (proj2 (proj2 (cooldown_exact_on_whole_minutes home_world)
                          (now_at home_world logged_at_eight) eight_o_clock 5 5
                          ltac:(discriminate) ltac:(discriminate) eq_refl
                          ltac:(reflexivity) ltac:(reflexivity)))).
    lia.
Defined.

(** ** Conversions that cannot fail *)

(** A quotient between two whole numbers below [2^53] rounds to a finite
    double between them. *)
Lemma rn64_between (a d lo hi : Z) :
  0 < d -> Z.abs lo < 2 ^ 53 -> Z.abs hi < 2 ^ 53 ->
  lo * one * d <= a <= hi * one * d ->
  exists r, rn64 a d = FFin r /\ lo * one <= r <= hi * one.
Proof.
  intros Hd Hlo Hhi [Hl Hh].
  pose proof (rn64_mono _ _ d Hd Hl) as Hlow. rewrite rn64_exact in Hlow by assumption.
  pose proof (rn64_mono _ _ d Hd Hh) as Hup. rewrite rn64_exact in Hup by assumption.
  destruct (rn64 a d) as [ | neg | r]; cbn in Hlow, Hup.
  - discriminate.
  - destruct neg; discriminate.
  - exists r. split; [reflexivity |].
    apply Z.leb_le in Hlow. apply Z.leb_le in Hup. lia.
Qed.

Lemma round1_between (k lo hi : Z) :
  Z.abs lo < 2 ^ 53 -> Z.abs hi < 2 ^ 53 ->
  lo * one <= k <= hi * one ->
  exists r, round1 (FFin k) = Some (FFin r) /\ lo * one <= r <= hi * one.
Proof.
  intros Hlo Hhi [Hl Hh]. pose proof one_pos as Hone.
  assert (Ht : 10 * lo <= rne (10 * k) one <= 10 * hi).
  { split.
    - rewrite <- (rne_exact (10 * lo) one Hone). apply rne_mono; lia.
    - rewrite <- (rne_exact (10 * hi) one Hone). apply rne_mono; lia. }
  destruct (rn64_between (rne (10 * k) one * one) 10 lo hi) as (r & Hr & Hb);
    [lia | assumption | assumption | nia |].
  exists r. split; [| exact Hb]. unfold round1. rewrite Hr. reflexivity.
Qed.

Lemma meters_per_mile_finite : exists b, meters_per_mile = FFin b /\ one <= b.
Proof.
  destruct (rn64_between (160934 * one) (10 ^ 2) 1 1610) as (b & Hb & Hle);
    [reflexivity | reflexivity | reflexivity | pose proof one_pos; lia |].
  exists b. split; [exact Hb | lia].
Qed.

Lemma div_pos (a b : Z) : 0 < b -> div (FFin a) (FFin b) = Some (rn64 (a * one) b).
Proof.
  intros Hb. unfold div. destruct b as [ | p | p]; [lia | | lia].
  rewrite Z.sgn_pos, Z.abs_eq by lia. do 2 f_equal. lia.
Qed.

Section Conversions.

Context (lo hi : Z) (Hlo : - 2 ^ 53 < lo <= 0) (Hhi : 0 <= hi < 2 ^ 53).

Lemma minutes_between (v : json) :
  between lo hi v ->
  exists k, (n ← as_number v; x ← truediv n (NInt 60); py_round1 x) = Ok (FFin k)
            /\ lo * one <= k <= hi * one.
Proof.
  intros Hv. pose proof one_pos as Hone.
  assert (Hraw : exists x, (n ← as_number v; truediv n (NInt 60)) = Ok (FFin x)
                           /\ lo * one <= x <= hi * one).
  { destruct v as [ | | z | [ | | a] | | | ]; try contradiction; cbn in Hv.
    - destruct (rn64_between (z * one) 60 lo hi) as (x & Hx & Hb); [lia | lia | lia | nia |].
      exists x. split; [| exact Hb].
      unfold as_number. rsimpl. unfold truediv. change (60 =? 0) with false. cbv iota.
      change (Z.sgn 60) with 1. change (Z.abs 60) with 60.
      replace (1 * z * one) with (z * one) by lia. rewrite Hx. reflexivity.
    - destruct (rn64_between (a * one) (60 * one) lo hi) as (x & Hx & Hb);
        [lia | lia | lia | nia |].
      exists x. split; [| exact Hb].
      unfold as_number. rsimpl. unfold truediv, to_float. rsimpl.
      rewrite (of_int_exact 60) by reflexivity. rsimpl.
      rewrite div_pos by lia. rewrite Hx. reflexivity. }
  destruct Hraw as (x & Hx & Hb).
  destruct (round1_between x lo hi) as (k & Hk & Hkb); [lia | lia | exact Hb |].
  exists k. split; [| exact Hkb].
  destruct (as_number v) as [n | e]; [| discriminate]. rsimpl. cbn in Hx.
  rewrite Hx. rsimpl. unfold py_round1. rewrite Hk. reflexivity.
Qed.

Lemma miles_between (v : json) :
  between lo hi v ->
  exists k, (n ← as_number v; x ← truediv n (NFloat meters_per_mile); py_round1 x)
            = Ok (FFin k)
            /\ lo * one <= k <= hi * one.
Proof.
  intros Hv. pose proof one_pos as Hone.
  destruct meters_per_mile_finite as (b & Hmile & Hb).
  assert (Hdiv : forall a, lo * one <= a <= hi * one ->
                   exists x, div (FFin a) meters_per_mile = Some (FFin x)
                             /\ lo * one <= x <= hi * one).
  { intros a Ha.
    destruct (rn64_between (a * one) b lo hi) as (x & Hx & Hxb); [lia | lia | lia | nia |].
    exists x. split; [| exact Hxb].
    rewrite Hmile. rewrite div_pos by lia. rewrite Hx. reflexivity. }
  assert (Hraw : exists x, (n ← as_number v; truediv n (NFloat meters_per_mile)) = Ok (FFin x)
                           /\ lo * one <= x <= hi * one).
  { destruct v as [ | | z | [ | | a] | | | ]; try contradiction; cbn in Hv.
    - destruct (Hdiv (z * one)) as (x & Hx & Hxb); [nia |].
      exists x. split; [| exact Hxb].
      unfold as_number. rsimpl. unfold truediv, to_float. rewrite of_int_exact by lia. rsimpl.
      rewrite Hx. reflexivity.
    - destruct (Hdiv a Hv) as (x & Hx & Hxb).
      exists x. split; [| exact Hxb].
      unfold as_number. rsimpl. unfold truediv, to_float. rsimpl. rewrite Hx. reflexivity. }
  destruct Hraw as (x & Hx & Hxb).
  destruct (round1_between x lo hi) as (k & Hk & Hkb); [lia | lia | exact Hxb |].
  exists k. split; [| exact Hkb].
  destruct (as_number v) as [n | e]; [| discriminate]. rsimpl. cbn in Hx.
  rewrite Hx. rsimpl. unfold py_round1. rewrite Hk. reflexivity.
Qed.

End Conversions.

Lemma duration_min_between (lo hi : Z) (leg : list (string * json)) (base v : json) :
  - 2 ^ 53 < lo <= 0 -> 0 <= hi < 2 ^ 53 ->
  assoc "duration" leg = Some base ->
  getitem (default base (assoc "duration_in_traffic" leg)) "value" = Ok v ->
  between lo hi v ->
  exists k, duration_min (JObj leg) = Ok (FFin k) /\ lo * one <= k <= hi * one.
Proof.
  intros Hlo Hhi Hbase Hvalue Hv.
  destruct (minutes_between lo hi Hlo Hhi v Hv) as (k & Hk & Hb).
  exists k. split; [| exact Hb].
  assert (Hg : getitem (JObj leg) "duration" = Ok base)
    by (unfold getitem; rewrite Hbase; reflexivity).
  unfold duration_min. rewrite Hg. rsimpl. rewrite Hvalue. rsimpl.
  exact Hk.
Qed.

Lemma distance_mi_between (lo hi : Z) (leg : list (string * json)) (d v : json) :
  - 2 ^ 53 < lo <= 0 -> 0 <= hi < 2 ^ 53 ->
  assoc "distance" leg = Some d ->
  getitem d "value" = Ok v ->
  between lo hi v ->
  exists k, distance_mi (JObj leg) = Ok (FFin k) /\ lo * one <= k <= hi * one.
Proof.
  intros Hlo Hhi Hd Hvalue Hv.
  destruct (miles_between lo hi Hlo Hhi v Hv) as (k & Hk & Hb).
  exists k. split; [| exact Hb].
  assert (Hg : getitem (JObj leg) "distance" = Ok d)
    by (unfold getitem; rewrite Hd; reflexivity).
  unfold distance_mi. rewrite Hg. rsimpl. rewrite Hvalue. rsimpl.
  exact Hk.
Qed.

Lemma weekday_in_day_names (dt : datetime) : In (weekday_name dt) day_names.
Proof.
  unfold weekday_name.
  set (wd := (days_from_civil (year (civil dt)) (month (civil dt)) (day (civil dt)) + 3) mod 7).
  assert (Hwd : 0 <= wd < 7) by (apply Z.mod_pos_bound; lia).
  assert (Hcases : wd = 0 \/ wd = 1 \/ wd = 2 \/ wd = 3 \/ wd = 4 \/ wd = 5 \/ wd = 6) by lia.
  clearbody wd.
  destruct Hcases as [-> | [-> | [-> | [-> | [-> | [-> | ->]]]]]]; vm_compute; tauto.
Qed.

(** X16.  Normalisation cannot fail on an alternative in the documented
    shape.  When the first leg carries a duration and a distance whose
    values are whole numbers or doubles between [lo <= 0] and [hi >= 0]
    (both below [2^53] in size) and its steps carry instruction strings,
    the record is built for any string origin and destination: no
    conversion overflows or divides by zero, the row has the six cells of
    the header row, minutes and miles are finite doubles within the same
    bounds (so never negative for non-negative input), and the day is one
    of the seven names the day filter compares with. *)
Theorem documented_alternative_is_recorded (origin destination : string) (now : datetime)
    (r : json) (leg : list (string * json)) (base secs d meters : json)
    (steps : list json) (instructions : list string) (lo hi : Z) :
  - 2 ^ 53 < lo <= 0 -> 0 <= hi < 2 ^ 53 ->
  first_leg r = Ok (JObj leg) ->
  assoc "duration" leg = Some base ->
  getitem (default base (assoc "duration_in_traffic" leg)) "value" = Ok secs ->
  between lo hi secs ->
  assoc "distance" leg = Some d ->
  getitem d "value" = Ok meters ->
  between lo hi meters ->
  default (JArr []) (assoc "steps" leg) = JArr steps ->
  Forall2 (fun step s => getitem step "html_instructions" = Ok (JStr s)) steps instructions ->
  exists summary minutes miles,
    get_default r "summary" (JStr "N/A") = Ok summary /\
    commute_record (JStr origin) (JStr destination) now r
    = Ok [JStr (strftime_stamp now); JStr (weekday_name now); summary;
          JFloat (FFin minutes); JFloat (FFin miles);
          JStr (join " → " (map strip_bold instructions))] /\
    length [JStr (strftime_stamp now); JStr (weekday_name now); summary;
            JFloat (FFin minutes); JFloat (FFin miles);
            JStr (join " → " (map strip_bold instructions))] = length headers /\
    lo * one <= minutes <= hi * one /\
    lo * one <= miles <= hi * one /\
    In (weekday_name now) day_names.
Proof.
  intros Hlo Hhi Hleg Hbase Hsecs Hbs Hd Hmeters Hbm Hsteps Hall.
  destruct (duration_min_between lo hi leg base secs Hlo Hhi Hbase Hsecs Hbs)
    as (minutes & Hmin & Hminb).
  destruct (distance_mi_between lo hi leg d meters Hlo Hhi Hd Hmeters Hbm)
    as (miles & Hmi & Hmib).
  assert (Hdir : turn_by_turn (JObj leg) = Ok (join " → " (map strip_bold instructions))).
  { unfold turn_by_turn, get_default. rewrite Hsteps. rsimpl. cbn [iter]. rsimpl.
    rewrite (clean_steps_strings steps instructions Hall). reflexivity. }
  destruct r as [ | | | | | | kv]; try (cbn in Hleg; discriminate).
  exists (default (JStr "N/A") (assoc "summary" kv)), minutes, miles.
  split; [reflexivity |]. split; [| split; [reflexivity | split; [exact Hminb | split;
    [exact Hmib | apply weekday_in_day_names]]]].
  unfold commute_record. rewrite Hleg. rsimpl. rewrite Hmin. rsimpl. rewrite Hmi. rsimpl.
  unfold get_default at 1. rsimpl. rewrite Hdir. reflexivity.
Qed.

Lemma documented_alternative_is_recorded_witness :
  exists summary minutes miles,
    get_default i94 "summary" (JStr "N/A") = Ok summary /\
    commute_record (JStr "A") (JStr "B") (now_at home_world logged_at_eight) i94
    = Ok [JStr (strftime_stamp (now_at home_world logged_at_eight));
          JStr (weekday_name (now_at home_world logged_at_eight)); summary;
          JFloat (FFin minutes); JFloat (FFin miles);
          JStr (join " → " (map strip_bold ["Head <b>north</b>"%string]))] /\
    length [JStr (strftime_stamp (now_at home_world logged_at_eight));
            JStr (weekday_name (now_at home_world logged_at_eight)); summary;
            JFloat (FFin minutes); JFloat (FFin miles);
            JStr (join " → " (map strip_bold ["Head <b>north</b>"%string]))]
    = length headers /\
    0 * one <= minutes <= 18000 * one /\
    0 * one <= miles <= 18000 * one /\
    In (weekday_name (now_at home_world logged_at_eight)) day_names.
Proof.
  eapply (documented_alternative_is_recorded "A" "B" (now_at home_world logged_at_eight) i94
            _ _ (JInt 2100) _ (JInt 18000) _ ["Head <b>north</b>"%string] 0 18000).
  - lia.
  - lia.
  - reflexivity.
  - reflexivity.
  - reflexivity.
  - cbn. lia.
  - reflexivity.
  - reflexivity.
  - cbn. lia.
  - reflexivity.
  - repeat constructor.
Defined.
